(** * The interactive view of the 3D scene: camera, input, lights, projection

    A shallow embedding of [Source/ViewManager.cpp] and of
    [Source/SceneManager.cpp].

    Numbers.  A C++ [float] or [double] is modelled as a real number: the
    arithmetic is exact, and rounding, infinities and NaN are outside the
    model.  The scalar updates that the clamps are made of are given a
    second time on IEEE binary32, where they compute ([Binary32]), and so is
    the cursor callback, whose stores convert a [double] to a [float].  A
    C++ [int] is a [Z].  [std::min] and [std::max] are written with the
    comparison the standard library performs.

    Effects.  The file-scope variables of the anonymous namespace are the
    record [Globals], the data members of the class are the record
    [ViewManager]; GLFW's key state is a function from key codes to
    [GLFW_PRESS] / [GLFW_RELEASE]; the shader manager is the list of the
    uniform writes it has received; stb_image, OpenGL and the mesh library
    are the list of the calls made to them.  Dereferencing a null pointer
    and a loop that never ends are outcomes of their own. *)

From stdpp Require Import base option list gmap strings.
From Stdlib Require Import ZArith Reals Lra Lia Floats.SpecFloat.

Local Open Scope R_scope.

(** ** <algorithm> *)

(** [std::max(a, b)] is [(a < b) ? b : a]. *)
Definition std_max (a b : R) : R := if Rlt_dec a b then b else a.

(** [std::min(a, b)] is [(b < a) ? b : a]. *)
Definition std_min (a b : R) : R := if Rlt_dec b a then b else a.

(** ** Outcomes of a call *)

Inductive outcome (A : Type) : Type :=
| Done (a : A)     (* the call returns *)
| NullDeref        (* a member is accessed through a null pointer *)
| Blocked.         (* a loop is still running when the input ends *)
Arguments Done {A} a.
Arguments NullDeref {A}.
Arguments Blocked {A}.

#[export] Instance outcome_bind : MBind outcome := fun A B k c =>
  match c with
  | Done a => k a
  | NullDeref => NullDeref
  | Blocked => Blocked
  end.

#[export] Instance outcome_ret : MRet outcome := @Done.

(** ** GLFW: key codes and key states (glfw3.h) *)

Module GLFW.
Definition RELEASE : Z := 0.
Definition PRESS : Z := 1.

Definition KEY_APOSTROPHE : Z := 39.
Definition KEY_MINUS : Z := 45.
Definition KEY_1 : Z := 49.
Definition KEY_2 : Z := 50.
Definition KEY_3 : Z := 51.
Definition KEY_4 : Z := 52.
Definition KEY_SEMICOLON : Z := 59.
Definition KEY_EQUAL : Z := 61.
Definition KEY_A : Z := 65.
Definition KEY_D : Z := 68.
Definition KEY_E : Z := 69.
Definition KEY_F : Z := 70.
Definition KEY_L : Z := 76.
Definition KEY_P : Z := 80.
Definition KEY_Q : Z := 81.
Definition KEY_S : Z := 83.
Definition KEY_T : Z := 84.
Definition KEY_W : Z := 87.
Definition KEY_X : Z := 88.
Definition KEY_Z : Z := 90.
Definition KEY_ESCAPE : Z := 256.
Definition KEY_RIGHT : Z := 262.
Definition KEY_LEFT : Z := 263.
Definition KEY_DOWN : Z := 264.
Definition KEY_UP : Z := 265.
Definition KEY_PAGE_UP : Z := 266.
Definition KEY_PAGE_DOWN : Z := 267.
Definition KEY_KP_SUBTRACT : Z := 333.
Definition KEY_KP_ADD : Z := 334.
Definition KEY_LEFT_SHIFT : Z := 340.

(** What [glfwGetKey(window, key)] returns for each key of one window. *)
Definition KeyState : Type := Z -> Z.

(** [glfwGetKey(window, key) == GLFW_PRESS] *)
Definition pressed (window : KeyState) (key : Z) : bool :=
  (window key =? PRESS)%Z.

(** [glfwGetKey(window, key) == GLFW_RELEASE] *)
Definition released (window : KeyState) (key : Z) : bool :=
  (window key =? RELEASE)%Z.

(** An event that [glfwPollEvents] hands to a registered callback. *)
Inductive Event : Type :=
| CursorPos (xMousePos yMousePos : R)
| Scroll (xOffset yOffset : R).

(** One call of [glfwPollEvents]: the callbacks it runs and the key state
    it leaves. *)
Record Poll : Type := mkPoll {
  poll_events : list Event;
  poll_keys : KeyState
}.
End GLFW.

(** ** GLM: vectors, and matrices as the calls that build them *)

Module glm.
Record vec3 : Type := Vec3 { x : R; y : R; z : R }.

Definition add (a b : vec3) : vec3 := Vec3 (x a + x b) (y a + y b) (z a + z b).
Definition sub (a b : vec3) : vec3 := Vec3 (x a - x b) (y a - y b) (z a - z b).
Definition scale3 (a : vec3) (s : R) : vec3 := Vec3 (x a * s) (y a * s) (z a * s).
Definition dot (a b : vec3) : R := x a * x b + y a * y b + z a * z b.
Definition cross (a b : vec3) : vec3 :=
  Vec3 (y a * z b - z a * y b) (z a * x b - x a * z b) (x a * y b - y a * x b).
Definition length (a : vec3) : R := sqrt (dot a a).
Definition normalize (a : vec3) : vec3 := scale3 a (/ length a).

Definition radians (degrees : R) : R := degrees * PI / 180.

(** A 4x4 matrix is kept as the GLM call that produced it. *)
Inductive mat4 : Type :=
| lookAt (eye center up : vec3)
| ortho (left right bottom top zNear zFar : R)
| perspective (fovy aspect zNear zFar : R)
| scale (v : vec3)
| rotate (angle : R) (axis : vec3)
| translate (v : vec3)
| mul (a b : mat4).
End glm.

(** ** The shader manager: the uniform writes it receives, oldest first *)

Inductive UniformWrite : Type :=
| setMat4Value (name : string) (m : glm.mat4)
| setVec3Value (name : string) (v : glm.vec3)
| setVec4Value (name : string) (r g b a : R)
| setVec2Value (name : string) (u v : R)
| setFloatValue (name : string) (value : R)
| setIntValue (name : string) (value : Z)
| setSampler2DValue (name : string) (slot : Z)
| light_uniforms (on : list bool) (pos : list glm.vec3) (intensity : list R)
                 (dirLightOn flashlightOn : bool) (ambientBoost : R).

Definition ShaderManager : Type := list UniformWrite.

(** ** The camera *)

Module Camera.
Import glm.

(** Modelled from the spec: the class [Camera] (camera.h) is not under
    src/.  The fields are those of the spec's CameraState; the fixed
    sensitivity constant of the look operation is kept as a field that no
    operation changes, so that no value is invented for it. *)
Record t : Type := mk {
  Position : vec3;
  Front : vec3;
  Up : vec3;
  Right : vec3;
  Yaw : R;
  Pitch : R;
  Zoom : R;
  MovementSpeed : R;
  MouseSensitivity : R
}.

Definition set_Position (v : vec3) (c : t) : t :=
  mk v (Front c) (Up c) (Right c) (Yaw c) (Pitch c) (Zoom c)
     (MovementSpeed c) (MouseSensitivity c).
Definition set_Front (v : vec3) (c : t) : t :=
  mk (Position c) v (Up c) (Right c) (Yaw c) (Pitch c) (Zoom c)
     (MovementSpeed c) (MouseSensitivity c).
Definition set_Up (v : vec3) (c : t) : t :=
  mk (Position c) (Front c) v (Right c) (Yaw c) (Pitch c) (Zoom c)
     (MovementSpeed c) (MouseSensitivity c).
Definition set_Right (v : vec3) (c : t) : t :=
  mk (Position c) (Front c) (Up c) v (Yaw c) (Pitch c) (Zoom c)
     (MovementSpeed c) (MouseSensitivity c).
Definition set_Yaw (a : R) (c : t) : t :=
  mk (Position c) (Front c) (Up c) (Right c) a (Pitch c) (Zoom c)
     (MovementSpeed c) (MouseSensitivity c).
Definition set_Pitch (a : R) (c : t) : t :=
  mk (Position c) (Front c) (Up c) (Right c) (Yaw c) a (Zoom c)
     (MovementSpeed c) (MouseSensitivity c).
Definition set_Zoom (a : R) (c : t) : t :=
  mk (Position c) (Front c) (Up c) (Right c) (Yaw c) (Pitch c) a
     (MovementSpeed c) (MouseSensitivity c).
Definition set_MovementSpeed (a : R) (c : t) : t :=
  mk (Position c) (Front c) (Up c) (Right c) (Yaw c) (Pitch c) (Zoom c)
     a (MouseSensitivity c).

(** Modelled from the spec: "translates position along basis vectors
    scaled by distance". *)
Definition MoveForward (distance : R) (c : t) : t :=
  set_Position (add (Position c) (scale3 (Front c) distance)) c.
Definition MoveBackward (distance : R) (c : t) : t :=
  set_Position (sub (Position c) (scale3 (Front c) distance)) c.
Definition MoveLeft (distance : R) (c : t) : t :=
  set_Position (sub (Position c) (scale3 (Right c) distance)) c.
Definition MoveRight (distance : R) (c : t) : t :=
  set_Position (add (Position c) (scale3 (Right c) distance)) c.
Definition MoveUp (distance : R) (c : t) : t :=
  set_Position (add (Position c) (scale3 (Up c) distance)) c.
Definition MoveDown (distance : R) (c : t) : t :=
  set_Position (sub (Position c) (scale3 (Up c) distance)) c.

Inductive Camera_Movement : Type :=
| FORWARD | BACKWARD | LEFT | RIGHT | UP | DOWN.

(** Modelled from the spec: [ProcessKeyboard(direction, deltaTime)] is the
    caller-side time scaling of the moves above, the distance being the
    movement speed times the elapsed time. *)
Definition ProcessKeyboard (direction : Camera_Movement) (deltaTime : R)
    (c : t) : t :=
  let velocity := MovementSpeed c * deltaTime in
  match direction with
  | FORWARD => MoveForward velocity c
  | BACKWARD => MoveBackward velocity c
  | LEFT => MoveLeft velocity c
  | RIGHT => MoveRight velocity c
  | UP => MoveUp velocity c
  | DOWN => MoveDown velocity c
  end.

Definition WorldUp : vec3 := Vec3 0 1 0.

(** Modelled from the spec: "recomputes front/right/up from the updated
    yaw/pitch via standard spherical-to-Cartesian conversion,
    re-normalizes all three". *)
Definition updateCameraVectors (c : t) : t :=
  let front :=
    Vec3 (cos (radians (Yaw c)) * cos (radians (Pitch c)))
         (sin (radians (Pitch c)))
         (sin (radians (Yaw c)) * cos (radians (Pitch c))) in
  let c := set_Front (normalize front) c in
  let c := set_Right (normalize (cross (Front c) WorldUp)) c in
  set_Up (normalize (cross (Right c) (Front c))) c.

(** Modelled from the spec: "adds offsets to yaw/pitch (scaled by a fixed
    sensitivity constant), clamps pitch to (-89, 89)", a clamp being, in
    the spec's glossary, a constraint to a closed interval; then the basis
    is recomputed. *)
Definition ProcessMouseMovement (xoffset yoffset : R) (c : t) : t :=
  let xoffset := xoffset * MouseSensitivity c in
  let yoffset := yoffset * MouseSensitivity c in
  let c := set_Yaw (Yaw c + xoffset) c in
  let c := set_Pitch (Pitch c + yoffset) c in
  let c := if Rlt_dec 89 (Pitch c) then set_Pitch 89 c else c in
  let c := if Rlt_dec (Pitch c) (-89) then set_Pitch (-89) c else c in
  updateCameraVectors c.

(** Modelled from the spec: "a look-at transform built from position,
    position+front, and up". *)
Definition GetViewMatrix (c : t) : mat4 :=
  lookAt (Position c) (add (Position c) (Front c)) (Up c).
End Camera.

(** ** ViewManager.cpp *)

Module View.
Import GLFW.

(** The constants of the anonymous namespace. *)
Definition WINDOW_WIDTH : Z := 1000.
Definition WINDOW_HEIGHT : Z := 800.
Definition g_ViewName : string := "view".
Definition g_ProjectionName : string := "projection".

(** The variables of the anonymous namespace.  [g_pCamera] is a pointer:
    [None] is the null pointer. *)
Record Globals : Type := mkGlobals {
  g_pCamera : option Camera.t;
  gLastX : R;
  gLastY : R;
  gFirstMouse : bool;
  gDeltaTime : R;
  gLastFrame : R;
  bOrthographicProjection : bool
}.

(** The initial values written in the namespace. *)
Definition initial_globals : Globals :=
  mkGlobals None (IZR WINDOW_WIDTH / 2) (IZR WINDOW_HEIGHT / 2) true 0 0 false.

Definition set_g_pCamera (v : option Camera.t) (g : Globals) : Globals :=
  mkGlobals v (gLastX g) (gLastY g) (gFirstMouse g) (gDeltaTime g)
            (gLastFrame g) (bOrthographicProjection g).
Definition set_gLastX (v : R) (g : Globals) : Globals :=
  mkGlobals (g_pCamera g) v (gLastY g) (gFirstMouse g) (gDeltaTime g)
            (gLastFrame g) (bOrthographicProjection g).
Definition set_gLastY (v : R) (g : Globals) : Globals :=
  mkGlobals (g_pCamera g) (gLastX g) v (gFirstMouse g) (gDeltaTime g)
            (gLastFrame g) (bOrthographicProjection g).
Definition set_gFirstMouse (v : bool) (g : Globals) : Globals :=
  mkGlobals (g_pCamera g) (gLastX g) (gLastY g) v (gDeltaTime g)
            (gLastFrame g) (bOrthographicProjection g).
Definition set_gDeltaTime (v : R) (g : Globals) : Globals :=
  mkGlobals (g_pCamera g) (gLastX g) (gLastY g) (gFirstMouse g) v
            (gLastFrame g) (bOrthographicProjection g).
Definition set_gLastFrame (v : R) (g : Globals) : Globals :=
  mkGlobals (g_pCamera g) (gLastX g) (gLastY g) (gFirstMouse g)
            (gDeltaTime g) v (bOrthographicProjection g).
Definition set_bOrthographicProjection (v : bool) (g : Globals) : Globals :=
  mkGlobals (g_pCamera g) (gLastX g) (gLastY g) (gFirstMouse g)
            (gDeltaTime g) (gLastFrame g) v.

(** [g_pCamera->method(...)]: the call goes through the pointer. *)
Definition with_camera (f : Camera.t -> Camera.t) (g : Globals)
    : outcome Globals :=
  match g_pCamera g with
  | Some cam => Done (set_g_pCamera (Some (f cam)) g)
  | None => NullDeref
  end.

(** [ViewManager::ViewManager], the part that acts on the namespace:
    [g_pCamera = new Camera()] followed by the default view parameters.
    [fresh] is what [Camera()] constructs. *)
Definition construct_camera (fresh : Camera.t) (g : Globals) : Globals :=
  let cam := fresh in
  let cam := Camera.set_Position (glm.Vec3 0 5 12) cam in
  let cam := Camera.set_Front (glm.Vec3 0 (-0.5) (-2)) cam in
  let cam := Camera.set_Up (glm.Vec3 0 1 0) cam in
  let cam := Camera.set_Zoom 80 cam in
  let cam := Camera.set_MovementSpeed 20 cam in
  set_g_pCamera (Some cam) g.

(** [ViewManager::Mouse_Position_Callback].  On real numbers the stores to
    the [float] variables [gLastX] and [gLastY] keep the [double]
    coordinates as they are; the conversions are in
    [Binary32.Mouse_Position_Callback]. *)
Definition Mouse_Position_Callback (xMousePos yMousePos : R) (g : Globals)
    : outcome Globals :=
  let g :=
    if gFirstMouse g then
      let g := set_gLastX xMousePos g in
      let g := set_gLastY yMousePos g in
      set_gFirstMouse false g
    else g in
  let xOffset := xMousePos - gLastX g in
  let yOffset := gLastY g - yMousePos in
  let g := set_gLastX xMousePos g in
  let g := set_gLastY yMousePos g in
  with_camera (Camera.ProcessMouseMovement xOffset yOffset) g.

(** [ViewManager::Scroll_Callback] *)
Definition Scroll_Callback (xOffset yOffset : R) (g : Globals) : Globals :=
  match g_pCamera g with
  | Some cam =>
      let cam := Camera.set_Zoom (Camera.Zoom cam - yOffset) cam in
      let cam := if Rlt_dec (Camera.Zoom cam) 1
                 then Camera.set_Zoom 1 cam else cam in
      let cam := if Rgt_dec (Camera.Zoom cam) 90
                 then Camera.set_Zoom 90 cam else cam in
      set_g_pCamera (Some cam) g
  | None => g
  end.

(** [glfwPollEvents]: the pending events go to the callbacks registered in
    [CreateDisplayWindow], in order. *)
Definition dispatch (e : Event) (g : Globals) : outcome Globals :=
  match e with
  | CursorPos xMousePos yMousePos => Mouse_Position_Callback xMousePos yMousePos g
  | Scroll xOffset yOffset => Done (Scroll_Callback xOffset yOffset g)
  end.

Fixpoint glfwPollEvents (events : list Event) (g : Globals) : outcome Globals :=
  match events with
  | [] => Done g
  | e :: events => g ← dispatch e g; glfwPollEvents events g
  end.

(** What [SetWindowTitleWithSelection] interpolates into
    "Graphics Project | Selected Light: _ | Move speed x_". *)
Record WindowTitle : Type := mkTitle {
  title_selected_light : Z;
  title_move_speed : R
}.

(** The data members of the class that the source uses; their declarations
    (ViewManager.h) are not under src/.  [m_keyOnce] maps a key code to its
    latch, an absent key being a clear latch.  The three per-light arrays
    are lists; [m_window_title] is the title last given to [m_window]. *)
Record ViewManager : Type := mkViewManager {
  m_pShaderManager : option ShaderManager;
  m_camera : Camera.t;
  m_keyOnce : gmap Z bool;
  m_moveSpeedScale : R;
  m_selectedPointLight : Z;
  m_pointLightPos : list glm.vec3;
  m_pointLightOn : list bool;
  m_pointIntensity : list R;
  m_dirLightOn : bool;
  m_flashlightOn : bool;
  m_ambientBoost : R;
  m_window_title : option WindowTitle
}.

Definition set_m_pShaderManager v (vm : ViewManager) : ViewManager :=
  mkViewManager v (m_camera vm) (m_keyOnce vm) (m_moveSpeedScale vm)
    (m_selectedPointLight vm) (m_pointLightPos vm) (m_pointLightOn vm)
    (m_pointIntensity vm) (m_dirLightOn vm) (m_flashlightOn vm)
    (m_ambientBoost vm) (m_window_title vm).
Definition set_m_camera v (vm : ViewManager) : ViewManager :=
  mkViewManager (m_pShaderManager vm) v (m_keyOnce vm) (m_moveSpeedScale vm)
    (m_selectedPointLight vm) (m_pointLightPos vm) (m_pointLightOn vm)
    (m_pointIntensity vm) (m_dirLightOn vm) (m_flashlightOn vm)
    (m_ambientBoost vm) (m_window_title vm).
Definition set_m_keyOnce v (vm : ViewManager) : ViewManager :=
  mkViewManager (m_pShaderManager vm) (m_camera vm) v (m_moveSpeedScale vm)
    (m_selectedPointLight vm) (m_pointLightPos vm) (m_pointLightOn vm)
    (m_pointIntensity vm) (m_dirLightOn vm) (m_flashlightOn vm)
    (m_ambientBoost vm) (m_window_title vm).
Definition set_m_moveSpeedScale v (vm : ViewManager) : ViewManager :=
  mkViewManager (m_pShaderManager vm) (m_camera vm) (m_keyOnce vm) v
    (m_selectedPointLight vm) (m_pointLightPos vm) (m_pointLightOn vm)
    (m_pointIntensity vm) (m_dirLightOn vm) (m_flashlightOn vm)
    (m_ambientBoost vm) (m_window_title vm).
Definition set_m_selectedPointLight v (vm : ViewManager) : ViewManager :=
  mkViewManager (m_pShaderManager vm) (m_camera vm) (m_keyOnce vm)
    (m_moveSpeedScale vm) v (m_pointLightPos vm) (m_pointLightOn vm)
    (m_pointIntensity vm) (m_dirLightOn vm) (m_flashlightOn vm)
    (m_ambientBoost vm) (m_window_title vm).
Definition set_m_pointLightPos v (vm : ViewManager) : ViewManager :=
  mkViewManager (m_pShaderManager vm) (m_camera vm) (m_keyOnce vm)
    (m_moveSpeedScale vm) (m_selectedPointLight vm) v (m_pointLightOn vm)
    (m_pointIntensity vm) (m_dirLightOn vm) (m_flashlightOn vm)
    (m_ambientBoost vm) (m_window_title vm).
Definition set_m_pointLightOn v (vm : ViewManager) : ViewManager :=
  mkViewManager (m_pShaderManager vm) (m_camera vm) (m_keyOnce vm)
    (m_moveSpeedScale vm) (m_selectedPointLight vm) (m_pointLightPos vm) v
    (m_pointIntensity vm) (m_dirLightOn vm) (m_flashlightOn vm)
    (m_ambientBoost vm) (m_window_title vm).
Definition set_m_pointIntensity v (vm : ViewManager) : ViewManager :=
  mkViewManager (m_pShaderManager vm) (m_camera vm) (m_keyOnce vm)
    (m_moveSpeedScale vm) (m_selectedPointLight vm) (m_pointLightPos vm)
    (m_pointLightOn vm) v (m_dirLightOn vm) (m_flashlightOn vm)
    (m_ambientBoost vm) (m_window_title vm).
Definition set_m_dirLightOn v (vm : ViewManager) : ViewManager :=
  mkViewManager (m_pShaderManager vm) (m_camera vm) (m_keyOnce vm)
    (m_moveSpeedScale vm) (m_selectedPointLight vm) (m_pointLightPos vm)
    (m_pointLightOn vm) (m_pointIntensity vm) v (m_flashlightOn vm)
    (m_ambientBoost vm) (m_window_title vm).
Definition set_m_flashlightOn v (vm : ViewManager) : ViewManager :=
  mkViewManager (m_pShaderManager vm) (m_camera vm) (m_keyOnce vm)
    (m_moveSpeedScale vm) (m_selectedPointLight vm) (m_pointLightPos vm)
    (m_pointLightOn vm) (m_pointIntensity vm) (m_dirLightOn vm) v
    (m_ambientBoost vm) (m_window_title vm).
Definition set_m_ambientBoost v (vm : ViewManager) : ViewManager :=
  mkViewManager (m_pShaderManager vm) (m_camera vm) (m_keyOnce vm)
    (m_moveSpeedScale vm) (m_selectedPointLight vm) (m_pointLightPos vm)
    (m_pointLightOn vm) (m_pointIntensity vm) (m_dirLightOn vm)
    (m_flashlightOn vm) v (m_window_title vm).
Definition set_m_window_title v (vm : ViewManager) : ViewManager :=
  mkViewManager (m_pShaderManager vm) (m_camera vm) (m_keyOnce vm)
    (m_moveSpeedScale vm) (m_selectedPointLight vm) (m_pointLightPos vm)
    (m_pointLightOn vm) (m_pointIntensity vm) (m_dirLightOn vm)
    (m_flashlightOn vm) (m_ambientBoost vm) v.

(** [a[i] = f(a[i])] for an [int] index.  Inside the array this is the
    update of one element; outside it C++ gives no meaning to the
    statement, and the model leaves the array as it is. *)
Definition update_at {A : Type} (f : A -> A) (i : Z) (a : list A) : list A :=
  if (0 <=? i)%Z then alter f (Z.to_nat i) a else a.

(** [m_keyOnce[key]] *)
Definition latched (keyOnce : gmap Z bool) (key : Z) : bool :=
  default false (keyOnce !! key).

(** [ViewManager::KeyPressedOnce] *)
Definition KeyPressedOnce (m_window : KeyState) (key : Z) (vm : ViewManager)
    : bool * ViewManager :=
  let state := m_window key in
  if (state =? PRESS)%Z && negb (latched (m_keyOnce vm) key) then
    (true, set_m_keyOnce (<[key := true]> (m_keyOnce vm)) vm)
  else
    let vm :=
      if (state =? RELEASE)%Z
      then set_m_keyOnce (<[key := false]> (m_keyOnce vm)) vm
      else vm in
    (false, vm).

(** [ViewManager::SetWindowTitleWithSelection] *)
Definition SetWindowTitleWithSelection (vm : ViewManager) : ViewManager :=
  set_m_window_title
    (Some (mkTitle (m_selectedPointLight vm + 1) (m_moveSpeedScale vm))) vm.

(** Modelled from the spec: [UploadInteractiveUniforms] is called by the
    source and not defined under src/.  It pushes "every Light Parameter
    Set field to the shader interface", and "if the shader interface is
    unavailable, all uniform-upload steps are skipped silently". *)
Definition UploadInteractiveUniforms (vm : ViewManager) : ViewManager :=
  match m_pShaderManager vm with
  | Some shader =>
      set_m_pShaderManager
        (Some (shader ++
               [light_uniforms (m_pointLightOn vm) (m_pointLightPos vm)
                  (m_pointIntensity vm) (m_dirLightOn vm)
                  (m_flashlightOn vm) (m_ambientBoost vm)])) vm
  | None => vm
  end.

(** *** [ViewManager::HandleInteractiveShortcuts]

    The function is cut at its blank lines into blocks, in source order. *)

(** Lines 306-309: the step of every held-key move. *)
Definition shortcut_speed (window : KeyState) (vm : ViewManager) : R :=
  let dt := 0.016 in
  let base := 3 in
  let speed := base * m_moveSpeedScale vm * dt in
  if pressed window KEY_LEFT_SHIFT then speed * 2 else speed.

(** Lines 312-317 *)
Definition Shortcuts_Camera (window : KeyState) (speed : R)
    (vm : ViewManager) : ViewManager :=
  let vm := if pressed window KEY_W
            then set_m_camera (Camera.MoveForward speed (m_camera vm)) vm else vm in
  let vm := if pressed window KEY_S
            then set_m_camera (Camera.MoveBackward speed (m_camera vm)) vm else vm in
  let vm := if pressed window KEY_A
            then set_m_camera (Camera.MoveLeft speed (m_camera vm)) vm else vm in
  let vm := if pressed window KEY_D
            then set_m_camera (Camera.MoveRight speed (m_camera vm)) vm else vm in
  let vm := if pressed window KEY_Q
            then set_m_camera (Camera.MoveDown speed (m_camera vm)) vm else vm in
  let vm := if pressed window KEY_E
            then set_m_camera (Camera.MoveUp speed (m_camera vm)) vm else vm in
  vm.

(** Lines 321 and 325: the two updates of the speed multiplier. *)
Definition halve_speed (scale : R) : R := std_max 0.25 (scale * 0.5).
Definition double_speed (scale : R) : R := std_min 8 (scale * 2).

(** Lines 320-327 *)
Definition Shortcuts_SpeedScale (m_window : KeyState) (vm : ViewManager)
    : ViewManager :=
  let '(once, vm) := KeyPressedOnce m_window KEY_Z vm in
  let vm := if once then
              let vm := set_m_moveSpeedScale (halve_speed (m_moveSpeedScale vm)) vm in
              SetWindowTitleWithSelection vm
            else vm in
  let '(once, vm) := KeyPressedOnce m_window KEY_X vm in
  let vm := if once then
              let vm := set_m_moveSpeedScale (double_speed (m_moveSpeedScale vm)) vm in
              SetWindowTitleWithSelection vm
            else vm in
  vm.

(** One line of 330-333: [if (KeyPressedOnce(key)) { m_selectedPointLight =
    index; SetWindowTitleWithSelection(); }] *)
Definition select_on (m_window : KeyState) (key index : Z) (vm : ViewManager)
    : ViewManager :=
  let '(once, vm) := KeyPressedOnce m_window key vm in
  if once then SetWindowTitleWithSelection (set_m_selectedPointLight index vm)
  else vm.

(** Lines 330-333 *)
Definition Shortcuts_SelectLight (m_window : KeyState) (vm : ViewManager)
    : ViewManager :=
  let vm := select_on m_window KEY_1 0 vm in
  let vm := select_on m_window KEY_2 1 vm in
  let vm := select_on m_window KEY_3 2 vm in
  let vm := select_on m_window KEY_4 3 vm in
  vm.

(** [m_pointLightPos[m_selectedPointLight].c += d] for each component *)
Definition nudge_x (d : R) (vm : ViewManager) : ViewManager :=
  set_m_pointLightPos
    (update_at (fun p => glm.Vec3 (glm.x p + d) (glm.y p) (glm.z p))
               (m_selectedPointLight vm) (m_pointLightPos vm)) vm.
Definition nudge_y (d : R) (vm : ViewManager) : ViewManager :=
  set_m_pointLightPos
    (update_at (fun p => glm.Vec3 (glm.x p) (glm.y p + d) (glm.z p))
               (m_selectedPointLight vm) (m_pointLightPos vm)) vm.
Definition nudge_z (d : R) (vm : ViewManager) : ViewManager :=
  set_m_pointLightPos
    (update_at (fun p => glm.Vec3 (glm.x p) (glm.y p) (glm.z p + d))
               (m_selectedPointLight vm) (m_pointLightPos vm)) vm.

(** Lines 335-340 *)
Definition Shortcuts_NudgeLight (window : KeyState) (speed : R)
    (vm : ViewManager) : ViewManager :=
  let vm := if pressed window KEY_LEFT then nudge_x (- speed) vm else vm in
  let vm := if pressed window KEY_RIGHT then nudge_x speed vm else vm in
  let vm := if pressed window KEY_UP then nudge_z (- speed) vm else vm in
  let vm := if pressed window KEY_DOWN then nudge_z speed vm else vm in
  let vm := if pressed window KEY_PAGE_UP then nudge_y speed vm else vm in
  let vm := if pressed window KEY_PAGE_DOWN then nudge_y (- speed) vm else vm in
  vm.

(** Lines 342-344 *)
Definition Shortcuts_Toggles (m_window : KeyState) (vm : ViewManager)
    : ViewManager :=
  let '(once, vm) := KeyPressedOnce m_window KEY_L vm in
  let vm := if once then set_m_dirLightOn (negb (m_dirLightOn vm)) vm else vm in
  let '(once, vm) := KeyPressedOnce m_window KEY_F vm in
  let vm := if once then set_m_flashlightOn (negb (m_flashlightOn vm)) vm else vm in
  let '(once, vm) := KeyPressedOnce m_window KEY_T vm in
  let vm := if once then
              set_m_pointLightOn
                (update_at negb (m_selectedPointLight vm) (m_pointLightOn vm)) vm
            else vm in
  vm.

(** [glfwGetKey(window, held) == GLFW_PRESS || KeyPressedOnce(tapped)]: the
    right operand is evaluated only when the left one is false. *)
Definition held_or_once (window m_window : KeyState) (held tapped : Z)
    (vm : ViewManager) : bool * ViewManager :=
  if pressed window held then (true, vm)
  else KeyPressedOnce m_window tapped vm.

(** Lines 347 and 350: the two updates of an intensity. *)
Definition raise_intensity (i : R) : R := std_min 3 (i + 0.05).
Definition lower_intensity (i : R) : R := std_max 0 (i - 0.05).

(** Lines 346-351 *)
Definition Shortcuts_Intensity (window m_window : KeyState) (vm : ViewManager)
    : ViewManager :=
  let '(go, vm) := held_or_once window m_window KEY_KP_ADD KEY_EQUAL vm in
  let vm := if go then
              set_m_pointIntensity
                (update_at raise_intensity (m_selectedPointLight vm)
                           (m_pointIntensity vm)) vm
            else vm in
  let '(go, vm) := held_or_once window m_window KEY_KP_SUBTRACT KEY_MINUS vm in
  let vm := if go then
              set_m_pointIntensity
                (update_at lower_intensity (m_selectedPointLight vm)
                           (m_pointIntensity vm)) vm
            else vm in
  vm.

(** Lines 353-354 *)
Definition Shortcuts_Ambient (window : KeyState) (vm : ViewManager)
    : ViewManager :=
  let vm := if pressed window KEY_SEMICOLON
            then set_m_ambientBoost (std_max 0 (m_ambientBoost vm - 0.001)) vm
            else vm in
  let vm := if pressed window KEY_APOSTROPHE
            then set_m_ambientBoost (std_min 0.3 (m_ambientBoost vm + 0.001)) vm
            else vm in
  vm.

(** [window] is the argument of the call, [m_window] the member that
    [KeyPressedOnce] reads. *)
Definition HandleInteractiveShortcuts (window m_window : KeyState)
    (vm : ViewManager) : ViewManager :=
  let speed := shortcut_speed window vm in
  let vm := Shortcuts_Camera window speed vm in
  let vm := Shortcuts_SpeedScale m_window vm in
  let vm := Shortcuts_SelectLight m_window vm in
  let vm := Shortcuts_NudgeLight window speed vm in
  let vm := Shortcuts_Toggles m_window vm in
  let vm := Shortcuts_Intensity window m_window vm in
  let vm := Shortcuts_Ambient window vm in
  UploadInteractiveUniforms vm.

(** *** The frame: [ProcessKeyboardEvents] and [PrepareSceneView] *)

(** The namespace, the object, the close flag of [m_pWindow] and what was
    written to [std::cout]. *)
Record State : Type := mkState {
  globals : Globals;
  self : ViewManager;
  shouldClose : bool;
  cout : list string
}.

Definition set_globals (g : Globals) (st : State) : State :=
  mkState g (self st) (shouldClose st) (cout st).
Definition set_self (vm : ViewManager) (st : State) : State :=
  mkState (globals st) vm (shouldClose st) (cout st).
Definition set_shouldClose (b : bool) (st : State) : State :=
  mkState (globals st) (self st) b (cout st).
Definition set_cout (l : list string) (st : State) : State :=
  mkState (globals st) (self st) (shouldClose st) l.

(** [if (glfwGetKey(m_pWindow, key) == GLFW_PRESS)
      g_pCamera->ProcessKeyboard(direction, gDeltaTime);] *)
Definition move_on (m_pWindow : KeyState) (key : Z)
    (direction : Camera.Camera_Movement) (st : State) : outcome State :=
  if pressed m_pWindow key then
    g ← with_camera (Camera.ProcessKeyboard direction (gDeltaTime (globals st)))
                    (globals st);
    mret (set_globals g st)
  else mret st.

(** Lines 221-224: [while (glfwGetKey(m_pWindow, GLFW_KEY_P) == GLFW_PRESS)
    glfwPollEvents();].  [pending] is what the coming calls of
    [glfwPollEvents] will deliver. *)
Fixpoint drain_P (m_pWindow : KeyState) (pending : list Poll) (g : Globals)
    : outcome (KeyState * list Poll * Globals) :=
  if pressed m_pWindow KEY_P then
    match pending with
    | [] => Blocked
    | p :: pending =>
        g ← glfwPollEvents (poll_events p) g;
        drain_P (poll_keys p) pending g
    end
  else Done (m_pWindow, pending, g).

(** [ViewManager::ProcessKeyboardEvents].  The result carries the key
    state and the pending polls that the call leaves behind. *)
Definition ProcessKeyboardEvents (m_pWindow : KeyState) (pending : list Poll)
    (st : State) : outcome (KeyState * list Poll * State) :=
  let st := if pressed m_pWindow KEY_ESCAPE
            then set_shouldClose true st else st in
  st ← move_on m_pWindow KEY_W Camera.FORWARD st;
  st ← move_on m_pWindow KEY_S Camera.BACKWARD st;
  st ← move_on m_pWindow KEY_A Camera.LEFT st;
  st ← move_on m_pWindow KEY_D Camera.RIGHT st;
  st ← move_on m_pWindow KEY_Q Camera.UP st;
  st ← move_on m_pWindow KEY_E Camera.DOWN st;
  if pressed m_pWindow KEY_P then
    let g := globals st in
    let g := set_bOrthographicProjection (negb (bOrthographicProjection g)) g in
    let st := set_globals g st in
    let st := set_cout
                (cout st ++
                 [((if bOrthographicProjection g
                    then "Orthographic" else "Perspective")
                   +:+ " projection enabled.")%string]) st in
    '(keys, pending, g) ← drain_P m_pWindow pending (globals st);
    mret (keys, pending, set_globals g st)
  else mret (m_pWindow, pending, st).

(** Lines 277-290: the projection matrix of the frame. *)
Definition scene_projection (orthographic : bool) (cam : Camera.t) : glm.mat4 :=
  if orthographic then
    let orthoSize := 5 in
    let aspectRatio := IZR WINDOW_WIDTH / IZR WINDOW_HEIGHT in
    glm.ortho (- orthoSize * aspectRatio) (orthoSize * aspectRatio)
              (- orthoSize) orthoSize 0.1 100
  else
    glm.perspective (glm.radians (Camera.Zoom cam))
                    (IZR WINDOW_WIDTH / IZR WINDOW_HEIGHT) 0.1 100.

(** [ViewManager::PrepareSceneView].  [currentFrame] is what
    [glfwGetTime] returns. *)
Definition PrepareSceneView (currentFrame : R) (m_pWindow : KeyState)
    (pending : list Poll) (st : State)
    : outcome (KeyState * list Poll * State) :=
  let g := globals st in
  let g := set_gDeltaTime (currentFrame - gLastFrame g) g in
  let g := set_gLastFrame currentFrame g in
  let st := set_globals g st in
  '(keys, pending, st) ← ProcessKeyboardEvents m_pWindow pending st;
  match g_pCamera (globals st) with
  | None => NullDeref
  | Some cam =>
      let view := Camera.GetViewMatrix cam in
      let projection :=
        scene_projection (bOrthographicProjection (globals st)) cam in
      let st :=
        match m_pShaderManager (self st) with
        | Some shader =>
            let shader := shader ++ [setMat4Value g_ViewName view] in
            let shader := shader ++ [setMat4Value g_ProjectionName projection] in
            let shader := shader ++
                          [setVec3Value "viewPosition" (Camera.Position cam)] in
            set_self (set_m_pShaderManager (Some shader) (self st)) st
        | None => st
        end in
      mret (keys, pending, st)
  end.
End View.

(** ** SceneManager.cpp: the calls that write to the shader *)

Module Scene.
Definition g_ModelName : string := "model".
Definition g_ColorValueName : string := "objectColor".
Definition g_TextureValueName : string := "objectTexture".
Definition g_UseTextureName : string := "bUseTexture".

Record OBJECT_MATERIAL : Type := mkMaterial {
  ambientColor : glm.vec3;
  ambientStrength : R;
  diffuseColor : glm.vec3;
  specularColor : glm.vec3;
  shininess : R;
  tag : string
}.

Record TEXTURE_INFO : Type := mkTexture {
  texture_tag : string;
  ID : Z
}.

(** The meshes of the external mesh library that the scene draws. *)
Inductive Mesh : Type :=
| PlaneMesh | CylinderMesh | TorusMesh | SphereMesh | TaperedCylinderMesh
| BoxMesh.

(** The members that the shader-facing calls use, and the meshes drawn so
    far. *)
Record SceneManager : Type := mkSceneManager {
  m_pShaderManager : option ShaderManager;
  m_textureIDs : list TEXTURE_INFO;
  m_loadedTextures : Z;
  m_objectMaterials : list OBJECT_MATERIAL;
  drawn : list Mesh
}.

Definition set_m_pShaderManager v (sm : SceneManager) : SceneManager :=
  mkSceneManager v (m_textureIDs sm) (m_loadedTextures sm)
                 (m_objectMaterials sm) (drawn sm).
Definition set_m_objectMaterials v (sm : SceneManager) : SceneManager :=
  mkSceneManager (m_pShaderManager sm) (m_textureIDs sm) (m_loadedTextures sm)
                 v (drawn sm).
Definition set_drawn v (sm : SceneManager) : SceneManager :=
  mkSceneManager (m_pShaderManager sm) (m_textureIDs sm) (m_loadedTextures sm)
                 (m_objectMaterials sm) v.

(** The loop of [FindTextureSlot] over the loaded entries, from [index]. *)
Fixpoint find_slot (tag : string) (loaded : list TEXTURE_INFO) (index : Z) : Z :=
  match loaded with
  | [] => -1
  | t :: loaded =>
      if String.eqb (texture_tag t) tag then index
      else find_slot tag loaded (index + 1)
  end%Z.

(** [SceneManager::FindTextureSlot] *)
Definition FindTextureSlot (tag : string) (sm : SceneManager) : Z :=
  find_slot tag (take (Z.to_nat (m_loadedTextures sm)) (m_textureIDs sm)) 0.

(** [SceneManager::FindMaterial]: [Some m] is the result [true] with [m]
    written to the out-parameter. *)
Fixpoint FindMaterial (tag' : string) (materials : list OBJECT_MATERIAL)
    : option OBJECT_MATERIAL :=
  match materials with
  | [] => None
  | m :: materials =>
      if String.eqb (tag m) tag' then Some m else FindMaterial tag' materials
  end.

(** [SceneManager::DefineObjectMaterials] *)
Definition DefineObjectMaterials (sm : SceneManager) : SceneManager :=
  set_m_objectMaterials
    (m_objectMaterials sm ++ [
    mkMaterial (glm.Vec3 0.2 0.1 0.05) 0.4 (glm.Vec3 0.5 0.25 0.1) (glm.Vec3 0.3 0.2 0.1) 8 "wood";
    mkMaterial (glm.Vec3 0.3 0.3 0.3) 0.5 (glm.Vec3 0.7 0.7 0.7) (glm.Vec3 0.9 0.9 0.9) 64 "marble1";
    mkMaterial (glm.Vec3 0.2 0.1 0.1) 0.3 (glm.Vec3 0.4 0.2 0.2) (glm.Vec3 0.5 0.4 0.3) 64 "leather1";
    mkMaterial (glm.Vec3 0.4 0.4 0.3) 0.3 (glm.Vec3 0.8 0.8 0.7) (glm.Vec3 0.1 0.1 0.1) 4 "paper";
    mkMaterial (glm.Vec3 0.15 0.1 0.05) 0.3 (glm.Vec3 0.3 0.2 0.1) (glm.Vec3 0.4 0.3 0.2) 12 "leather2";
    mkMaterial (glm.Vec3 0.4 0.4 0.4) 0.3 (glm.Vec3 0.9 0.9 0.8) (glm.Vec3 0.1 0.1 0.1) 4 "paper2";
    mkMaterial (glm.Vec3 0.1 0.05 0.05) 0.3 (glm.Vec3 0.35 0.2 0.2) (glm.Vec3 0.4 0.3 0.3) 16 "leather3";
    mkMaterial (glm.Vec3 0.35 0.35 0.35) 0.5 (glm.Vec3 0.8 0.8 0.8) (glm.Vec3 1 1 1) 64 "marble2";
    mkMaterial (glm.Vec3 0.2 0.2 0.2) 0.4 (glm.Vec3 0.3 0.3 0.3) (glm.Vec3 0.2 0.4 0.2) 8 "ground";
    mkMaterial (glm.Vec3 0.1 0.3 0.1) 0.4 (glm.Vec3 0.2 0.5 0.2) (glm.Vec3 0.2 0.4 0.2) 8 "grass1";
    mkMaterial (glm.Vec3 0.15 0.35 0.15) 0.4 (glm.Vec3 0.25 0.55 0.25) (glm.Vec3 0.25 0.45 0.25) 10 "grass2";
    mkMaterial (glm.Vec3 0.3 0.2 0.2) 0.4 (glm.Vec3 0.6 0.3 0.3) (glm.Vec3 0.4 0.2 0.2) 20 "pattern";
    mkMaterial (glm.Vec3 0.3 0.3 0.3) 0.4 (glm.Vec3 0.5 0.5 0.5) (glm.Vec3 0.6 0.6 0.6) 16 "fabric";
    mkMaterial (glm.Vec3 0.3 0.3 0.3) 0.4 (glm.Vec3 0.5 0.5 0.5) (glm.Vec3 0.6 0.6 0.6) 16 "wood2"
    ]) sm.

(** [SceneManager::SetTransformations] *)
Definition SetTransformations (scaleXYZ : glm.vec3)
    (XrotationDegrees YrotationDegrees ZrotationDegrees : R)
    (positionXYZ : glm.vec3) (sm : SceneManager) : SceneManager :=
  let scale := glm.scale scaleXYZ in
  let rotationX := glm.rotate (glm.radians XrotationDegrees) (glm.Vec3 1 0 0) in
  let rotationY := glm.rotate (glm.radians YrotationDegrees) (glm.Vec3 0 1 0) in
  let rotationZ := glm.rotate (glm.radians ZrotationDegrees) (glm.Vec3 0 0 1) in
  let translation := glm.translate positionXYZ in
  let modelView :=
    glm.mul (glm.mul (glm.mul (glm.mul translation rotationZ) rotationY)
                     rotationX) scale in
  match m_pShaderManager sm with
  | Some shader =>
      set_m_pShaderManager (Some (shader ++ [setMat4Value g_ModelName modelView])) sm
  | None => sm
  end.

(** [SceneManager::SetShaderColor] *)
Definition SetShaderColor (redColorValue greenColorValue blueColorValue
    alphaValue : R) (sm : SceneManager) : SceneManager :=
  match m_pShaderManager sm with
  | Some shader =>
      set_m_pShaderManager
        (Some (shader ++
               [setIntValue g_UseTextureName 0;
                setVec4Value g_ColorValueName redColorValue greenColorValue
                             blueColorValue alphaValue])) sm
  | None => sm
  end.

(** [SceneManager::SetShaderTexture] *)
Definition SetShaderTexture (textureTag : string) (sm : SceneManager)
    : SceneManager :=
  match m_pShaderManager sm with
  | Some shader =>
      let textureID := FindTextureSlot textureTag sm in
      if (textureID <? 0)%Z then sm
      else
        set_m_pShaderManager
          (Some (shader ++
                 [setIntValue g_UseTextureName 1;
                  setSampler2DValue g_TextureValueName textureID])) sm
  | None => sm
  end.

(** [SceneManager::SetTextureUVScale] *)
Definition SetTextureUVScale (u v : R) (sm : SceneManager) : SceneManager :=
  match m_pShaderManager sm with
  | Some shader =>
      set_m_pShaderManager (Some (shader ++ [setVec2Value "UVscale" u v])) sm
  | None => sm
  end.

(** [SceneManager::SetShaderMaterial]: after the early return the five
    writes go through [m_pShaderManager] with no test of the pointer. *)
Definition SetShaderMaterial (materialTag : string) (sm : SceneManager)
    : outcome SceneManager :=
  match FindMaterial materialTag (m_objectMaterials sm) with
  | None => Done sm
  | Some material =>
      match m_pShaderManager sm with
      | None => NullDeref
      | Some shader =>
          Done (set_m_pShaderManager
                  (Some (shader ++
                         [setVec3Value "material.diffuseColor" (diffuseColor material);
                          setVec3Value "material.specularColor" (specularColor material);
                          setFloatValue "material.shininess" (shininess material);
                          setVec3Value "material.ambientColor" (ambientColor material);
                          setFloatValue "material.ambientStrength"
                                        (ambientStrength material)])) sm)
      end
  end.

(** [SceneManager::ApplyAndDraw] *)
Definition ApplyAndDraw (texTag matTag : string) (uv_x uv_y : R)
    (scale : glm.vec3) (rx ry rz : R) (pos : glm.vec3)
    (drawCall : SceneManager -> SceneManager) (sm : SceneManager)
    : outcome SceneManager :=
  let sm := SetShaderTexture texTag sm in
  sm ← SetShaderMaterial matTag sm;
  let sm := SetTextureUVScale uv_x uv_y sm in
  let sm := SetTransformations scale rx ry rz pos sm in
  mret (drawCall sm).

Definition DrawPlaneMesh (sm : SceneManager) : SceneManager :=
  set_drawn (drawn sm ++ [PlaneMesh]) sm.

(** The first object of [SceneManager::RenderScene], lines 600-604: the
    table top. *)
Definition RenderScene_table_top (sm : SceneManager) : outcome SceneManager :=
  let sm := SetShaderTexture "wood" sm in
  sm ← SetShaderMaterial "wood" sm;
  let sm := SetTextureUVScale 1 1 sm in
  let sm := SetTransformations (glm.Vec3 2 1 2) 0 0 0 (glm.Vec3 0 0 0.2) sm in
  mret (DrawPlaneMesh sm).

(** *** The texture table *)

Definition set_m_textureIDs v (sm : SceneManager) : SceneManager :=
  mkSceneManager (m_pShaderManager sm) v (m_loadedTextures sm)
                 (m_objectMaterials sm) (drawn sm).
Definition set_m_loadedTextures v (sm : SceneManager) : SceneManager :=
  mkSceneManager (m_pShaderManager sm) (m_textureIDs sm) v
                 (m_objectMaterials sm) (drawn sm).

Definition set_ID (v : Z) (t : TEXTURE_INFO) : TEXTURE_INFO :=
  mkTexture (texture_tag t) v.
Definition set_texture_tag (v : string) (t : TEXTURE_INFO) : TEXTURE_INFO :=
  mkTexture v (ID t).

(** [int textureID = m_textureIDs[index].ID]: the field is the [GLuint]
    that [glGenTextures] writes, the local is an [int]. *)
Definition int_of_GLuint (u : Z) : Z :=
  if (u <? 2 ^ 31)%Z then u else (u - 2 ^ 32)%Z.

(** The loop of [FindTextureID] over the loaded entries. *)
Fixpoint find_id (tag : string) (loaded : list TEXTURE_INFO) : Z :=
  match loaded with
  | [] => -1
  | t :: loaded =>
      if String.eqb (texture_tag t) tag then int_of_GLuint (ID t)
      else find_id tag loaded
  end%Z.

(** [SceneManager::FindTextureID] *)
Definition FindTextureID (tag : string) (sm : SceneManager) : Z :=
  find_id tag (take (Z.to_nat (m_loadedTextures sm)) (m_textureIDs sm)).

(** *** The libraries that the scene manager calls

    stb_image, OpenGL, the mesh library behind [m_basicMeshes] and
    [std::cout] are outside src/.  Their side of the program is the list of
    the calls made to them, oldest first, together with the two answers
    that the code reads back: the image that [stbi_load] finds under a file
    name, and the name that [glGenTextures] writes to its argument. *)

(** What [stbi_load] reports of an image. *)
Record Image : Type := mkImage {
  width : Z;
  height : Z;
  colorChannels : Z
}.

(** glad.h *)
Definition GL_DEPTH_BUFFER_BIT : Z := 256.
Definition GL_COLOR_BUFFER_BIT : Z := 16384.
Definition GL_TEXTURE_2D : Z := 3553.
Definition GL_UNSIGNED_BYTE : Z := 5121.
Definition GL_RGB : Z := 6407.
Definition GL_RGBA : Z := 6408.
Definition GL_LINEAR : Z := 9729.
Definition GL_TEXTURE_MAG_FILTER : Z := 10240.
Definition GL_TEXTURE_MIN_FILTER : Z := 10241.
Definition GL_TEXTURE_WRAP_S : Z := 10242.
Definition GL_TEXTURE_WRAP_T : Z := 10243.
Definition GL_REPEAT : Z := 10497.
Definition GL_RGB8 : Z := 32849.
Definition GL_RGBA8 : Z := 32856.
Definition GL_TEXTURE0 : Z := 33984.

Module Lib.
(** A call with its arguments.  [glGenTextures] carries the name it wrote,
    [glTexImage2D] and [stbi_image_free] the image behind the pointer, a
    line sent to [std::cout] the operands of its [<<]. *)
Inductive Call : Type :=
| stbi_set_flip_vertically_on_load (flag : bool)
| stbi_load (filename : string) (req_comp : Z)
| stbi_image_free (image : Image)
| cout (line : list (string + Z))
| glGenTextures (n : Z) (textures : Z)
| glBindTexture (target texture : Z)
| glTexParameteri (target pname param : Z)
| glTexImage2D (target level internalformat width height border format type : Z)
               (pixels : Image)
| glGenerateMipmap (target : Z)
| glActiveTexture (texture : Z)
| glClear (mask : Z)
| LoadPlaneMesh
| LoadCylinderMesh
| LoadTorusMesh
| LoadSphereMesh
| LoadTaperedCylinderMesh
| LoadBoxMesh
| DrawPlaneMesh
| DrawCylinderMesh (arguments : list bool)
| DrawHalfSphereMesh
| DrawTaperedCylinderMesh (arguments : list bool)
| DrawHalfTorusMesh
| DrawBoxMesh
| DrawSphereMesh.
End Lib.

Record Libraries : Type := mkLibraries {
  files : string -> option Image;  (* what [stbi_load] finds under a name *)
  names : nat -> Z;                (* the names of [glGenTextures], in order *)
  generated : nat;                 (* how many of them have been handed out *)
  calls : list Lib.Call
}.

Definition call (c : Lib.Call) (lib : Libraries) : Libraries :=
  mkLibraries (files lib) (names lib) (generated lib) (calls lib ++ [c]).

(** [glGenTextures(1, &name)] *)
Definition glGenTextures (lib : Libraries) : Z * Libraries :=
  let name := names lib (generated lib) in
  (name,
   mkLibraries (files lib) (names lib) (S (generated lib))
               (calls lib ++ [Lib.glGenTextures 1 name])).

(** [SceneManager::CreateGLTexture].  Lines 113-114 write to
    [m_textureIDs[m_loadedTextures]] with no test of the index.  Inside the
    array this is the registration of the texture; with no room left C++
    gives no meaning to the write, and what is stated of this function
    assumes room. *)
Definition CreateGLTexture (filename tag : string)
    (s : SceneManager * Libraries) : bool * (SceneManager * Libraries) :=
  let '(sm, lib) := s in
  let lib := call (Lib.stbi_set_flip_vertically_on_load true) lib in
  let lib := call (Lib.stbi_load filename 0) lib in
  match files lib filename with
  | Some image =>
      let width := width image in
      let height := height image in
      let colorChannels := colorChannels image in
      let lib := call (Lib.cout [inl "Successfully loaded image:"; inl filename;
                                 inl ", width:"; inr width;
                                 inl ", height:"; inr height;
                                 inl ", channels:"; inr colorChannels]) lib in
      let '(textureID, lib) := glGenTextures lib in
      let lib := call (Lib.glBindTexture GL_TEXTURE_2D textureID) lib in
      let lib := call (Lib.glTexParameteri GL_TEXTURE_2D GL_TEXTURE_WRAP_S GL_REPEAT) lib in
      let lib := call (Lib.glTexParameteri GL_TEXTURE_2D GL_TEXTURE_WRAP_T GL_REPEAT) lib in
      let lib := call (Lib.glTexParameteri GL_TEXTURE_2D GL_TEXTURE_MIN_FILTER GL_LINEAR) lib in
      let lib := call (Lib.glTexParameteri GL_TEXTURE_2D GL_TEXTURE_MAG_FILTER GL_LINEAR) lib in
      let uploaded :=
        if (colorChannels =? 3)%Z then
          Some (call (Lib.glTexImage2D GL_TEXTURE_2D 0 GL_RGB8 width height 0
                                       GL_RGB GL_UNSIGNED_BYTE image) lib)
        else if (colorChannels =? 4)%Z then
          Some (call (Lib.glTexImage2D GL_TEXTURE_2D 0 GL_RGBA8 width height 0
                                       GL_RGBA GL_UNSIGNED_BYTE image) lib)
        else None in
      match uploaded with
      | None =>
          let lib := call (Lib.cout [inl "Not implemented to handle image with ";
                                     inr colorChannels; inl " channels"]) lib in
          (false, (sm, lib))
      | Some lib =>
          let lib := call (Lib.glGenerateMipmap GL_TEXTURE_2D) lib in
          let lib := call (Lib.stbi_image_free image) lib in
          let lib := call (Lib.glBindTexture GL_TEXTURE_2D 0) lib in
          let sm := set_m_textureIDs
                      (View.update_at (set_ID textureID) (m_loadedTextures sm)
                                      (m_textureIDs sm)) sm in
          let sm := set_m_textureIDs
                      (View.update_at (set_texture_tag tag) (m_loadedTextures sm)
                                      (m_textureIDs sm)) sm in
          let sm := set_m_loadedTextures (m_loadedTextures sm + 1)%Z sm in
          (true, (sm, lib))
      end
  | None =>
      let lib := call (Lib.cout [inl "Could not load image:"; inl filename]) lib in
      (false, (sm, lib))
  end.

(** The loop of [BindGLTextures] over the loaded entries, from [i]. *)
Fixpoint bind_from (loaded : list TEXTURE_INFO) (i : Z) (lib : Libraries)
    : Libraries :=
  match loaded with
  | [] => lib
  | t :: loaded =>
      let lib := call (Lib.glActiveTexture (GL_TEXTURE0 + i)) lib in
      let lib := call (Lib.glBindTexture GL_TEXTURE_2D (ID t)) lib in
      bind_from loaded (i + 1) lib
  end%Z.

(** [SceneManager::BindGLTextures] *)
Definition BindGLTextures (s : SceneManager * Libraries)
    : SceneManager * Libraries :=
  let '(sm, lib) := s in
  (sm, bind_from (take (Z.to_nat (m_loadedTextures sm)) (m_textureIDs sm)) 0 lib).

(** The loop of [DestroyGLTextures] over the loaded entries:
    [glGenTextures(1, &m_textureIDs[i].ID)]. *)
Fixpoint generate_over (loaded : list TEXTURE_INFO) (lib : Libraries)
    : list TEXTURE_INFO * Libraries :=
  match loaded with
  | [] => ([], lib)
  | t :: loaded =>
      let '(name, lib) := glGenTextures lib in
      let '(loaded, lib) := generate_over loaded lib in
      (set_ID name t :: loaded, lib)
  end.

(** [SceneManager::DestroyGLTextures] *)
Definition DestroyGLTextures (s : SceneManager * Libraries)
    : SceneManager * Libraries :=
  let '(sm, lib) := s in
  let n := Z.to_nat (m_loadedTextures sm) in
  let '(loaded, lib) := generate_over (take n (m_textureIDs sm)) lib in
  (set_m_textureIDs (loaded ++ drop n (m_textureIDs sm)) sm, lib).

(** [SceneManager::LoadSceneTextures]; [bReturn] is assigned and never
    read. *)
Definition LoadSceneTextures (s : SceneManager * Libraries)
    : SceneManager * Libraries :=
  let '(bReturn, s) := CreateGLTexture "./Debug/textures/wood_light_seamless.jpg" "wood" s in
  let '(bReturn, s) := CreateGLTexture "./Debug/textures/marble_light_seamless.jpg" "marble1" s in
  let '(bReturn, s) := CreateGLTexture "./Debug/textures/leather_black_seamless.jpg" "leather1" s in
  let '(bReturn, s) := CreateGLTexture "./Debug/textures/paper_textured_seamless.jpg" "paper" s in
  let '(bReturn, s) := CreateGLTexture "./Debug/textures/leather_brown_seamless.jpg" "leather2" s in
  let '(bReturn, s) := CreateGLTexture "./Debug/textures/paper_brown_seamless.jpg" "paper2" s in
  let '(bReturn, s) := CreateGLTexture "./Debug/textures/leather_tan_seamless.jpg" "leather3" s in
  let '(bReturn, s) := CreateGLTexture "./Debug/textures/marble_light2_seamless.jpg" "marble2" s in
  let '(bReturn, s) := CreateGLTexture "./Debug/textures/ground_textured_seamless.jpg" "ground" s in
  let '(bReturn, s) := CreateGLTexture "./Debug/textures/grass_textured1_seamless.jpg" "grass1" s in
  let '(bReturn, s) := CreateGLTexture "./Debug/textures/grass_textured2_seamless.jpg" "grass2" s in
  let '(bReturn, s) := CreateGLTexture "./Debug/textures/pattern_flowers_seamless.jpg" "pattern" s in
  let '(bReturn, s) := CreateGLTexture "./Debug/textures/fabric_textured_seamless.jpg" "fabric" s in
  let '(bReturn, s) := CreateGLTexture "./Debug/textures/wood_cherry_seamless.jpg" "wood2" s in
  BindGLTextures s.

(** [SceneManager::PrepareScene] *)
Definition PrepareScene (lib : Libraries) : Libraries :=
  let lib := call Lib.LoadPlaneMesh lib in
  let lib := call Lib.LoadCylinderMesh lib in
  let lib := call Lib.LoadTorusMesh lib in
  let lib := call Lib.LoadSphereMesh lib in
  let lib := call Lib.LoadTaperedCylinderMesh lib in
  let lib := call Lib.LoadBoxMesh lib in
  lib.

(** [SceneManager::RenderScene], statement by statement.  The draw calls go
    to [m_basicMeshes]. *)
Definition RenderScene (s : SceneManager * Libraries)
    : outcome (SceneManager * Libraries) :=
  let '(sm, lib) := s in
  let XrotationDegrees := 0 in
  let YrotationDegrees := 0 in
  let ZrotationDegrees := 0 in
  let xRot := 0 in
  let yRot := 0 in
  let zRot := 0 in
  let lib := call (Lib.glClear (Z.lor GL_COLOR_BUFFER_BIT GL_DEPTH_BUFFER_BIT)) lib in
  let sm := SetShaderTexture "wood" sm in
  sm ← SetShaderMaterial "wood" sm;
  let sm := SetTextureUVScale 1 1 sm in
  let sm := SetTransformations (glm.Vec3 2 1 2) 0 0 0 (glm.Vec3 0 0 0.2) sm in
  let lib := call Lib.DrawPlaneMesh lib in
  let sm := SetShaderTexture "marble1" sm in
  sm ← SetShaderMaterial "marble1" sm;
  let sm := SetTextureUVScale 1 1 sm in
  let sm := SetTransformations (glm.Vec3 0.3 0.015 0.3) 0 0 0 (glm.Vec3 0 0.01 0) sm in
  let lib := call (Lib.DrawCylinderMesh []) lib in
  let sm := SetShaderTexture "marble1" sm in
  sm ← SetShaderMaterial "marble1" sm;
  let sm := SetTextureUVScale 1 1 sm in
  let sm := SetTransformations (glm.Vec3 0.12 0.008 0.12) 0 0 0 (glm.Vec3 0 0.035 0) sm in
  let lib := call Lib.DrawHalfSphereMesh lib in
  let sm := SetShaderTexture "marble1" sm in
  sm ← SetShaderMaterial "marble1" sm;
  let sm := SetTextureUVScale 1 1 sm in
  let sm := SetTransformations (glm.Vec3 0.18 0.27 0.18) 180 0 0 (glm.Vec3 0 0.3 0) sm in
  let lib := call (Lib.DrawTaperedCylinderMesh [true; true; true]) lib in
  let sm := SetShaderColor 0.1 0.05 0.01 1 sm in
  let sm := SetTransformations (glm.Vec3 0.16 0.005 0.16) 0 0 0 (glm.Vec3 0 0.3 0) sm in
  let lib := call (Lib.DrawCylinderMesh []) lib in
  let sm := SetShaderTexture "marble1" sm in
  sm ← SetShaderMaterial "marble1" sm;
  let sm := SetTextureUVScale 1 1 sm in
  let sm := SetTransformations (glm.Vec3 0.06 0.06 0.025) 0 0 90 (glm.Vec3 (-0.2) 0.215 0) sm in
  let lib := call Lib.DrawHalfTorusMesh lib in
  let sm := SetShaderTexture "marble1" sm in
  sm ← SetShaderMaterial "marble1" sm;
  let sm := SetTextureUVScale 1 1 sm in
  let sm := SetTransformations (glm.Vec3 0.06 0.06 0.025) 180 0 90 (glm.Vec3 (-0.2) 0.215 0) sm in
  let lib := call Lib.DrawHalfTorusMesh lib in
  let sm := SetShaderTexture "leather1" sm in
  sm ← SetShaderMaterial "leather1" sm;
  let sm := SetTextureUVScale 4 2 sm in
  let sm := SetTransformations (glm.Vec3 0.5 0.07 0.4) 0 90 0 (glm.Vec3 0.52 0.035 0.09) sm in
  let lib := call Lib.DrawBoxMesh lib in
  let sm := SetShaderTexture "paper" sm in
  sm ← SetShaderMaterial "paper" sm;
  let sm := SetTextureUVScale 4 2 sm in
  let sm := SetTransformations (glm.Vec3 0.27 0.001 0.16) 0 90 0 (glm.Vec3 0.47 0.035 0.08) sm in
  let lib := call Lib.DrawPlaneMesh lib in
  let sm := SetShaderTexture "leather2" sm in
  sm ← SetShaderMaterial "leather2" sm;
  let sm := SetTextureUVScale 4 2 sm in
  let sm := SetTransformations (glm.Vec3 0.5 0.09 0.4) 0 90 0 (glm.Vec3 0.52 0.12 0.09) sm in
  let lib := call Lib.DrawBoxMesh lib in
  let sm := SetShaderTexture "paper2" sm in
  sm ← SetShaderMaterial "paper2" sm;
  let sm := SetTextureUVScale 4 2 sm in
  let sm := SetTransformations (glm.Vec3 0.26 0.014 0.21) 0 90 0 (glm.Vec3 0.52 0.12 0.09) sm in
  let lib := call Lib.DrawPlaneMesh lib in
  let sm := SetShaderTexture "leather3" sm in
  sm ← SetShaderMaterial "leather3" sm;
  let sm := SetTextureUVScale 4 2 sm in
  let sm := SetTransformations (glm.Vec3 0.4 0.04 0.3) 0 90 0 (glm.Vec3 0.52 0.17 0.09) sm in
  let lib := call Lib.DrawBoxMesh lib in
  let sm := SetShaderTexture "paper" sm in
  sm ← SetShaderMaterial "paper" sm;
  let sm := SetTextureUVScale 2 2 sm in
  let sm := SetTransformations (glm.Vec3 0.25 0.01 0.89) 90 (-45) 0 (glm.Vec3 0.52 0.46 0.09) sm in
  let lib := call Lib.DrawBoxMesh lib in
  let sm := SetShaderTexture "wood" sm in
  sm ← SetShaderMaterial "wood" sm;
  let sm := SetTextureUVScale 2 2 sm in
  let sm := SetTransformations (glm.Vec3 0.27 0.01 0.92) 90 (-45) 0 (glm.Vec3 0.53 0.48 0.09) sm in
  let lib := call Lib.DrawBoxMesh lib in
  let sm := SetShaderTexture "wood" sm in
  sm ← SetShaderMaterial "wood" sm;
  let sm := SetTextureUVScale 2 2 sm in
  let sm := SetTransformations (glm.Vec3 0.27 0.01 0.92) 90 (-45) 0 (glm.Vec3 0.53 0.48 0.09) sm in
  let lib := call Lib.DrawBoxMesh lib in
  let sm := SetShaderTexture "wood" sm in
  sm ← SetShaderMaterial "wood" sm;
  let sm := SetTextureUVScale 2 2 sm in
  let sm := SetTransformations (glm.Vec3 0.27 0.01 0.9) 90 (-45) 0 (glm.Vec3 0.53 0.48 0.09) sm in
  let lib := call Lib.DrawBoxMesh lib in
  let sm := SetShaderTexture "marble1" sm in
  sm ← SetShaderMaterial "marble1" sm;
  let sm := SetTextureUVScale 2 2 sm in
  let sm := SetTransformations (glm.Vec3 0.3 0.65 0.3) 0 0 0 (glm.Vec3 (-0.42) 0.01 (-0.7)) sm in
  let lib := call (Lib.DrawTaperedCylinderMesh [true; true; true]) lib in
  let sm := SetShaderTexture "marble2" sm in
  sm ← SetShaderMaterial "marble2" sm;
  let sm := SetTextureUVScale 2 2 sm in
  let sm := SetTransformations (glm.Vec3 0.06 0.45 0.06) 0 0 0 (glm.Vec3 (-0.21) 0.19 (-0.7)) sm in
  let lib := call (Lib.DrawCylinderMesh [true; true]) lib in
  let sm := SetShaderTexture "marble2" sm in
  sm ← SetShaderMaterial "marble2" sm;
  let sm := SetTextureUVScale 2 2 sm in
  let sm := SetTransformations (glm.Vec3 0.06 0.45 0.06) 0 0 0 (glm.Vec3 (-0.42) 0.19 (-0.49)) sm in
  let lib := call (Lib.DrawCylinderMesh [true; true]) lib in
  let sm := SetShaderTexture "marble2" sm in
  sm ← SetShaderMaterial "marble2" sm;
  let sm := SetTextureUVScale 2 2 sm in
  let sm := SetTransformations (glm.Vec3 0.06 0.45 0.06) 0 0 0 (glm.Vec3 (-0.63) 0.19 (-0.7)) sm in
  let lib := call (Lib.DrawCylinderMesh [true; true]) lib in
  let sm := SetShaderTexture "marble2" sm in
  sm ← SetShaderMaterial "marble2" sm;
  let sm := SetTextureUVScale 2 2 sm in
  let sm := SetTransformations (glm.Vec3 0.06 0.45 0.06) 0 0 0 (glm.Vec3 (-0.42) 0.19 (-0.91)) sm in
  let lib := call (Lib.DrawCylinderMesh [true; true]) lib in
  let sm := SetShaderTexture "marble2" sm in
  sm ← SetShaderMaterial "marble2" sm;
  let sm := SetTextureUVScale 2 2 sm in
  let sm := SetTransformations (glm.Vec3 0.06 0.45 0.06) 0 0 0 (glm.Vec3 (-0.31) 0.19 (-0.59)) sm in
  let lib := call (Lib.DrawCylinderMesh [true; true]) lib in
  let sm := SetShaderTexture "marble2" sm in
  sm ← SetShaderMaterial "marble2" sm;
  let sm := SetTextureUVScale 2 2 sm in
  let sm := SetTransformations (glm.Vec3 0.06 0.45 0.06) 0 0 0 (glm.Vec3 (-0.53) 0.19 (-0.59)) sm in
  let lib := call (Lib.DrawCylinderMesh [true; true]) lib in
  let sm := SetShaderTexture "marble2" sm in
  sm ← SetShaderMaterial "marble2" sm;
  let sm := SetTextureUVScale 2 2 sm in
  let sm := SetTransformations (glm.Vec3 0.06 0.45 0.06) 0 0 0 (glm.Vec3 (-0.31) 0.19 (-0.81)) sm in
  let lib := call (Lib.DrawCylinderMesh [true; true]) lib in
  let sm := SetShaderTexture "marble2" sm in
  sm ← SetShaderMaterial "marble2" sm;
  let sm := SetTextureUVScale 2 2 sm in
  let sm := SetTransformations (glm.Vec3 0.06 0.45 0.06) 0 0 0 (glm.Vec3 (-0.53) 0.19 (-0.81)) sm in
  let lib := call (Lib.DrawCylinderMesh [true; true]) lib in
  let sm := SetShaderColor 0 0 0 1 sm in
  let sm := SetTextureUVScale 1 1 sm in
  let sm := SetTransformations (glm.Vec3 0.26 0.008 0.26) 0 0 0
      (glm.Vec3 (-0.42) 0.625 (-0.7)) sm in
  let lib := call (Lib.DrawCylinderMesh []) lib in
  let sm := SetShaderTexture "marble1" sm in
  sm ← SetShaderMaterial "marble1" sm;
  let sm := SetTextureUVScale 2 2 sm in
  let sm := SetTransformations (glm.Vec3 0.26 0.008 0.26) 0 0 0
      (glm.Vec3 (-0.42) 0.635 (-0.7)) sm in
  let lib := call (Lib.DrawCylinderMesh []) lib in
  let sm := SetShaderTexture "marble2" sm in
  sm ← SetShaderMaterial "marble2" sm;
  let sm := SetTextureUVScale 2 2 sm in
  let sm := SetTransformations (glm.Vec3 0.24 0.1 0.24) 0 0 0 (glm.Vec3 (-0.42) 0.645 (-0.7)) sm in
  let lib := call (Lib.DrawCylinderMesh []) lib in
  let sm := SetShaderTexture "ground" sm in
  sm ← SetShaderMaterial "ground" sm;
  let sm := SetTextureUVScale 2 2 sm in
  let sm := SetTransformations (glm.Vec3 0.22 0.1 0.22) 0 0 0 (glm.Vec3 (-0.42) 0.755 (-0.7)) sm in
  let lib := call Lib.DrawHalfSphereMesh lib in
  let sm := SetShaderTexture "grass1" sm in
  sm ← SetShaderMaterial "grass1" sm;
  let sm := SetTextureUVScale 2 2 sm in
  let sm := SetTransformations (glm.Vec3 0.005 0.68 0.005) 0 0 0
      (glm.Vec3 (-0.42) 0.82 (-0.7)) sm in
  let lib := call (Lib.DrawCylinderMesh []) lib in
  let sm := SetShaderTexture "grass2" sm in
  sm ← SetShaderMaterial "grass2" sm;
  let sm := SetTextureUVScale 2 2 sm in
  let sm := SetTransformations (glm.Vec3 0.05 0.08 0.05) 0 0 0 (glm.Vec3 (-0.42) 1.54 (-0.7)) sm in
  let lib := call Lib.DrawSphereMesh lib in
  let sm := SetShaderTexture "grass1" sm in
  sm ← SetShaderMaterial "grass1" sm;
  let sm := SetTextureUVScale 2 2 sm in
  let sm := SetTransformations (glm.Vec3 0.005 0.68 0.005) (-15) 0 30
      (glm.Vec3 (-0.36) 0.82 (-0.67)) sm in
  let lib := call (Lib.DrawCylinderMesh []) lib in
  let sm := SetShaderTexture "grass1" sm in
  sm ← SetShaderMaterial "grass1" sm;
  let sm := SetTextureUVScale 2 2 sm in
  let sm := SetTransformations (glm.Vec3 0.005 0.68 0.005) (-10) 0 5
      (glm.Vec3 (-0.38) 0.82 (-0.72)) sm in
  let lib := call (Lib.DrawCylinderMesh []) lib in
  let sm := SetShaderTexture "grass1" sm in
  sm ← SetShaderMaterial "grass1" sm;
  let sm := SetTextureUVScale 2 2 sm in
  let sm := SetTransformations (glm.Vec3 0.005 0.68 0.005) 0 0 (-25)
      (glm.Vec3 (-0.45) 0.82 (-0.68)) sm in
  let lib := call (Lib.DrawCylinderMesh []) lib in
  let sm := SetShaderTexture "grass1" sm in
  sm ← SetShaderMaterial "grass1" sm;
  let sm := SetTextureUVScale 2 2 sm in
  let sm := SetTransformations (glm.Vec3 0.005 0.68 0.005) 10 0 20
      (glm.Vec3 (-0.39) 0.82 (-0.66)) sm in
  let lib := call (Lib.DrawCylinderMesh []) lib in
  let sm := SetShaderTexture "grass1" sm in
  sm ← SetShaderMaterial "grass1" sm;
  let sm := SetTextureUVScale 2 2 sm in
  let sm := SetTransformations (glm.Vec3 0.005 0.68 0.005) (-11) 0 (-27.7)
      (glm.Vec3 (-0.37) 0.82 (-0.7)) sm in
  let lib := call (Lib.DrawCylinderMesh []) lib in
  let sm := SetShaderTexture "grass1" sm in
  sm ← SetShaderMaterial "grass1" sm;
  let sm := SetTextureUVScale 2 2 sm in
  let sm := SetTransformations (glm.Vec3 0.005 0.68 0.005) (-12) 0 (-27.7)
      (glm.Vec3 (-0.39) 0.82 (-0.66)) sm in
  let lib := call (Lib.DrawCylinderMesh []) lib in
  let sm := SetShaderTexture "grass1" sm in
  sm ← SetShaderMaterial "grass1" sm;
  let sm := SetTextureUVScale 2 2 sm in
  let sm := SetTransformations (glm.Vec3 0.005 0.68 0.005) (-10.8) 0 (-6.9)
      (glm.Vec3 (-0.44) 0.82 (-0.66)) sm in
  let lib := call (Lib.DrawCylinderMesh []) lib in
  let sm := SetShaderTexture "grass1" sm in
  sm ← SetShaderMaterial "grass1" sm;
  let sm := SetTextureUVScale 2 2 sm in
  let sm := SetTransformations (glm.Vec3 0.005 0.68 0.005) 8.3 0 21.7
      (glm.Vec3 (-0.47) 0.82 (-0.7)) sm in
  let lib := call (Lib.DrawCylinderMesh []) lib in
  let sm := SetShaderTexture "grass1" sm in
  sm ← SetShaderMaterial "grass1" sm;
  let sm := SetTextureUVScale 2 2 sm in
  let sm := SetTransformations (glm.Vec3 0.005 0.68 0.005) (-12.4) 0 4
      (glm.Vec3 (-0.45) 0.82 (-0.74)) sm in
  let lib := call (Lib.DrawCylinderMesh []) lib in
  let sm := SetShaderTexture "grass1" sm in
  sm ← SetShaderMaterial "grass1" sm;
  let sm := SetTextureUVScale 2 2 sm in
  let sm := SetTransformations (glm.Vec3 0.005 0.68 0.005) 5.7 0 25.1
      (glm.Vec3 (-0.39) 0.82 (-0.74)) sm in
  let lib := call (Lib.DrawCylinderMesh []) lib in
  let sm := SetShaderTexture "grass1" sm in
  sm ← SetShaderMaterial "grass1" sm;
  let sm := SetTextureUVScale 2 2 sm in
  let sm := SetTransformations (glm.Vec3 0.005 0.68 0.005) (-12) 0 (-35.1)
      (glm.Vec3 (-0.35) 0.82 (-0.68)) sm in
  let lib := call (Lib.DrawCylinderMesh []) lib in
  let sm := SetShaderTexture "grass1" sm in
  sm ← SetShaderMaterial "grass1" sm;
  let sm := SetTextureUVScale 2 2 sm in
  let sm := SetTransformations (glm.Vec3 0.005 0.68 0.005) 14 0 32.1
      (glm.Vec3 (-0.49) 0.82 (-0.73)) sm in
  let lib := call (Lib.DrawCylinderMesh []) lib in
  let sm := SetShaderTexture "grass1" sm in
  sm ← SetShaderMaterial "grass1" sm;
  let sm := SetTextureUVScale 2 2 sm in
  let sm := SetTransformations (glm.Vec3 0.005 0.68 0.005) (-8) 0 40
      (glm.Vec3 (-0.38) 0.82 (-0.77)) sm in
  let lib := call (Lib.DrawCylinderMesh []) lib in
  let sm := SetShaderTexture "grass2" sm in
  sm ← SetShaderMaterial "grass2" sm;
  let sm := SetTextureUVScale 2 2 sm in
  let sm := SetTransformations (glm.Vec3 0.07 0.07 0.07) (-12) 0 (-35)
      (glm.Vec3 (-0.6) 1.36 (-0.84)) sm in
  let lib := call Lib.DrawSphereMesh lib in
  let sm := SetShaderTexture "grass2" sm in
  sm ← SetShaderMaterial "grass2" sm;
  let sm := SetTextureUVScale 2 2 sm in
  let sm := SetTransformations (glm.Vec3 0.07 0.07 0.07) 15 0 20
      (glm.Vec3 (-0.3) 1.36 (-0.56)) sm in
  let lib := call Lib.DrawSphereMesh lib in
  let sm := SetShaderTexture "grass2" sm in
  sm ← SetShaderMaterial "grass2" sm;
  let sm := SetTextureUVScale 2 2 sm in
  let sm := SetTransformations (glm.Vec3 0.07 0.07 0.07) (-8) 0 40
      (glm.Vec3 (-0.2) 1.36 (-0.92)) sm in
  let lib := call Lib.DrawSphereMesh lib in
  let sm := SetShaderTexture "grass2" sm in
  sm ← SetShaderMaterial "grass2" sm;
  let sm := SetTextureUVScale 2 2 sm in
  let sm := SetTransformations (glm.Vec3 0.07 0.07 0.07) (-10) 0 20
      (glm.Vec3 (-0.72) 1.36 (-0.82)) sm in
  let lib := call Lib.DrawSphereMesh lib in
  let sm := SetShaderTexture "grass2" sm in
  sm ← SetShaderMaterial "grass2" sm;
  let sm := SetTextureUVScale 2 2 sm in
  let sm := SetTransformations (glm.Vec3 0.07 0.07 0.07) 0 0 40 (glm.Vec3 (-0.42) 1.36 (-0.5)) sm in
  let lib := call Lib.DrawSphereMesh lib in
  let sm := SetShaderTexture "grass2" sm in
  sm ← SetShaderMaterial "grass2" sm;
  let sm := SetTextureUVScale 2 2 sm in
  let sm := SetTransformations (glm.Vec3 0.07 0.07 0.07) 8 0 30 (glm.Vec3 (-0.1) 1.36 (-0.75)) sm in
  let lib := call Lib.DrawSphereMesh lib in
  let sm := SetShaderTexture "grass2" sm in
  sm ← SetShaderMaterial "grass2" sm;
  let sm := SetTextureUVScale 2 2 sm in
  let sm := SetTransformations (glm.Vec3 0.07 0.07 0.07) (-5) 0 0
      (glm.Vec3 (-0.42) 1.36 (-0.92)) sm in
  let lib := call Lib.DrawSphereMesh lib in
  let sm := SetShaderTexture "grass2" sm in
  sm ← SetShaderMaterial "grass2" sm;
  let sm := SetTextureUVScale 2 2 sm in
  let sm := SetTransformations (glm.Vec3 0.07 0.07 0.07) 5 0 0 (glm.Vec3 (-0.42) 1.36 (-0.45)) sm in
  let lib := call Lib.DrawSphereMesh lib in
  let sm := SetShaderTexture "grass2" sm in
  sm ← SetShaderMaterial "grass2" sm;
  let sm := SetTextureUVScale 2 2 sm in
  let sm := SetTransformations (glm.Vec3 0.07 0.07 0.07) 0 0 (-15)
      (glm.Vec3 (-0.82) 1.36 (-0.7)) sm in
  let lib := call Lib.DrawSphereMesh lib in
  let sm := SetShaderTexture "grass2" sm in
  sm ← SetShaderMaterial "grass2" sm;
  let sm := SetTextureUVScale 2 2 sm in
  let sm := SetTransformations (glm.Vec3 0.07 0.07 0.07) 0 0 15 (glm.Vec3 (-0.02) 1.36 (-0.7)) sm in
  let lib := call Lib.DrawSphereMesh lib in
  let sm := SetShaderTexture "grass2" sm in
  sm ← SetShaderMaterial "grass2" sm;
  let sm := SetTextureUVScale 2 2 sm in
  let sm := SetTransformations (glm.Vec3 0.07 0.07 0.07) (-8) 0 0
      (glm.Vec3 (-0.42) 1.28 (-0.82)) sm in
  let lib := call Lib.DrawSphereMesh lib in
  let sm := SetShaderTexture "grass2" sm in
  sm ← SetShaderMaterial "grass2" sm;
  let sm := SetTextureUVScale 2 2 sm in
  let sm := SetTransformations (glm.Vec3 0.07 0.07 0.07) 0 0 (-10)
      (glm.Vec3 (-0.72) 1.36 (-0.9)) sm in
  let lib := call Lib.DrawSphereMesh lib in
  let sm := SetShaderTexture "grass2" sm in
  sm ← SetShaderMaterial "grass2" sm;
  let sm := SetTextureUVScale 2 2 sm in
  let sm := SetTransformations (glm.Vec3 0.07 0.07 0.07) 0 0 10 (glm.Vec3 (-0.12) 1.36 (-0.5)) sm in
  let lib := call Lib.DrawSphereMesh lib in
  let sm := SetShaderTexture "grass2" sm in
  sm ← SetShaderMaterial "grass2" sm;
  let sm := SetTextureUVScale 2 2 sm in
  let sm := SetTransformations (glm.Vec3 0.07 0.07 0.07) 0 0 (-20)
      (glm.Vec3 (-0.82) 1.36 (-0.48)) sm in
  let lib := call Lib.DrawSphereMesh lib in
  let sm := SetShaderTexture "leather3" sm in
  sm ← SetShaderMaterial "leather3" sm;
  let sm := SetTextureUVScale 2 2 sm in
  let sm := SetTransformations (glm.Vec3 0.45 0.05 0.65) 0 100 0
      (glm.Vec3 (-0.75) 0.01 (-0.15)) sm in
  let lib := call Lib.DrawBoxMesh lib in
  let sm := SetShaderTexture "paper" sm in
  sm ← SetShaderMaterial "paper" sm;
  let sm := SetTextureUVScale 1 1 sm in
  let sm := SetTransformations (glm.Vec3 0.35 0.002 0.2) 0 10 0
      (glm.Vec3 (-0.75) 0.01 (-0.15)) sm in
  let lib := call Lib.DrawPlaneMesh lib in
  let sm := SetShaderTexture "pattern" sm in
  sm ← SetShaderMaterial "pattern" sm;
  let sm := SetTextureUVScale 2 2 sm in
  let sm := SetTransformations (glm.Vec3 0.32 0.045 0.62) 0 100 0
      (glm.Vec3 (-0.75) 0.065 (-0.15)) sm in
  let lib := call Lib.DrawBoxMesh lib in
  let sm := SetShaderTexture "fabric" sm in
  sm ← SetShaderMaterial "fabric" sm;
  let sm := SetTextureUVScale 2 2 sm in
  let sm := SetTransformations (glm.Vec3 0.3 0.04 0.6) 0 100 0 (glm.Vec3 (-0.75) 0.12 (-0.15)) sm in
  let lib := call Lib.DrawBoxMesh lib in
  let sm := SetShaderTexture "paper2" sm in
  sm ← SetShaderMaterial "paper2" sm;
  let sm := SetTextureUVScale 2 2 sm in
  let sm := SetTransformations (glm.Vec3 0.14 0.004 0.32) 0 100 0
      (glm.Vec3 (-0.75) 0.125 (-0.15)) sm in
  let lib := call Lib.DrawPlaneMesh lib in
  let sm := SetShaderTexture "wood2" sm in
  sm ← SetShaderMaterial "wood2" sm;
  let sm := SetTextureUVScale 2 2 sm in
  let sm := SetTransformations (glm.Vec3 0.005 0.68 0.005) 90 100 0
      (glm.Vec3 (-1.05) 0.16 0.02) sm in
  let lib := call (Lib.DrawCylinderMesh []) lib in
  let scaleXYZ := glm.Vec3 20 1 10 in
  let XrotationDegrees := 0 in
  let YrotationDegrees := 0 in
  let ZrotationDegrees := 0 in
  let positionXYZ := glm.Vec3 0 0 0 in
  let sm := SetTransformations scaleXYZ XrotationDegrees YrotationDegrees
                               ZrotationDegrees positionXYZ sm in
  let sm := SetShaderColor 1 1 1 1 sm in
  let lib := call Lib.DrawPlaneMesh lib in
  mret (sm, lib).
End Scene.

(** ** The scalar updates on IEEE binary32

    The updates of the speed multiplier, of an intensity and of the ambient
    boost once more, on the numbers that a C++ [float] has: the standard
    library's specification of IEEE 754 at precision 24 and maximal exponent
    128, with rounding to nearest even, infinities and NaN.  They compute. *)

Module Binary32.
Definition prec : Z := 24.
Definition emax : Z := 128.

(** The positive number [m * 2^e]. *)
Definition lit (m : positive) (e : Z) : spec_float := S754_finite false m e.

(** The literals of the source, as the compiler rounds them. *)
Definition f0 : spec_float := S754_zero false.        (* 0.0f *)
Definition f0_001 : spec_float := lit 8589935 (-33).  (* 0.001f *)
Definition f0_05 : spec_float := lit 13421773 (-28).  (* 0.05f *)
Definition f0_25 : spec_float := lit 8388608 (-25).   (* 0.25f *)
Definition f0_3 : spec_float := lit 10066330 (-25).   (* 0.3f *)
Definition f0_5 : spec_float := lit 8388608 (-24).    (* 0.5f *)
Definition f1 : spec_float := lit 8388608 (-23).      (* 1.0f *)
Definition f2 : spec_float := lit 8388608 (-22).      (* 2.0f *)
Definition f3 : spec_float := lit 12582912 (-22).     (* 3.0f *)
Definition f8 : spec_float := lit 8388608 (-20).      (* 8.0f *)
Definition f90 : spec_float := lit 11796480 (-17).    (* 90.0f *)

Definition add : spec_float -> spec_float -> spec_float := SFadd prec emax.
Definition sub : spec_float -> spec_float -> spec_float := SFsub prec emax.
Definition mul : spec_float -> spec_float -> spec_float := SFmul prec emax.

(** [std::max(a, b)] is [(a < b) ? b : a]; [std::min(a, b)] is
    [(b < a) ? b : a].  A comparison with NaN is false. *)
Definition std_max (a b : spec_float) : spec_float := if SFltb a b then b else a.
Definition std_min (a b : spec_float) : spec_float := if SFltb b a then b else a.

(** Lines 321, 325, 347, 350, 353 and 354. *)
Definition halve_speed (scale : spec_float) : spec_float :=
  std_max f0_25 (mul scale f0_5).
Definition double_speed (scale : spec_float) : spec_float :=
  std_min f8 (mul scale f2).
Definition raise_intensity (i : spec_float) : spec_float :=
  std_min f3 (add i f0_05).
Definition lower_intensity (i : spec_float) : spec_float :=
  std_max f0 (sub i f0_05).
Definition lower_ambient (amb : spec_float) : spec_float :=
  std_max f0 (sub amb f0_001).
Definition raise_ambient (amb : spec_float) : spec_float :=
  std_min f0_3 (add amb f0_001).

(** Lines 165-169, [yOffset] being the offset after its cast to [float]. *)
Definition zoom_after (yOffset zoom : spec_float) : spec_float :=
  let zoom := sub zoom yOffset in
  let zoom := if SFltb zoom f1 then f1 else zoom in
  if SFltb f90 zoom then f90 else zoom.

(** A C++ [double] is a number of precision 53 and maximal exponent 1024.
    A [float] converts to [double] without change; a [double] converts to
    [float] by rounding to nearest even. *)
Definition sub_double : spec_float -> spec_float -> spec_float := SFsub 53 1024.

Definition to_float (x : spec_float) : spec_float :=
  match x with
  | S754_finite s m e => binary_round prec emax s m e
  | _ => x
  end.

(** The three variables of the namespace that [Mouse_Position_Callback]
    works on (lines 33-35): [gLastX] and [gLastY] are [float]. *)
Record Mouse : Type := mkMouse {
  gLastX : spec_float;
  gLastY : spec_float;
  gFirstMouse : bool
}.

(** Lines 33-35: [WINDOW_WIDTH / 2.0f], [WINDOW_HEIGHT / 2.0f], [true]. *)
Definition initial_mouse : Mouse := mkMouse (lit 500 0) (lit 400 0) true.

(** [ViewManager::Mouse_Position_Callback], lines 142-155, on the numbers
    that the variables have: the coordinates arrive as [double], the stores
    to [gLastX] and [gLastY] convert them to [float], the two differences
    are taken in [double] and converted to the [float] offsets.  The result
    is the pair of offsets handed to [ProcessMouseMovement] and the
    variables after the call. *)
Definition Mouse_Position_Callback (xMousePos yMousePos : spec_float) (g : Mouse)
    : spec_float * spec_float * Mouse :=
  let g :=
    if gFirstMouse g
    then mkMouse (to_float xMousePos) (to_float yMousePos) false
    else g in
  let xOffset := to_float (sub_double xMousePos (gLastX g)) in
  let yOffset := to_float (sub_double (gLastY g) yMousePos) in
  let g := mkMouse (to_float xMousePos) (to_float yMousePos) (gFirstMouse g) in
  (xOffset, yOffset, g).
End Binary32.

(** ** Summaries used by the statements below *)

Import GLFW View.

(** Does [KeyPressedOnce(key)] return true: the key reads PRESS and its
    latch is clear. *)
Definition key_fires (m_window : KeyState) (key : Z) (keyOnce : gmap Z bool) : bool :=
  pressed m_window key && negb (latched keyOnce key).

(** The latch map that a call of [KeyPressedOnce(key)] leaves. *)
Definition latch_step (m_window : KeyState) (key : Z) (keyOnce : gmap Z bool)
    : gmap Z bool :=
  if key_fires m_window key keyOnce then <[key := true]> keyOnce
  else if released m_window key then <[key := false]> keyOnce
  else keyOnce.

(** The step of the held-key moves for a given speed multiplier. *)
Definition step_size (window : KeyState) (scale : R) : R :=
  if pressed window KEY_LEFT_SHIFT then 3 * scale * 0.016 * 2
  else 3 * scale * 0.016.

(** The camera after the six tests of lines 312-317. *)
Definition camera_after (window : KeyState) (speed : R) (cam : Camera.t) : Camera.t :=
  let cam := if pressed window KEY_W then Camera.MoveForward speed cam else cam in
  let cam := if pressed window KEY_S then Camera.MoveBackward speed cam else cam in
  let cam := if pressed window KEY_A then Camera.MoveLeft speed cam else cam in
  let cam := if pressed window KEY_D then Camera.MoveRight speed cam else cam in
  let cam := if pressed window KEY_Q then Camera.MoveDown speed cam else cam in
  let cam := if pressed window KEY_E then Camera.MoveUp speed cam else cam in
  cam.

(** The speed multiplier after lines 320-327. *)
Definition speed_after (m_window : KeyState) (ko : gmap Z bool) (scale : R) : R :=
  let scale := if key_fires m_window KEY_Z ko then halve_speed scale else scale in
  if key_fires m_window KEY_X ko then double_speed scale else scale.

(** The selected light after lines 330-333. *)
Definition selected_after (m_window : KeyState) (ko : gmap Z bool) (sel : Z) : Z :=
  if key_fires m_window KEY_4 ko then 3%Z
  else if key_fires m_window KEY_3 ko then 2%Z
  else if key_fires m_window KEY_2 ko then 1%Z
  else if key_fires m_window KEY_1 ko then 0%Z
  else sel.

(** The displacement that lines 335-340 add to the selected light. *)
Definition nudge_of (window : KeyState) (speed : R) : glm.vec3 :=
  glm.Vec3
    ((if pressed window KEY_LEFT then - speed else 0)
     + (if pressed window KEY_RIGHT then speed else 0))
    ((if pressed window KEY_PAGE_UP then speed else 0)
     + (if pressed window KEY_PAGE_DOWN then - speed else 0))
    ((if pressed window KEY_UP then - speed else 0)
     + (if pressed window KEY_DOWN then speed else 0)).

(** The tests of lines 346 and 349. *)
Definition raise_requested (window m_window : KeyState) (ko : gmap Z bool) : bool :=
  pressed window KEY_KP_ADD || key_fires m_window KEY_EQUAL ko.
Definition lower_requested (window m_window : KeyState) (ko : gmap Z bool) : bool :=
  pressed window KEY_KP_SUBTRACT || key_fires m_window KEY_MINUS ko.

(** The intensities after lines 346-351, for the selected light [sel]. *)
Definition intensity_after (window m_window : KeyState) (ko : gmap Z bool)
    (sel : Z) (int : list R) : list R :=
  let int := if raise_requested window m_window ko
             then update_at raise_intensity sel int else int in
  if lower_requested window m_window ko
  then update_at lower_intensity sel int else int.

(** The ambient boost after lines 353-354. *)
Definition ambient_after (window : KeyState) (amb : R) : R :=
  let amb := if pressed window KEY_SEMICOLON then std_max 0 (amb - 0.001) else amb in
  if pressed window KEY_APOSTROPHE then std_min 0.3 (amb + 0.001) else amb.

(** The latch map after a frame: every [KeyPressedOnce] of
    [HandleInteractiveShortcuts], in source order; those of lines 346 and
    349 are skipped while the keypad key is held. *)
Definition latches_after (window m_window : KeyState) (ko : gmap Z bool)
    : gmap Z bool :=
  let ko := latch_step m_window KEY_Z ko in
  let ko := latch_step m_window KEY_X ko in
  let ko := latch_step m_window KEY_1 ko in
  let ko := latch_step m_window KEY_2 ko in
  let ko := latch_step m_window KEY_3 ko in
  let ko := latch_step m_window KEY_4 ko in
  let ko := latch_step m_window KEY_L ko in
  let ko := latch_step m_window KEY_F ko in
  let ko := latch_step m_window KEY_T ko in
  let ko := if pressed window KEY_KP_ADD then ko
            else latch_step m_window KEY_EQUAL ko in
  let ko := if pressed window KEY_KP_SUBTRACT then ko
            else latch_step m_window KEY_MINUS ko in
  ko.

(** The keys whose action is behind [KeyPressedOnce] alone. *)
Definition edge_keys : list Z :=
  [KEY_Z; KEY_X; KEY_1; KEY_2; KEY_3; KEY_4; KEY_L; KEY_F; KEY_T].

(** [if (c) statement;] as one function of the state. *)
Definition when {S : Type} (c : bool) (f : S -> S) (s : S) : S :=
  if c then f s else s.

(** The states that a list of inputs leads through, one per input. *)
Fixpoint states_after {S I : Type} (step : I -> S -> S) (inputs : list I) (s : S)
    : list S :=
  match inputs with
  | [] => []
  | i :: inputs => let s := step i s in s :: states_after step inputs s
  end.

(** A frame of [HandleInteractiveShortcuts]: the key state of the window
    passed to the call and that of [m_window]. *)
Definition shortcuts_frame (keys : KeyState * KeyState) (vm : ViewManager)
    : ViewManager :=
  HandleInteractiveShortcuts keys.1 keys.2 vm.

(** Frame by frame, whether [KeyPressedOnce(key)] returns true. *)
Fixpoint fired_in (key : Z) (frames : list (KeyState * KeyState))
    (vm : ViewManager) : list bool :=
  match frames with
  | [] => []
  | keys :: frames =>
      key_fires keys.2 key (m_keyOnce vm)
      :: fired_in key frames (shortcuts_frame keys vm)
  end.

(** The clamps of the light parameters. *)
Definition clamps_hold (vm : ViewManager) : Prop :=
  Forall (fun i => 0 <= i <= 3) (m_pointIntensity vm)
  /\ 0 <= m_ambientBoost vm <= 0.3
  /\ (0 <= m_selectedPointLight vm <= 3)%Z.

(** The camera after the six tests of lines 187-214, for the elapsed time
    [dt]. *)
Definition camera_after_keys (m_pWindow : KeyState) (dt : R) (cam : Camera.t)
    : Camera.t :=
  let cam := if pressed m_pWindow KEY_W
             then Camera.ProcessKeyboard Camera.FORWARD dt cam else cam in
  let cam := if pressed m_pWindow KEY_S
             then Camera.ProcessKeyboard Camera.BACKWARD dt cam else cam in
  let cam := if pressed m_pWindow KEY_A
             then Camera.ProcessKeyboard Camera.LEFT dt cam else cam in
  let cam := if pressed m_pWindow KEY_D
             then Camera.ProcessKeyboard Camera.RIGHT dt cam else cam in
  let cam := if pressed m_pWindow KEY_Q
             then Camera.ProcessKeyboard Camera.UP dt cam else cam in
  let cam := if pressed m_pWindow KEY_E
             then Camera.ProcessKeyboard Camera.DOWN dt cam else cam in
  cam.

(** The zoom that [Scroll_Callback] leaves. *)
Definition zoom_after (yOffset zoom : R) : R :=
  let zoom := zoom - yOffset in
  let zoom := if Rlt_dec zoom 1 then 1 else zoom in
  if Rgt_dec zoom 90 then 90 else zoom.

(** What the callbacks and the keyboard polling leave alone in the
    namespace: the projection flag and the frame timing; a camera that is
    there stays there. *)
Definition same_frame (g g' : Globals) : Prop :=
  bOrthographicProjection g' = bOrthographicProjection g
  /\ gDeltaTime g' = gDeltaTime g
  /\ gLastFrame g' = gLastFrame g
  /\ (is_Some (g_pCamera g) -> is_Some (g_pCamera g')).

(** The line that the P key prints. *)
Definition projection_message (orthographic : bool) : string :=
  ((if orthographic then "Orthographic" else "Perspective")
   +:+ " projection enabled.")%string.

(** The three writes of lines 295-299. *)
Definition view_uniforms (orthographic : bool) (cam : Camera.t) : list UniformWrite :=
  [setMat4Value g_ViewName (Camera.GetViewMatrix cam);
   setMat4Value g_ProjectionName (scene_projection orthographic cam);
   setVec3Value "viewPosition" (Camera.Position cam)].

(** Lines 292-300: the writes reach the shader manager when there is one. *)
Definition upload_view (orthographic : bool) (cam : Camera.t) (vm : ViewManager)
    : ViewManager :=
  match View.m_pShaderManager vm with
  | Some shader =>
      View.set_m_pShaderManager (Some (shader ++ view_uniforms orthographic cam)) vm
  | None => vm
  end.

(** The key state, the pending polls and the namespace after the test of
    the P key (lines 216-225), from the namespace [g] with the flag as it
    was before the test. *)
Definition after_P (keys : KeyState) (pending : list Poll) (g : Globals)
    : outcome (KeyState * list Poll * Globals) :=
  if pressed keys KEY_P then
    drain_P keys pending
      (set_bOrthographicProjection (negb (bOrthographicProjection g)) g)
  else Done (keys, pending, g).

(** One scroll event, as an input of [states_after]. *)
Definition scroll_step (offsets : R * R) (g : Globals) : Globals :=
  Scroll_Callback offsets.1 offsets.2 g.

(** The spec's "clamps to [lo, hi]". *)
Definition clamp_to (lo hi v : R) : R := Rmax lo (Rmin hi v).

(** The two operations on the speed multiplier. *)
Inductive speed_op : Type := Halve | Double.

Definition apply_speed_op (op : speed_op) (scale : R) : R :=
  match op with
  | Halve => halve_speed scale
  | Double => double_speed scale
  end.

(** ** Sample inputs *)

(** No key is down. *)
Definition no_keys : KeyState := fun _ => RELEASE.

(** The keys of [down] are down, the others are up. *)
Definition keys_down (down : list Z) : KeyState :=
  fun key => if bool_decide (key ∈ down) then PRESS else RELEASE.

Definition sample_camera : Camera.t :=
  Camera.mk (glm.Vec3 0 5 12) (glm.Vec3 0 0 (-1)) (glm.Vec3 0 1 0)
            (glm.Vec3 1 0 0) (-90) 0 80 20 0.1.

Definition sample_view : ViewManager :=
  mkViewManager None sample_camera ∅ 1 0
    [glm.Vec3 0 0 0; glm.Vec3 1 0 0; glm.Vec3 2 0 0; glm.Vec3 3 0 0]
    [true; true; true; true] [1; 1; 1; 1] true false 0 None.

Definition sample_globals : Globals :=
  mkGlobals (Some sample_camera) 500 400 true 0 0 false.

(** The x coordinate of light [i], and what a frame of the shortcut handler
    adds to it and to the ambient boost. *)
Definition light_x (i : nat) (vm : ViewManager) : R :=
  from_option glm.x 0 (m_pointLightPos vm !! i).

Definition light_x_moved (window : KeyState) (i : nat) (vm : ViewManager) : R :=
  light_x i (HandleInteractiveShortcuts window no_keys vm) - light_x i vm.

Definition ambient_moved (window : KeyState) (vm : ViewManager) : R :=
  m_ambientBoost (HandleInteractiveShortcuts window no_keys vm) - m_ambientBoost vm.

(** Two states of the program that differ in the frame time alone. *)
Definition slow_frame : State :=
  mkState (set_gDeltaTime 0.016 sample_globals) sample_view false [].
Definition fast_frame : State :=
  mkState (set_gDeltaTime 0.032 sample_globals) sample_view false [].

(** A scene manager built with a null shader manager, its materials
    defined. *)
Definition scene_without_shader : Scene.SceneManager :=
  Scene.DefineObjectMaterials (Scene.mkSceneManager None [] 0 [] []).

(** Unit length and pairwise orthogonality of a camera basis. *)
Definition orthonormal (front up right : glm.vec3) : Prop :=
  glm.length front = 1 /\ glm.length up = 1 /\ glm.length right = 1
  /\ glm.dot front up = 0 /\ glm.dot front right = 0 /\ glm.dot up right = 0.

(** One look event, as an input of [states_after]. *)
Definition look_step (offsets : R * R) (cam : Camera.t) : Camera.t :=
  Camera.ProcessMouseMovement offsets.1 offsets.2 cam.

(** What the look operation guarantees of the camera it returns. *)
Definition look_invariant (cam : Camera.t) : Prop :=
  -89 <= Camera.Pitch cam <= 89
  /\ orthonormal (Camera.Front cam) (Camera.Up cam) (Camera.Right cam)
  /\ Camera.Front cam
     = glm.Vec3
         (cos (glm.radians (Camera.Yaw cam)) * cos (glm.radians (Camera.Pitch cam)))
         (sin (glm.radians (Camera.Pitch cam)))
         (sin (glm.radians (Camera.Yaw cam)) * cos (glm.radians (Camera.Pitch cam))).

(** ** Summaries of SceneManager.cpp *)

(** The entries of the texture table that the lookups read: the first
    [m_loadedTextures] of the array. *)
Definition loaded_textures (sm : Scene.SceneManager) : list Scene.TEXTURE_INFO :=
  take (Z.to_nat (Scene.m_loadedTextures sm)) (Scene.m_textureIDs sm).

(** [CreateGLTexture] goes on after [glTexImage2D] for 3 and for 4 colour
    channels. *)
Definition supported (image : Scene.Image) : bool :=
  (Scene.colorChannels image =? 3)%Z || (Scene.colorChannels image =? 4)%Z.

(** Does [CreateGLTexture(filename, _)] return true. *)
Definition loads (lib : Scene.Libraries) (filename : string) : bool :=
  from_option supported false (Scene.files lib filename).

(** The texture state of OpenGL that the calls act on: the active texture
    unit, the texture bound to [GL_TEXTURE_2D] of each unit (an absent unit
    has the binding 0) and the image last specified for each texture. *)
Record TextureUnits : Type := mkUnits {
  active : Z;
  binding : gmap Z Z;
  storage : gmap Z Scene.Image
}.

Definition bound_2D (u : TextureUnits) (unit : Z) : Z :=
  default 0%Z (binding u !! unit).

(** The effect of one call on the texture state (OpenGL 4.6, sections 8.1
    and 8.5): [glActiveTexture] selects the unit, [glBindTexture] binds in
    the active unit, [glTexImage2D] specifies the image of the texture bound
    in the active unit. *)
Definition gl_call (u : TextureUnits) (c : Scene.Lib.Call) : TextureUnits :=
  match c with
  | Scene.Lib.glActiveTexture texture => mkUnits texture (binding u) (storage u)
  | Scene.Lib.glBindTexture target texture =>
      if (target =? Scene.GL_TEXTURE_2D)%Z
      then mkUnits (active u) (<[active u := texture]> (binding u)) (storage u)
      else u
  | Scene.Lib.glTexImage2D target _ _ _ _ _ _ _ pixels =>
      if (target =? Scene.GL_TEXTURE_2D)%Z
      then mkUnits (active u) (binding u)
                   (<[bound_2D u (active u) := pixels]> (storage u))
      else u
  | _ => u
  end.

(** The texture state after a list of calls, from the initial state of a
    context: unit 0 active, nothing bound. *)
Definition texture_units (calls : list Scene.Lib.Call) : TextureUnits :=
  foldl gl_call (mkUnits Scene.GL_TEXTURE0 ∅ ∅) calls.

(** The files and tags of [LoadSceneTextures], in source order. *)
Definition scene_textures : list (string * string) := [
  ("./Debug/textures/wood_light_seamless.jpg", "wood");
  ("./Debug/textures/marble_light_seamless.jpg", "marble1");
  ("./Debug/textures/leather_black_seamless.jpg", "leather1");
  ("./Debug/textures/paper_textured_seamless.jpg", "paper");
  ("./Debug/textures/leather_brown_seamless.jpg", "leather2");
  ("./Debug/textures/paper_brown_seamless.jpg", "paper2");
  ("./Debug/textures/leather_tan_seamless.jpg", "leather3");
  ("./Debug/textures/marble_light2_seamless.jpg", "marble2");
  ("./Debug/textures/ground_textured_seamless.jpg", "ground");
  ("./Debug/textures/grass_textured1_seamless.jpg", "grass1");
  ("./Debug/textures/grass_textured2_seamless.jpg", "grass2");
  ("./Debug/textures/pattern_flowers_seamless.jpg", "pattern");
  ("./Debug/textures/fabric_textured_seamless.jpg", "fabric");
  ("./Debug/textures/wood_cherry_seamless.jpg", "wood2")
].

(** One call of [CreateGLTexture], its result dropped. *)
Definition create_texture (s : Scene.SceneManager * Scene.Libraries)
    (texture : string * string) : Scene.SceneManager * Scene.Libraries :=
  (Scene.CreateGLTexture texture.1 texture.2 s).2.

(** A statement of [RenderScene]. *)
Inductive SceneStep : Type :=
| Texture (textureTag : string)
| Material (materialTag : string)
| UVScale (u v : R)
| Transformations (scaleXYZ : glm.vec3)
                  (XrotationDegrees YrotationDegrees ZrotationDegrees : R)
                  (positionXYZ : glm.vec3)
| Color (redColorValue greenColorValue blueColorValue alphaValue : R)
| Issue (c : Scene.Lib.Call).

(** A list of statements, run in order. *)
Fixpoint scene_steps (steps : list SceneStep) (sm : Scene.SceneManager)
    (lib : Scene.Libraries) : outcome (Scene.SceneManager * Scene.Libraries) :=
  match steps with
  | [] => mret (sm, lib)
  | step :: steps =>
      match step with
      | Texture textureTag =>
          scene_steps steps (Scene.SetShaderTexture textureTag sm) lib
      | Material materialTag =>
          sm ← Scene.SetShaderMaterial materialTag sm; scene_steps steps sm lib
      | UVScale u v => scene_steps steps (Scene.SetTextureUVScale u v sm) lib
      | Transformations scaleXYZ rx ry rz positionXYZ =>
          scene_steps steps
            (Scene.SetTransformations scaleXYZ rx ry rz positionXYZ sm) lib
      | Color r g b a => scene_steps steps (Scene.SetShaderColor r g b a sm) lib
      | Issue c => scene_steps steps sm (Scene.call c lib)
      end
  end.

(** The uniform writes of one statement, for the texture table and the
    materials of [sm]. *)
Definition step_writes (sm : Scene.SceneManager) (step : SceneStep)
    : list UniformWrite :=
  match step with
  | Texture textureTag =>
      let slot := Scene.FindTextureSlot textureTag sm in
      if (slot <? 0)%Z then []
      else [setIntValue Scene.g_UseTextureName 1;
            setSampler2DValue Scene.g_TextureValueName slot]
  | Material materialTag =>
      match Scene.FindMaterial materialTag (Scene.m_objectMaterials sm) with
      | Some material =>
          [setVec3Value "material.diffuseColor" (Scene.diffuseColor material);
           setVec3Value "material.specularColor" (Scene.specularColor material);
           setFloatValue "material.shininess" (Scene.shininess material);
           setVec3Value "material.ambientColor" (Scene.ambientColor material);
           setFloatValue "material.ambientStrength" (Scene.ambientStrength material)]
      | None => []
      end
  | UVScale u v => [setVec2Value "UVscale" u v]
  | Transformations scaleXYZ rx ry rz positionXYZ =>
      [setMat4Value Scene.g_ModelName
         (glm.mul
            (glm.mul
               (glm.mul
                  (glm.mul (glm.translate positionXYZ)
                           (glm.rotate (glm.radians rz) (glm.Vec3 0 0 1)))
                  (glm.rotate (glm.radians ry) (glm.Vec3 0 1 0)))
               (glm.rotate (glm.radians rx) (glm.Vec3 1 0 0)))
            (glm.scale scaleXYZ))]
  | Color r g b a =>
      [setIntValue Scene.g_UseTextureName 0;
       setVec4Value Scene.g_ColorValueName r g b a]
  | Issue _ => []
  end.

(** The library call of a statement. *)
Definition step_calls (step : SceneStep) : list Scene.Lib.Call :=
  match step with
  | Issue c => [c]
  | _ => []
  end.

(** The material tag and the texture tag of a statement. *)
Definition step_material (step : SceneStep) : list string :=
  match step with
  | Material materialTag => [materialTag]
  | _ => []
  end.
Definition step_texture (step : SceneStep) : list string :=
  match step with
  | Texture textureTag => [textureTag]
  | _ => []
  end.

(** The statements of [RenderScene], in source order; the last
    [SetTransformations] with the values of its five variables. *)
Definition RenderScene_steps : list SceneStep := [
  Issue (Scene.Lib.glClear (Z.lor Scene.GL_COLOR_BUFFER_BIT Scene.GL_DEPTH_BUFFER_BIT));
  Texture "wood";
  Material "wood";
  UVScale 1 1;
  Transformations (glm.Vec3 2 1 2) 0 0 0 (glm.Vec3 0 0 0.2);
  Issue Scene.Lib.DrawPlaneMesh;
  Texture "marble1";
  Material "marble1";
  UVScale 1 1;
  Transformations (glm.Vec3 0.3 0.015 0.3) 0 0 0 (glm.Vec3 0 0.01 0);
  Issue (Scene.Lib.DrawCylinderMesh []);
  Texture "marble1";
  Material "marble1";
  UVScale 1 1;
  Transformations (glm.Vec3 0.12 0.008 0.12) 0 0 0 (glm.Vec3 0 0.035 0);
  Issue Scene.Lib.DrawHalfSphereMesh;
  Texture "marble1";
  Material "marble1";
  UVScale 1 1;
  Transformations (glm.Vec3 0.18 0.27 0.18) 180 0 0 (glm.Vec3 0 0.3 0);
  Issue (Scene.Lib.DrawTaperedCylinderMesh [true; true; true]);
  Color 0.1 0.05 0.01 1;
  Transformations (glm.Vec3 0.16 0.005 0.16) 0 0 0 (glm.Vec3 0 0.3 0);
  Issue (Scene.Lib.DrawCylinderMesh []);
  Texture "marble1";
  Material "marble1";
  UVScale 1 1;
  Transformations (glm.Vec3 0.06 0.06 0.025) 0 0 90 (glm.Vec3 (-0.2) 0.215 0);
  Issue Scene.Lib.DrawHalfTorusMesh;
  Texture "marble1";
  Material "marble1";
  UVScale 1 1;
  Transformations (glm.Vec3 0.06 0.06 0.025) 180 0 90 (glm.Vec3 (-0.2) 0.215 0);
  Issue Scene.Lib.DrawHalfTorusMesh;
  Texture "leather1";
  Material "leather1";
  UVScale 4 2;
  Transformations (glm.Vec3 0.5 0.07 0.4) 0 90 0 (glm.Vec3 0.52 0.035 0.09);
  Issue Scene.Lib.DrawBoxMesh;
  Texture "paper";
  Material "paper";
  UVScale 4 2;
  Transformations (glm.Vec3 0.27 0.001 0.16) 0 90 0 (glm.Vec3 0.47 0.035 0.08);
  Issue Scene.Lib.DrawPlaneMesh;
  Texture "leather2";
  Material "leather2";
  UVScale 4 2;
  Transformations (glm.Vec3 0.5 0.09 0.4) 0 90 0 (glm.Vec3 0.52 0.12 0.09);
  Issue Scene.Lib.DrawBoxMesh;
  Texture "paper2";
  Material "paper2";
  UVScale 4 2;
  Transformations (glm.Vec3 0.26 0.014 0.21) 0 90 0 (glm.Vec3 0.52 0.12 0.09);
  Issue Scene.Lib.DrawPlaneMesh;
  Texture "leather3";
  Material "leather3";
  UVScale 4 2;
  Transformations (glm.Vec3 0.4 0.04 0.3) 0 90 0 (glm.Vec3 0.52 0.17 0.09);
  Issue Scene.Lib.DrawBoxMesh;
  Texture "paper";
  Material "paper";
  UVScale 2 2;
  Transformations (glm.Vec3 0.25 0.01 0.89) 90 (-45) 0 (glm.Vec3 0.52 0.46 0.09);
  Issue Scene.Lib.DrawBoxMesh;
  Texture "wood";
  Material "wood";
  UVScale 2 2;
  Transformations (glm.Vec3 0.27 0.01 0.92) 90 (-45) 0 (glm.Vec3 0.53 0.48 0.09);
  Issue Scene.Lib.DrawBoxMesh;
  Texture "wood";
  Material "wood";
  UVScale 2 2;
  Transformations (glm.Vec3 0.27 0.01 0.92) 90 (-45) 0 (glm.Vec3 0.53 0.48 0.09);
  Issue Scene.Lib.DrawBoxMesh;
  Texture "wood";
  Material "wood";
  UVScale 2 2;
  Transformations (glm.Vec3 0.27 0.01 0.9) 90 (-45) 0 (glm.Vec3 0.53 0.48 0.09);
  Issue Scene.Lib.DrawBoxMesh;
  Texture "marble1";
  Material "marble1";
  UVScale 2 2;
  Transformations (glm.Vec3 0.3 0.65 0.3) 0 0 0 (glm.Vec3 (-0.42) 0.01 (-0.7));
  Issue (Scene.Lib.DrawTaperedCylinderMesh [true; true; true]);
  Texture "marble2";
  Material "marble2";
  UVScale 2 2;
  Transformations (glm.Vec3 0.06 0.45 0.06) 0 0 0 (glm.Vec3 (-0.21) 0.19 (-0.7));
  Issue (Scene.Lib.DrawCylinderMesh [true; true]);
  Texture "marble2";
  Material "marble2";
  UVScale 2 2;
  Transformations (glm.Vec3 0.06 0.45 0.06) 0 0 0 (glm.Vec3 (-0.42) 0.19 (-0.49));
  Issue (Scene.Lib.DrawCylinderMesh [true; true]);
  Texture "marble2";
  Material "marble2";
  UVScale 2 2;
  Transformations (glm.Vec3 0.06 0.45 0.06) 0 0 0 (glm.Vec3 (-0.63) 0.19 (-0.7));
  Issue (Scene.Lib.DrawCylinderMesh [true; true]);
  Texture "marble2";
  Material "marble2";
  UVScale 2 2;
  Transformations (glm.Vec3 0.06 0.45 0.06) 0 0 0 (glm.Vec3 (-0.42) 0.19 (-0.91));
  Issue (Scene.Lib.DrawCylinderMesh [true; true]);
  Texture "marble2";
  Material "marble2";
  UVScale 2 2;
  Transformations (glm.Vec3 0.06 0.45 0.06) 0 0 0 (glm.Vec3 (-0.31) 0.19 (-0.59));
  Issue (Scene.Lib.DrawCylinderMesh [true; true]);
  Texture "marble2";
  Material "marble2";
  UVScale 2 2;
  Transformations (glm.Vec3 0.06 0.45 0.06) 0 0 0 (glm.Vec3 (-0.53) 0.19 (-0.59));
  Issue (Scene.Lib.DrawCylinderMesh [true; true]);
  Texture "marble2";
  Material "marble2";
  UVScale 2 2;
  Transformations (glm.Vec3 0.06 0.45 0.06) 0 0 0 (glm.Vec3 (-0.31) 0.19 (-0.81));
  Issue (Scene.Lib.DrawCylinderMesh [true; true]);
  Texture "marble2";
  Material "marble2";
  UVScale 2 2;
  Transformations (glm.Vec3 0.06 0.45 0.06) 0 0 0 (glm.Vec3 (-0.53) 0.19 (-0.81));
  Issue (Scene.Lib.DrawCylinderMesh [true; true]);
  Color 0 0 0 1;
  UVScale 1 1;
  Transformations (glm.Vec3 0.26 0.008 0.26) 0 0 0 (glm.Vec3 (-0.42) 0.625 (-0.7));
  Issue (Scene.Lib.DrawCylinderMesh []);
  Texture "marble1";
  Material "marble1";
  UVScale 2 2;
  Transformations (glm.Vec3 0.26 0.008 0.26) 0 0 0 (glm.Vec3 (-0.42) 0.635 (-0.7));
  Issue (Scene.Lib.DrawCylinderMesh []);
  Texture "marble2";
  Material "marble2";
  UVScale 2 2;
  Transformations (glm.Vec3 0.24 0.1 0.24) 0 0 0 (glm.Vec3 (-0.42) 0.645 (-0.7));
  Issue (Scene.Lib.DrawCylinderMesh []);
  Texture "ground";
  Material "ground";
  UVScale 2 2;
  Transformations (glm.Vec3 0.22 0.1 0.22) 0 0 0 (glm.Vec3 (-0.42) 0.755 (-0.7));
  Issue Scene.Lib.DrawHalfSphereMesh;
  Texture "grass1";
  Material "grass1";
  UVScale 2 2;
  Transformations (glm.Vec3 0.005 0.68 0.005) 0 0 0 (glm.Vec3 (-0.42) 0.82 (-0.7));
  Issue (Scene.Lib.DrawCylinderMesh []);
  Texture "grass2";
  Material "grass2";
  UVScale 2 2;
  Transformations (glm.Vec3 0.05 0.08 0.05) 0 0 0 (glm.Vec3 (-0.42) 1.54 (-0.7));
  Issue Scene.Lib.DrawSphereMesh;
  Texture "grass1";
  Material "grass1";
  UVScale 2 2;
  Transformations (glm.Vec3 0.005 0.68 0.005) (-15) 0 30 (glm.Vec3 (-0.36) 0.82 (-0.67));
  Issue (Scene.Lib.DrawCylinderMesh []);
  Texture "grass1";
  Material "grass1";
  UVScale 2 2;
  Transformations (glm.Vec3 0.005 0.68 0.005) (-10) 0 5 (glm.Vec3 (-0.38) 0.82 (-0.72));
  Issue (Scene.Lib.DrawCylinderMesh []);
  Texture "grass1";
  Material "grass1";
  UVScale 2 2;
  Transformations (glm.Vec3 0.005 0.68 0.005) 0 0 (-25) (glm.Vec3 (-0.45) 0.82 (-0.68));
  Issue (Scene.Lib.DrawCylinderMesh []);
  Texture "grass1";
  Material "grass1";
  UVScale 2 2;
  Transformations (glm.Vec3 0.005 0.68 0.005) 10 0 20 (glm.Vec3 (-0.39) 0.82 (-0.66));
  Issue (Scene.Lib.DrawCylinderMesh []);
  Texture "grass1";
  Material "grass1";
  UVScale 2 2;
  Transformations (glm.Vec3 0.005 0.68 0.005) (-11) 0 (-27.7) (glm.Vec3 (-0.37) 0.82 (-0.7));
  Issue (Scene.Lib.DrawCylinderMesh []);
  Texture "grass1";
  Material "grass1";
  UVScale 2 2;
  Transformations (glm.Vec3 0.005 0.68 0.005) (-12) 0 (-27.7) (glm.Vec3 (-0.39) 0.82 (-0.66));
  Issue (Scene.Lib.DrawCylinderMesh []);
  Texture "grass1";
  Material "grass1";
  UVScale 2 2;
  Transformations (glm.Vec3 0.005 0.68 0.005) (-10.8) 0 (-6.9) (glm.Vec3 (-0.44) 0.82 (-0.66));
  Issue (Scene.Lib.DrawCylinderMesh []);
  Texture "grass1";
  Material "grass1";
  UVScale 2 2;
  Transformations (glm.Vec3 0.005 0.68 0.005) 8.3 0 21.7 (glm.Vec3 (-0.47) 0.82 (-0.7));
  Issue (Scene.Lib.DrawCylinderMesh []);
  Texture "grass1";
  Material "grass1";
  UVScale 2 2;
  Transformations (glm.Vec3 0.005 0.68 0.005) (-12.4) 0 4 (glm.Vec3 (-0.45) 0.82 (-0.74));
  Issue (Scene.Lib.DrawCylinderMesh []);
  Texture "grass1";
  Material "grass1";
  UVScale 2 2;
  Transformations (glm.Vec3 0.005 0.68 0.005) 5.7 0 25.1 (glm.Vec3 (-0.39) 0.82 (-0.74));
  Issue (Scene.Lib.DrawCylinderMesh []);
  Texture "grass1";
  Material "grass1";
  UVScale 2 2;
  Transformations (glm.Vec3 0.005 0.68 0.005) (-12) 0 (-35.1) (glm.Vec3 (-0.35) 0.82 (-0.68));
  Issue (Scene.Lib.DrawCylinderMesh []);
  Texture "grass1";
  Material "grass1";
  UVScale 2 2;
  Transformations (glm.Vec3 0.005 0.68 0.005) 14 0 32.1 (glm.Vec3 (-0.49) 0.82 (-0.73));
  Issue (Scene.Lib.DrawCylinderMesh []);
  Texture "grass1";
  Material "grass1";
  UVScale 2 2;
  Transformations (glm.Vec3 0.005 0.68 0.005) (-8) 0 40 (glm.Vec3 (-0.38) 0.82 (-0.77));
  Issue (Scene.Lib.DrawCylinderMesh []);
  Texture "grass2";
  Material "grass2";
  UVScale 2 2;
  Transformations (glm.Vec3 0.07 0.07 0.07) (-12) 0 (-35) (glm.Vec3 (-0.6) 1.36 (-0.84));
  Issue Scene.Lib.DrawSphereMesh;
  Texture "grass2";
  Material "grass2";
  UVScale 2 2;
  Transformations (glm.Vec3 0.07 0.07 0.07) 15 0 20 (glm.Vec3 (-0.3) 1.36 (-0.56));
  Issue Scene.Lib.DrawSphereMesh;
  Texture "grass2";
  Material "grass2";
  UVScale 2 2;
  Transformations (glm.Vec3 0.07 0.07 0.07) (-8) 0 40 (glm.Vec3 (-0.2) 1.36 (-0.92));
  Issue Scene.Lib.DrawSphereMesh;
  Texture "grass2";
  Material "grass2";
  UVScale 2 2;
  Transformations (glm.Vec3 0.07 0.07 0.07) (-10) 0 20 (glm.Vec3 (-0.72) 1.36 (-0.82));
  Issue Scene.Lib.DrawSphereMesh;
  Texture "grass2";
  Material "grass2";
  UVScale 2 2;
  Transformations (glm.Vec3 0.07 0.07 0.07) 0 0 40 (glm.Vec3 (-0.42) 1.36 (-0.5));
  Issue Scene.Lib.DrawSphereMesh;
  Texture "grass2";
  Material "grass2";
  UVScale 2 2;
  Transformations (glm.Vec3 0.07 0.07 0.07) 8 0 30 (glm.Vec3 (-0.1) 1.36 (-0.75));
  Issue Scene.Lib.DrawSphereMesh;
  Texture "grass2";
  Material "grass2";
  UVScale 2 2;
  Transformations (glm.Vec3 0.07 0.07 0.07) (-5) 0 0 (glm.Vec3 (-0.42) 1.36 (-0.92));
  Issue Scene.Lib.DrawSphereMesh;
  Texture "grass2";
  Material "grass2";
  UVScale 2 2;
  Transformations (glm.Vec3 0.07 0.07 0.07) 5 0 0 (glm.Vec3 (-0.42) 1.36 (-0.45));
  Issue Scene.Lib.DrawSphereMesh;
  Texture "grass2";
  Material "grass2";
  UVScale 2 2;
  Transformations (glm.Vec3 0.07 0.07 0.07) 0 0 (-15) (glm.Vec3 (-0.82) 1.36 (-0.7));
  Issue Scene.Lib.DrawSphereMesh;
  Texture "grass2";
  Material "grass2";
  UVScale 2 2;
  Transformations (glm.Vec3 0.07 0.07 0.07) 0 0 15 (glm.Vec3 (-0.02) 1.36 (-0.7));
  Issue Scene.Lib.DrawSphereMesh;
  Texture "grass2";
  Material "grass2";
  UVScale 2 2;
  Transformations (glm.Vec3 0.07 0.07 0.07) (-8) 0 0 (glm.Vec3 (-0.42) 1.28 (-0.82));
  Issue Scene.Lib.DrawSphereMesh;
  Texture "grass2";
  Material "grass2";
  UVScale 2 2;
  Transformations (glm.Vec3 0.07 0.07 0.07) 0 0 (-10) (glm.Vec3 (-0.72) 1.36 (-0.9));
  Issue Scene.Lib.DrawSphereMesh;
  Texture "grass2";
  Material "grass2";
  UVScale 2 2;
  Transformations (glm.Vec3 0.07 0.07 0.07) 0 0 10 (glm.Vec3 (-0.12) 1.36 (-0.5));
  Issue Scene.Lib.DrawSphereMesh;
  Texture "grass2";
  Material "grass2";
  UVScale 2 2;
  Transformations (glm.Vec3 0.07 0.07 0.07) 0 0 (-20) (glm.Vec3 (-0.82) 1.36 (-0.48));
  Issue Scene.Lib.DrawSphereMesh;
  Texture "leather3";
  Material "leather3";
  UVScale 2 2;
  Transformations (glm.Vec3 0.45 0.05 0.65) 0 100 0 (glm.Vec3 (-0.75) 0.01 (-0.15));
  Issue Scene.Lib.DrawBoxMesh;
  Texture "paper";
  Material "paper";
  UVScale 1 1;
  Transformations (glm.Vec3 0.35 0.002 0.2) 0 10 0 (glm.Vec3 (-0.75) 0.01 (-0.15));
  Issue Scene.Lib.DrawPlaneMesh;
  Texture "pattern";
  Material "pattern";
  UVScale 2 2;
  Transformations (glm.Vec3 0.32 0.045 0.62) 0 100 0 (glm.Vec3 (-0.75) 0.065 (-0.15));
  Issue Scene.Lib.DrawBoxMesh;
  Texture "fabric";
  Material "fabric";
  UVScale 2 2;
  Transformations (glm.Vec3 0.3 0.04 0.6) 0 100 0 (glm.Vec3 (-0.75) 0.12 (-0.15));
  Issue Scene.Lib.DrawBoxMesh;
  Texture "paper2";
  Material "paper2";
  UVScale 2 2;
  Transformations (glm.Vec3 0.14 0.004 0.32) 0 100 0 (glm.Vec3 (-0.75) 0.125 (-0.15));
  Issue Scene.Lib.DrawPlaneMesh;
  Texture "wood2";
  Material "wood2";
  UVScale 2 2;
  Transformations (glm.Vec3 0.005 0.68 0.005) 90 100 0 (glm.Vec3 (-1.05) 0.16 0.02);
  Issue (Scene.Lib.DrawCylinderMesh []);
  Transformations (glm.Vec3 20 1 10) 0 0 0 (glm.Vec3 0 0 0);
  Color 1 1 1 1;
  Issue Scene.Lib.DrawPlaneMesh
].

(** A scene manager whose texture table has room for sixteen entries, none
    of them loaded, and libraries where every file is a 1x1 RGB image and
    [glGenTextures] counts from 1. *)
Definition empty_table : list Scene.TEXTURE_INFO :=
  replicate 16 (Scene.mkTexture "" 0).
Definition sample_scene : Scene.SceneManager :=
  Scene.mkSceneManager (Some []) empty_table 0 [] [].
Definition sample_libraries : Scene.Libraries :=
  Scene.mkLibraries (fun _ => Some (Scene.mkImage 1 1 3))
                    (fun n => Z.of_nat n + 1)%Z 0 [].

(** The scene manager after a successful [CreateGLTexture]: the entry at
    [m_loadedTextures] holds the tag and the name, and the count is one
    more. *)
Definition registered (tag : string) (name : Z) (sm : Scene.SceneManager)
    : Scene.SceneManager :=
  Scene.mkSceneManager (Scene.m_pShaderManager sm)
    (update_at (fun _ => Scene.mkTexture tag name) (Scene.m_loadedTextures sm)
               (Scene.m_textureIDs sm))
    (Scene.m_loadedTextures sm + 1) (Scene.m_objectMaterials sm) (Scene.drawn sm).

(** The calls of [CreateGLTexture] for a file that [stbi_load] finds: up to
    the test of the channels, and after it. *)
Definition create_calls (filename : string) (image : Scene.Image) (name : Z)
    : list Scene.Lib.Call :=
  [Scene.Lib.stbi_set_flip_vertically_on_load true;
   Scene.Lib.stbi_load filename 0;
   Scene.Lib.cout [inl "Successfully loaded image:"; inl filename;
                   inl ", width:"; inr (Scene.width image);
                   inl ", height:"; inr (Scene.height image);
                   inl ", channels:"; inr (Scene.colorChannels image)];
   Scene.Lib.glGenTextures 1 name;
   Scene.Lib.glBindTexture Scene.GL_TEXTURE_2D name;
   Scene.Lib.glTexParameteri Scene.GL_TEXTURE_2D Scene.GL_TEXTURE_WRAP_S Scene.GL_REPEAT;
   Scene.Lib.glTexParameteri Scene.GL_TEXTURE_2D Scene.GL_TEXTURE_WRAP_T Scene.GL_REPEAT;
   Scene.Lib.glTexParameteri Scene.GL_TEXTURE_2D Scene.GL_TEXTURE_MIN_FILTER Scene.GL_LINEAR;
   Scene.Lib.glTexParameteri Scene.GL_TEXTURE_2D Scene.GL_TEXTURE_MAG_FILTER Scene.GL_LINEAR].

Definition upload_calls (image : Scene.Image) : list Scene.Lib.Call :=
  [(if (Scene.colorChannels image =? 3)%Z
    then Scene.Lib.glTexImage2D Scene.GL_TEXTURE_2D 0 Scene.GL_RGB8
           (Scene.width image) (Scene.height image) 0 Scene.GL_RGB
           Scene.GL_UNSIGNED_BYTE image
    else Scene.Lib.glTexImage2D Scene.GL_TEXTURE_2D 0 Scene.GL_RGBA8
           (Scene.width image) (Scene.height image) 0 Scene.GL_RGBA
           Scene.GL_UNSIGNED_BYTE image);
   Scene.Lib.glGenerateMipmap Scene.GL_TEXTURE_2D;
   Scene.Lib.stbi_image_free image;
   Scene.Lib.glBindTexture Scene.GL_TEXTURE_2D 0].

Definition reject_calls (image : Scene.Image) : list Scene.Lib.Call :=
  [Scene.Lib.cout [inl "Not implemented to handle image with ";
                   inr (Scene.colorChannels image); inl " channels"]].

Definition missing_calls (filename : string) : list Scene.Lib.Call :=
  [Scene.Lib.stbi_set_flip_vertically_on_load true;
   Scene.Lib.stbi_load filename 0;
   Scene.Lib.cout [inl "Could not load image:"; inl filename]].

(** The libraries after more calls, [n] of them [glGenTextures]. *)
Definition after_calls (n : nat) (added : list Scene.Lib.Call)
    (lib : Scene.Libraries) : Scene.Libraries :=
  Scene.mkLibraries (Scene.files lib) (Scene.names lib)
                    (n + Scene.generated lib) (Scene.calls lib ++ added).

(** What [CreateGLTexture] returns and leaves. *)
Definition created (filename tag : string)
    (s : Scene.SceneManager * Scene.Libraries)
    : bool * (Scene.SceneManager * Scene.Libraries) :=
  let name := Scene.names s.2 (Scene.generated s.2) in
  match Scene.files s.2 filename with
  | Some image =>
      if supported image then
        (true, (registered tag name s.1,
                after_calls 1 (create_calls filename image name
                               ++ upload_calls image) s.2))
      else
        (false, (s.1,
                 after_calls 1 (create_calls filename image name
                                ++ reject_calls image) s.2))
  | None => (false, (s.1, after_calls 0 (missing_calls filename) s.2))
  end.

(** The sample scene with one texture, "wood", in slot 0 under the name 1. *)
Definition wood_scene : Scene.SceneManager := registered "wood" 1 sample_scene.

(** The uniform writes, the library calls, the material tags and the
    texture tags of [RenderScene]. *)
Definition scene_writes (sm : Scene.SceneManager) : list UniformWrite :=
  concat (step_writes sm <$> RenderScene_steps).
Definition scene_calls : list Scene.Lib.Call :=
  concat (step_calls <$> RenderScene_steps).
Definition scene_materials : list string :=
  concat (step_material <$> RenderScene_steps).
Definition scene_texture_tags : list string :=
  concat (step_texture <$> RenderScene_steps).

(** Is the call one of the draw calls of the mesh library. *)
Definition is_draw (c : Scene.Lib.Call) : bool :=
  match c with
  | Scene.Lib.DrawPlaneMesh | Scene.Lib.DrawCylinderMesh _
  | Scene.Lib.DrawHalfSphereMesh | Scene.Lib.DrawTaperedCylinderMesh _
  | Scene.Lib.DrawHalfTorusMesh | Scene.Lib.DrawBoxMesh
  | Scene.Lib.DrawSphereMesh => true
  | _ => false
  end.

(** A scene manager with no shader manager, no texture and no material. *)
Definition bare_scene : Scene.SceneManager :=
  Scene.mkSceneManager None empty_table 0 [] [].

(** Is the event a scroll event. *)
Definition is_scroll (e : Event) : bool :=
  match e with
  | Scroll _ _ => true
  | CursorPos _ _ => false
  end.

(** The title of the window shows the selected light, counted from 1, and
    the speed multiplier. *)
Definition title_in_sync (vm : ViewManager) : Prop :=
  m_window_title vm
  = Some (mkTitle (m_selectedPointLight vm + 1) (m_moveSpeedScale vm)).

(** Does one of the keys fire whose action ends in
    [SetWindowTitleWithSelection]. *)
Definition title_key_fires (m_window : KeyState) (ko : gmap Z bool) : bool :=
  key_fires m_window KEY_Z ko || key_fires m_window KEY_X ko
  || key_fires m_window KEY_1 ko || key_fires m_window KEY_2 ko
  || key_fires m_window KEY_3 ko || key_fires m_window KEY_4 ko.

(** The sample view with its title set. *)
Definition titled_view : ViewManager := SetWindowTitleWithSelection sample_view.

(** How many uniforms a statement of [RenderScene] writes when its texture
    is loaded and its material defined. *)
Definition step_uniforms (step : SceneStep) : nat :=
  match step with
  | Texture _ => 2
  | Material _ => 5
  | UVScale _ _ => 1
  | Transformations _ _ _ _ _ => 1
  | Color _ _ _ _ => 2
  | Issue _ => 0
  end.

(** The tag of a statement is one of those of [LoadSceneTextures]. *)
Definition step_tag_known (step : SceneStep) : Prop :=
  match step with
  | Texture tag | Material tag => tag ∈ scene_textures.*2
  | _ => True
  end.

(** Cursor coordinates as GLFW hands them over, in [double]: 1 + 2^-30, the
    [double] nearest to 510.1, 510 and 390. *)
Definition cursor_1_plus : spec_float := S754_finite false 4503599631564800 (-52).
Definition cursor_510_1 : spec_float := S754_finite false 8973774101256602 (-44).
Definition cursor_510 : spec_float := S754_finite false 510 0.
Definition cursor_390 : spec_float := S754_finite false 390 0.

(** Libraries where the file of "wood" is missing and every other file is a
    1x1 RGB image. *)
Definition wood_missing : Scene.Libraries :=
  Scene.mkLibraries
    (fun filename =>
       if String.eqb filename "./Debug/textures/wood_light_seamless.jpg"
       then None else Some (Scene.mkImage 1 1 3))
    (fun n => Z.of_nat n + 1)%Z 0 [].

(** * Proofs *)

Lemma latched_insert (keyOnce : gmap Z bool) (k k' : Z) (b : bool) :
  latched (<[k := b]> keyOnce) k' = if decide (k = k') then b else latched keyOnce k'.
Proof.
  unfold latched. case_decide as Hk.
  - subst. by rewrite lookup_insert_eq.
  - by rewrite lookup_insert_ne.
Qed.

Lemma latched_latch_step_ne (m_window : KeyState) (k k' : Z) (keyOnce : gmap Z bool) :
  k ≠ k' -> latched (latch_step m_window k keyOnce) k' = latched keyOnce k'.
Proof.
  intros Hne. unfold latch_step.
  repeat case_match; rewrite ?latched_insert; try case_decide; congruence.
Qed.

Lemma key_fires_latch_step_ne (m_window : KeyState) (k k' : Z) (keyOnce : gmap Z bool) :
  k ≠ k' ->
  key_fires m_window k' (latch_step m_window k keyOnce) = key_fires m_window k' keyOnce.
Proof.
  intros Hne. unfold key_fires. by rewrite latched_latch_step_ne.
Qed.

Lemma KeyPressedOnce_mk (m_window : KeyState) (key : Z)
    sh cam ko sc sel pos on int dir fl amb title :
  KeyPressedOnce m_window key
    (mkViewManager sh cam ko sc sel pos on int dir fl amb title)
  = (key_fires m_window key ko,
     mkViewManager sh cam (latch_step m_window key ko) sc sel pos on int dir fl amb title).
Proof.
  unfold KeyPressedOnce, latch_step, key_fires, pressed, released. simpl.
  repeat case_match; reflexivity.
Qed.

#[local] Arguments KeyPressedOnce : simpl never.
#[local] Arguments pressed : simpl never.
#[local] Arguments released : simpl never.

(** Reduce the field updates of a [ViewManager] written with its
    constructor. *)
Ltac vm_simpl :=
  unfold SetWindowTitleWithSelection, set_m_pShaderManager, set_m_camera,
    set_m_keyOnce, set_m_moveSpeedScale, set_m_selectedPointLight,
    set_m_pointLightPos, set_m_pointLightOn, set_m_pointIntensity,
    set_m_dirLightOn, set_m_flashlightOn, set_m_ambientBoost,
    set_m_window_title;
  simpl.

(** One [KeyPressedOnce] of a block: name its result, forget the latch
    steps of the other keys in the test, and split on the test. *)
Ltac once_step w k ko :=
  rewrite KeyPressedOnce_mk, ?key_fires_latch_step_ne by done;
  destruct (key_fires w k ko); vm_simpl.

Lemma Shortcuts_Toggles_mk (m_window : KeyState)
    sh cam ko sc sel pos on int dir fl amb title :
  Shortcuts_Toggles m_window
    (mkViewManager sh cam ko sc sel pos on int dir fl amb title)
  = mkViewManager sh cam
      (latch_step m_window KEY_T (latch_step m_window KEY_F (latch_step m_window KEY_L ko)))
      sc sel pos
      (if key_fires m_window KEY_T ko then update_at negb sel on else on)
      int
      (if key_fires m_window KEY_L ko then negb dir else dir)
      (if key_fires m_window KEY_F ko then negb fl else fl)
      amb title.
Proof.
  unfold Shortcuts_Toggles.
  once_step m_window KEY_L ko.
  all: once_step m_window KEY_F ko.
  all: once_step m_window KEY_T ko.
  all: reflexivity.
Qed.

Lemma Shortcuts_Camera_mk (window : KeyState) (speed : R)
    sh cam ko sc sel pos on int dir fl amb title :
  Shortcuts_Camera window speed
    (mkViewManager sh cam ko sc sel pos on int dir fl amb title)
  = mkViewManager sh (camera_after window speed cam) ko sc sel pos on int dir fl
      amb title.
Proof.
  unfold Shortcuts_Camera, camera_after.
  destruct (pressed window KEY_W), (pressed window KEY_S),
    (pressed window KEY_A), (pressed window KEY_D), (pressed window KEY_Q),
    (pressed window KEY_E); reflexivity.
Qed.

Lemma Shortcuts_SpeedScale_mk (m_window : KeyState)
    sh cam ko sc sel pos on int dir fl amb title :
  Shortcuts_SpeedScale m_window
    (mkViewManager sh cam ko sc sel pos on int dir fl amb title)
  = mkViewManager sh cam
      (latch_step m_window KEY_X (latch_step m_window KEY_Z ko))
      (speed_after m_window ko sc) sel pos on int dir fl amb
      (if key_fires m_window KEY_Z ko || key_fires m_window KEY_X ko
       then Some (mkTitle (sel + 1) (speed_after m_window ko sc)) else title).
Proof.
  unfold Shortcuts_SpeedScale, speed_after.
  once_step m_window KEY_Z ko.
  all: once_step m_window KEY_X ko.
  all: reflexivity.
Qed.

Lemma select_on_mk (m_window : KeyState) (key index : Z)
    sh cam ko sc sel pos on int dir fl amb title :
  select_on m_window key index
    (mkViewManager sh cam ko sc sel pos on int dir fl amb title)
  = mkViewManager sh cam (latch_step m_window key ko) sc
      (if key_fires m_window key ko then index else sel) pos on int dir fl amb
      (if key_fires m_window key ko then Some (mkTitle (index + 1) sc) else title).
Proof.
  unfold select_on. rewrite KeyPressedOnce_mk.
  destruct (key_fires m_window key ko); vm_simpl; reflexivity.
Qed.

Lemma Shortcuts_SelectLight_mk (m_window : KeyState)
    sh cam ko sc sel pos on int dir fl amb title :
  Shortcuts_SelectLight m_window
    (mkViewManager sh cam ko sc sel pos on int dir fl amb title)
  = mkViewManager sh cam
      (latch_step m_window KEY_4 (latch_step m_window KEY_3
         (latch_step m_window KEY_2 (latch_step m_window KEY_1 ko))))
      sc (selected_after m_window ko sel) pos on int dir fl amb
      (if key_fires m_window KEY_1 ko || key_fires m_window KEY_2 ko
          || key_fires m_window KEY_3 ko || key_fires m_window KEY_4 ko
       then Some (mkTitle (selected_after m_window ko sel + 1) sc) else title).
Proof.
  unfold Shortcuts_SelectLight, selected_after.
  rewrite !select_on_mk, !key_fires_latch_step_ne by done.
  destruct (key_fires m_window KEY_1 ko), (key_fires m_window KEY_2 ko),
    (key_fires m_window KEY_3 ko), (key_fires m_window KEY_4 ko); reflexivity.
Qed.

Lemma update_at_compose {A : Type} (f g : A -> A) (i : Z) (a : list A) :
  update_at f i (update_at g i a) = update_at (f ∘ g) i a.
Proof. unfold update_at. case_match; [apply list_alter_alter_eq | reflexivity]. Qed.

Lemma update_at_ext {A : Type} (f g : A -> A) (i : Z) (a : list A) :
  (forall v, f v = g v) -> update_at f i a = update_at g i a.
Proof.
  intros Hfg. unfold update_at. case_match; [| reflexivity].
  apply list_alter_ext; auto.
Qed.

Lemma update_at_id {A : Type} (f : A -> A) (i : Z) (a : list A) :
  (forall v, f v = v) -> update_at f i a = a.
Proof.
  intros Hf. unfold update_at. case_match; [| reflexivity].
  by apply list_alter_id.
Qed.

Lemma length_update_at {A : Type} (f : A -> A) (i : Z) (a : list A) :
  length (update_at f i a) = length a.
Proof. unfold update_at. case_match; [apply length_alter | reflexivity]. Qed.

Lemma when_nudge (c : bool) (d : glm.vec3)
    sh cam ko sc sel pos on int dir fl amb title :
  when c (fun vm =>
            set_m_pointLightPos
              (update_at (fun p => glm.add p d)
                         (m_selectedPointLight vm) (m_pointLightPos vm)) vm)
       (mkViewManager sh cam ko sc sel pos on int dir fl amb title)
  = mkViewManager sh cam ko sc sel
      (update_at (fun p => glm.add p (if c then d else glm.Vec3 0 0 0)) sel pos)
      on int dir fl amb title.
Proof.
  destruct c; vm_simpl; [reflexivity |].
  f_equal. symmetry. apply update_at_id.
  intros [px py pz]. unfold glm.add. simpl. f_equal; lra.
Qed.

Lemma nudge_x_add (d : R) (vm : ViewManager) :
  nudge_x d vm
  = set_m_pointLightPos
      (update_at (fun p => glm.add p (glm.Vec3 d 0 0))
                 (m_selectedPointLight vm) (m_pointLightPos vm)) vm.
Proof.
  unfold nudge_x. f_equal. apply update_at_ext.
  intros [px py pz]. unfold glm.add. simpl. f_equal; lra.
Qed.

Lemma nudge_y_add (d : R) (vm : ViewManager) :
  nudge_y d vm
  = set_m_pointLightPos
      (update_at (fun p => glm.add p (glm.Vec3 0 d 0))
                 (m_selectedPointLight vm) (m_pointLightPos vm)) vm.
Proof.
  unfold nudge_y. f_equal. apply update_at_ext.
  intros [px py pz]. unfold glm.add. simpl. f_equal; lra.
Qed.

Lemma nudge_z_add (d : R) (vm : ViewManager) :
  nudge_z d vm
  = set_m_pointLightPos
      (update_at (fun p => glm.add p (glm.Vec3 0 0 d))
                 (m_selectedPointLight vm) (m_pointLightPos vm)) vm.
Proof.
  unfold nudge_z. f_equal. apply update_at_ext.
  intros [px py pz]. unfold glm.add. simpl. f_equal; lra.
Qed.

Lemma Shortcuts_NudgeLight_mk (window : KeyState) (speed : R)
    sh cam ko sc sel pos on int dir fl amb title :
  Shortcuts_NudgeLight window speed
    (mkViewManager sh cam ko sc sel pos on int dir fl amb title)
  = mkViewManager sh cam ko sc sel
      (update_at (fun p => glm.add p (nudge_of window speed)) sel pos)
      on int dir fl amb title.
Proof.
  change (Shortcuts_NudgeLight window speed
            (mkViewManager sh cam ko sc sel pos on int dir fl amb title))
    with (when (pressed window KEY_PAGE_DOWN) (nudge_y (- speed))
         (when (pressed window KEY_PAGE_UP) (nudge_y speed)
         (when (pressed window KEY_DOWN) (nudge_z speed)
         (when (pressed window KEY_UP) (nudge_z (- speed))
         (when (pressed window KEY_RIGHT) (nudge_x speed)
         (when (pressed window KEY_LEFT) (nudge_x (- speed))
            (mkViewManager sh cam ko sc sel pos on int dir fl amb title))))))).
  assert (Hx : forall d, nudge_x d = fun vm => _) by
    (intros d; exact (FunctionalExtensionality.functional_extensionality _ _ (nudge_x_add d))).
  assert (Hy : forall d, nudge_y d = fun vm => _) by
    (intros d; exact (FunctionalExtensionality.functional_extensionality _ _ (nudge_y_add d))).
  assert (Hz : forall d, nudge_z d = fun vm => _) by
    (intros d; exact (FunctionalExtensionality.functional_extensionality _ _ (nudge_z_add d))).
  rewrite !Hx, !Hy, !Hz, !when_nudge, !update_at_compose.
  f_equal. apply update_at_ext.
  intros [px py pz]. unfold nudge_of, glm.add, compose. simpl.
  destruct (pressed window KEY_LEFT), (pressed window KEY_RIGHT),
    (pressed window KEY_UP), (pressed window KEY_DOWN),
    (pressed window KEY_PAGE_UP), (pressed window KEY_PAGE_DOWN);
    simpl; f_equal; lra.
Qed.

Lemma Shortcuts_Intensity_mk (window m_window : KeyState)
    sh cam ko sc sel pos on int dir fl amb title :
  Shortcuts_Intensity window m_window
    (mkViewManager sh cam ko sc sel pos on int dir fl amb title)
  = mkViewManager sh cam
      (let ko := if pressed window KEY_KP_ADD then ko
                 else latch_step m_window KEY_EQUAL ko in
       if pressed window KEY_KP_SUBTRACT then ko
       else latch_step m_window KEY_MINUS ko)
      sc sel pos on (intensity_after window m_window ko sel int) dir fl amb title.
Proof.
  unfold Shortcuts_Intensity, held_or_once, intensity_after, raise_requested,
    lower_requested.
  destruct (pressed window KEY_KP_ADD); simpl.
  2: once_step m_window KEY_EQUAL ko.
  all: destruct (pressed window KEY_KP_SUBTRACT); vm_simpl; try reflexivity.
  all: once_step m_window KEY_MINUS ko; reflexivity.
Qed.

Lemma Shortcuts_Ambient_mk (window : KeyState)
    sh cam ko sc sel pos on int dir fl amb title :
  Shortcuts_Ambient window
    (mkViewManager sh cam ko sc sel pos on int dir fl amb title)
  = mkViewManager sh cam ko sc sel pos on int dir fl (ambient_after window amb)
      title.
Proof.
  unfold Shortcuts_Ambient, ambient_after.
  destruct (pressed window KEY_SEMICOLON), (pressed window KEY_APOSTROPHE);
    reflexivity.
Qed.

Lemma shortcut_speed_mk (window : KeyState)
    sh cam ko sc sel pos on int dir fl amb title :
  shortcut_speed window
    (mkViewManager sh cam ko sc sel pos on int dir fl amb title)
  = step_size window sc.
Proof. unfold shortcut_speed, step_size. simpl. case_match; reflexivity. Qed.

(** The frame of [HandleInteractiveShortcuts], field by field. *)
Lemma HandleInteractiveShortcuts_mk (window m_window : KeyState)
    sh cam ko sc sel pos on int dir fl amb title :
  let sel' := selected_after m_window ko sel in
  let pos' := update_at (fun p => glm.add p (nudge_of window (step_size window sc)))
                        sel' pos in
  let on' := if key_fires m_window KEY_T ko then update_at negb sel' on else on in
  let int' := intensity_after window m_window ko sel' int in
  let dir' := if key_fires m_window KEY_L ko then negb dir else dir in
  let fl' := if key_fires m_window KEY_F ko then negb fl else fl in
  let amb' := ambient_after window amb in
  HandleInteractiveShortcuts window m_window
    (mkViewManager sh cam ko sc sel pos on int dir fl amb title)
  = mkViewManager
      (match sh with
       | Some shader =>
           Some (shader ++ [light_uniforms on' pos' int' dir' fl' amb'])
       | None => None
       end)
      (camera_after window (step_size window sc) cam)
      (latches_after window m_window ko)
      (speed_after m_window ko sc)
      sel' pos' on' int' dir' fl' amb'
      (if key_fires m_window KEY_1 ko || key_fires m_window KEY_2 ko
          || key_fires m_window KEY_3 ko || key_fires m_window KEY_4 ko
       then Some (mkTitle (sel' + 1) (speed_after m_window ko sc))
       else if key_fires m_window KEY_Z ko || key_fires m_window KEY_X ko
       then Some (mkTitle (sel + 1) (speed_after m_window ko sc))
       else title).
Proof.
  intros. unfold HandleInteractiveShortcuts.
  rewrite shortcut_speed_mk, Shortcuts_Camera_mk, Shortcuts_SpeedScale_mk,
    Shortcuts_SelectLight_mk, Shortcuts_NudgeLight_mk, Shortcuts_Toggles_mk,
    Shortcuts_Intensity_mk, Shortcuts_Ambient_mk.
  unfold intensity_after, raise_requested, lower_requested, selected_after.
  rewrite !key_fires_latch_step_ne by done.
  unfold UploadInteractiveUniforms; vm_simpl.
  destruct sh; reflexivity.
Qed.

(** The fields of the state that [HandleInteractiveShortcuts] returns. *)
Section shortcut_fields.
Variables (window m_window : KeyState) (vm : ViewManager).
Let vm' := HandleInteractiveShortcuts window m_window vm.
Let ko := m_keyOnce vm.
Let sel' := selected_after m_window ko (m_selectedPointLight vm).

Lemma shortcuts_m_camera :
  m_camera vm'
  = camera_after window (step_size window (m_moveSpeedScale vm)) (m_camera vm).
Proof. subst vm'. destruct vm. by rewrite HandleInteractiveShortcuts_mk. Qed.

Lemma shortcuts_m_keyOnce : m_keyOnce vm' = latches_after window m_window ko.
Proof. subst vm'. destruct vm. by rewrite HandleInteractiveShortcuts_mk. Qed.

Lemma shortcuts_m_moveSpeedScale :
  m_moveSpeedScale vm' = speed_after m_window ko (m_moveSpeedScale vm).
Proof. subst vm'. destruct vm. by rewrite HandleInteractiveShortcuts_mk. Qed.

Lemma shortcuts_m_selectedPointLight : m_selectedPointLight vm' = sel'.
Proof. subst vm'. destruct vm. by rewrite HandleInteractiveShortcuts_mk. Qed.

Lemma shortcuts_m_pointLightPos :
  m_pointLightPos vm'
  = update_at
      (fun p => glm.add p (nudge_of window (step_size window (m_moveSpeedScale vm))))
      sel' (m_pointLightPos vm).
Proof. subst vm'. destruct vm. by rewrite HandleInteractiveShortcuts_mk. Qed.

Lemma shortcuts_m_pointLightOn :
  m_pointLightOn vm'
  = if key_fires m_window KEY_T ko
    then update_at negb sel' (m_pointLightOn vm) else m_pointLightOn vm.
Proof. subst vm'. destruct vm. by rewrite HandleInteractiveShortcuts_mk. Qed.

Lemma shortcuts_m_pointIntensity :
  m_pointIntensity vm'
  = intensity_after window m_window ko sel' (m_pointIntensity vm).
Proof. subst vm'. destruct vm. by rewrite HandleInteractiveShortcuts_mk. Qed.

Lemma shortcuts_m_dirLightOn :
  m_dirLightOn vm'
  = if key_fires m_window KEY_L ko then negb (m_dirLightOn vm) else m_dirLightOn vm.
Proof. subst vm'. destruct vm. by rewrite HandleInteractiveShortcuts_mk. Qed.

Lemma shortcuts_m_flashlightOn :
  m_flashlightOn vm'
  = if key_fires m_window KEY_F ko
    then negb (m_flashlightOn vm) else m_flashlightOn vm.
Proof. subst vm'. destruct vm. by rewrite HandleInteractiveShortcuts_mk. Qed.

Lemma shortcuts_m_ambientBoost :
  m_ambientBoost vm' = ambient_after window (m_ambientBoost vm).
Proof. subst vm'. destruct vm. by rewrite HandleInteractiveShortcuts_mk. Qed.
End shortcut_fields.

(** *** The clamps *)

Lemma std_min_le_l (a b : R) : std_min a b <= a.
Proof. unfold std_min. destruct (Rlt_dec b a); lra. Qed.

Lemma std_max_ge_l (a b : R) : a <= std_max a b.
Proof. unfold std_max. destruct (Rlt_dec a b); lra. Qed.

Lemma raise_intensity_range (i : R) : 0 <= i <= 3 -> 0 <= raise_intensity i <= 3.
Proof. unfold raise_intensity, std_min. destruct (Rlt_dec _ _); lra. Qed.

Lemma lower_intensity_range (i : R) : 0 <= i <= 3 -> 0 <= lower_intensity i <= 3.
Proof. unfold lower_intensity, std_max. destruct (Rlt_dec _ _); lra. Qed.

Lemma Forall_update_at {A : Type} (P : A -> Prop) (f : A -> A) (i : Z) (a : list A) :
  (forall v, P v -> P (f v)) -> Forall P a -> Forall P (update_at f i a).
Proof.
  intros Hf Ha. unfold update_at. case_match; [| done].
  apply Forall_alter; auto.
Qed.

Lemma intensity_after_range window m_window ko sel (int : list R) :
  Forall (fun i => 0 <= i <= 3) int ->
  Forall (fun i => 0 <= i <= 3) (intensity_after window m_window ko sel int).
Proof.
  intros Hint. unfold intensity_after.
  repeat case_match;
    repeat (apply Forall_update_at;
            [first [apply raise_intensity_range | apply lower_intensity_range] |]);
    done.
Qed.

Lemma ambient_after_range window (amb : R) :
  0 <= amb <= 0.3 -> 0 <= ambient_after window amb <= 0.3.
Proof.
  intros Hamb. unfold ambient_after, std_min, std_max.
  repeat case_match; lra.
Qed.

Lemma selected_after_range m_window ko (sel : Z) :
  (0 <= sel <= 3)%Z -> (0 <= selected_after m_window ko sel <= 3)%Z.
Proof. intros Hsel. unfold selected_after. repeat case_match; lia. Qed.

Lemma shortcuts_clamps window m_window vm :
  clamps_hold vm -> clamps_hold (HandleInteractiveShortcuts window m_window vm).
Proof.
  intros (Hint & Hamb & Hsel). unfold clamps_hold.
  rewrite shortcuts_m_pointIntensity, shortcuts_m_ambientBoost,
    shortcuts_m_selectedPointLight.
  auto using intensity_after_range, ambient_after_range, selected_after_range.
Qed.

Lemma Forall_states_after {S I : Type} (P : S -> Prop) (step : I -> S -> S)
    (inputs : list I) (s : S) :
  (forall i s, P s -> P (step i s)) -> P s -> Forall P (states_after step inputs s).
Proof.
  intros Hstep. revert s.
  induction inputs as [| i inputs IH]; intros s Hs; simpl; [constructor |].
  constructor; auto.
Qed.

Lemma Forall_states_after_always {S I : Type} (P : S -> Prop) (step : I -> S -> S)
    (inputs : list I) (s : S) :
  (forall i s, P (step i s)) -> Forall P (states_after step inputs s).
Proof.
  intros Hstep. revert s.
  induction inputs as [| i inputs IH]; intros s; constructor; auto.
Qed.

(** *** The callbacks *)

Lemma Mouse_Position_Callback_mk (xMousePos yMousePos : R) cam lx ly fm dt lf bo :
  Mouse_Position_Callback xMousePos yMousePos (mkGlobals (Some cam) lx ly fm dt lf bo)
  = Done (mkGlobals
            (Some (Camera.ProcessMouseMovement
                     (xMousePos - (if fm then xMousePos else lx))
                     ((if fm then yMousePos else ly) - yMousePos) cam))
            xMousePos yMousePos false dt lf bo).
Proof. destruct fm; reflexivity. Qed.

Lemma Scroll_Callback_mk (xOffset yOffset : R) cam lx ly fm dt lf bo :
  Scroll_Callback xOffset yOffset (mkGlobals (Some cam) lx ly fm dt lf bo)
  = mkGlobals (Some (Camera.set_Zoom (zoom_after yOffset (Camera.Zoom cam)) cam))
              lx ly fm dt lf bo.
Proof.
  unfold Scroll_Callback, zoom_after. simpl.
  destruct cam as [p f u r yw pt zm ms sens]. simpl.
  destruct (Rlt_dec (zm - yOffset) 1); simpl;
    destruct (Rgt_dec _ 90); reflexivity.
Qed.

Lemma same_frame_refl (g : Globals) : same_frame g g.
Proof. by repeat split. Qed.

Lemma same_frame_trans (g1 g2 g3 : Globals) :
  same_frame g1 g2 -> same_frame g2 g3 -> same_frame g1 g3.
Proof.
  intros (? & ? & ? & ?) (? & ? & ? & ?).
  repeat split; try congruence; auto.
Qed.

Lemma dispatch_same_frame (e : Event) (g g' : Globals) :
  dispatch e g = Done g' -> same_frame g g'.
Proof.
  destruct g as [[cam |] lx ly fm dt lf bo], e as [mx my | xo yo]; simpl.
  - rewrite Mouse_Position_Callback_mk. intros [= <-]. by repeat split.
  - rewrite Scroll_Callback_mk. intros [= <-]. by repeat split.
  - destruct fm; discriminate.
  - intros [= <-]. apply same_frame_refl.
Qed.

Lemma dispatch_returns (e : Event) (g : Globals) :
  is_Some (g_pCamera g) -> exists g', dispatch e g = Done g'.
Proof.
  destruct g as [[cam |] lx ly fm dt lf bo]; intros [c Hc]; [| discriminate].
  destruct e as [mx my | xo yo]; simpl.
  - rewrite Mouse_Position_Callback_mk. eauto.
  - eauto.
Qed.

Lemma glfwPollEvents_same_frame (events : list Event) (g g' : Globals) :
  glfwPollEvents events g = Done g' -> same_frame g g'.
Proof.
  revert g. induction events as [| e events IH]; intros g; simpl.
  - intros [= <-]. apply same_frame_refl.
  - destruct (dispatch e g) as [g1 | |] eqn:He; simpl; try discriminate.
    intros Hrest. eapply same_frame_trans; eauto using dispatch_same_frame.
Qed.

Lemma glfwPollEvents_returns (events : list Event) (g : Globals) :
  is_Some (g_pCamera g) -> exists g', glfwPollEvents events g = Done g'.
Proof.
  revert g. induction events as [| e events IH]; intros g Hcam; simpl; [eauto |].
  destruct (dispatch_returns e g Hcam) as [g1 Hg1]. rewrite Hg1. simpl.
  apply IH. by apply (dispatch_same_frame _ _ _ Hg1).
Qed.

(** *** The loop that waits for P to be released *)

Lemma drain_P_released (keys : KeyState) (pending : list Poll) (g : Globals) :
  pressed keys KEY_P = false -> drain_P keys pending g = Done (keys, pending, g).
Proof. intros Hp. destruct pending; simpl; by rewrite Hp. Qed.

Lemma drain_P_done (keys keys' : KeyState) (pending pending' : list Poll)
    (g g' : Globals) :
  drain_P keys pending g = Done (keys', pending', g') ->
  pressed keys' KEY_P = false /\ same_frame g g'.
Proof.
  revert keys g. induction pending as [| p pending IH]; intros keys g; simpl.
  - destruct (pressed keys KEY_P) eqn:Hp; [discriminate |].
    intros [= <- <- <-]. split; [done | apply same_frame_refl].
  - destruct (pressed keys KEY_P) eqn:Hp.
    + destruct (glfwPollEvents (poll_events p) g) as [g1 | |] eqn:Hev;
        simpl; try discriminate.
      intros Hrest. destruct (IH _ _ Hrest) as [Hrel Hsame].
      split; [done |].
      eapply same_frame_trans; eauto using glfwPollEvents_same_frame.
    + intros [= <- <- <-]. split; [done | apply same_frame_refl].
Qed.

Lemma drain_P_held (keys : KeyState) (held : list Poll) (rel : Poll)
    (rest : list Poll) (g : Globals) :
  is_Some (g_pCamera g) ->
  pressed keys KEY_P = true ->
  Forall (fun p => pressed (poll_keys p) KEY_P = true) held ->
  pressed (poll_keys rel) KEY_P = false ->
  exists g', drain_P keys (held ++ rel :: rest) g = Done (poll_keys rel, rest, g').
Proof.
  intros Hcam Hp Hheld Hrel. revert keys g Hcam Hp.
  induction Hheld as [| p held Hpp Hheld IH]; intros keys g Hcam Hp; simpl;
    rewrite Hp;
    [destruct (glfwPollEvents_returns (poll_events rel) g Hcam) as [g1 Hg1]
    |destruct (glfwPollEvents_returns (poll_events p) g Hcam) as [g1 Hg1]];
    rewrite Hg1; simpl.
  - rewrite drain_P_released by done. eauto.
  - apply IH; [| done]. by apply (glfwPollEvents_same_frame _ _ _ Hg1).
Qed.

(** *** [ProcessKeyboardEvents] and [PrepareSceneView] *)

Lemma move_on_mk (m_pWindow : KeyState) (key : Z) direction
    cam lx ly fm dt lf bo vm sc co :
  move_on m_pWindow key direction
    (mkState (mkGlobals (Some cam) lx ly fm dt lf bo) vm sc co)
  = Done (mkState
            (mkGlobals
               (Some (if pressed m_pWindow key
                      then Camera.ProcessKeyboard direction dt cam else cam))
               lx ly fm dt lf bo) vm sc co).
Proof. unfold move_on. destruct (pressed m_pWindow key); reflexivity. Qed.

Lemma ProcessKeyboardEvents_mk (keys : KeyState) (pending : list Poll)
    cam lx ly fm dt lf bo vm sc co :
  ProcessKeyboardEvents keys pending
    (mkState (mkGlobals (Some cam) lx ly fm dt lf bo) vm sc co)
  = let cam' := camera_after_keys keys dt cam in
    let sc' := if pressed keys KEY_ESCAPE then true else sc in
    if pressed keys KEY_P then
      '(keys', pending', g') ←
        drain_P keys pending (mkGlobals (Some cam') lx ly fm dt lf (negb bo));
      mret (keys', pending',
            mkState g' vm sc' (co ++ [projection_message (negb bo)]))
    else
      Done (keys, pending,
            mkState (mkGlobals (Some cam') lx ly fm dt lf bo) vm sc' co).
Proof.
  unfold ProcessKeyboardEvents, camera_after_keys.
  replace (if pressed keys KEY_ESCAPE
           then set_shouldClose true
                  (mkState (mkGlobals (Some cam) lx ly fm dt lf bo) vm sc co)
           else mkState (mkGlobals (Some cam) lx ly fm dt lf bo) vm sc co)
    with (mkState (mkGlobals (Some cam) lx ly fm dt lf bo) vm
            (if pressed keys KEY_ESCAPE then true else sc) co)
    by (destruct (pressed keys KEY_ESCAPE); reflexivity).
  cbv zeta.
  do 6 (rewrite move_on_mk; simpl mbind; unfold outcome_bind at 1; cbv beta iota).
  destruct (pressed keys KEY_P); reflexivity.
Qed.

#[local] Arguments ProcessKeyboardEvents : simpl never.

Lemma PrepareSceneView_mk (currentFrame : R) (keys : KeyState)
    (pending : list Poll) cam lx ly fm dt lf bo vm sc co :
  PrepareSceneView currentFrame keys pending
    (mkState (mkGlobals (Some cam) lx ly fm dt lf bo) vm sc co)
  = let dt' := currentFrame - lf in
    let cam' := camera_after_keys keys dt' cam in
    '(keys', pending', g') ←
      after_P keys pending (mkGlobals (Some cam') lx ly fm dt' currentFrame bo);
    match g_pCamera g' with
    | None => NullDeref
    | Some cam'' =>
        Done (keys', pending',
              mkState g' (upload_view (bOrthographicProjection g') cam'' vm)
                (if pressed keys KEY_ESCAPE then true else sc)
                (if pressed keys KEY_P
                 then co ++ [projection_message (negb bo)] else co))
    end.
Proof.
  unfold PrepareSceneView, set_globals, set_gDeltaTime, set_gLastFrame. simpl.
  rewrite ProcessKeyboardEvents_mk. unfold after_P, set_bOrthographicProjection.
  simpl.
  destruct (pressed keys KEY_P).
  - destruct (drain_P _ _ _) as [[[keys' pending'] g'] | |]; simpl; try reflexivity.
    destruct (g_pCamera g'); [| reflexivity].
    unfold upload_view, view_uniforms. simpl.
    destruct (View.m_pShaderManager vm); simpl; [| reflexivity].
    by rewrite <- !app_assoc.
  - simpl. unfold upload_view, view_uniforms. simpl.
    destruct (View.m_pShaderManager vm); simpl; [| reflexivity].
    by rewrite <- !app_assoc.
Qed.

(** *** The scalar updates on binary32 *)

Lemma SFltb_SFleb (a b : spec_float) : SFltb a b = true -> SFleb a b = true.
Proof. unfold SFltb, SFleb. by destruct (SFcompare a b) as [[] |]. Qed.

Lemma binary32_std_max_ge (c b : spec_float) :
  SFleb c c = true -> SFleb c (Binary32.std_max c b) = true.
Proof.
  intros Hc. unfold Binary32.std_max.
  destruct (SFltb c b) eqn:Hlt; [by apply SFltb_SFleb | done].
Qed.

Lemma binary32_std_min_le (c b : spec_float) :
  SFleb c c = true -> SFleb (Binary32.std_min c b) c = true.
Proof.
  intros Hc. unfold Binary32.std_min.
  destruct (SFltb b c) eqn:Hlt; [by apply SFltb_SFleb | done].
Qed.

(** On binary32 each update stays on the right side of the bound it
    compares with, for every operand: finite, infinite or NaN. *)
Lemma binary32_saturation (v : spec_float) :
  SFleb Binary32.f0_25 (Binary32.halve_speed v) = true
  /\ SFleb (Binary32.double_speed v) Binary32.f8 = true
  /\ SFleb (Binary32.raise_intensity v) Binary32.f3 = true
  /\ SFleb Binary32.f0 (Binary32.lower_intensity v) = true
  /\ SFleb Binary32.f0 (Binary32.lower_ambient v) = true
  /\ SFleb (Binary32.raise_ambient v) Binary32.f0_3 = true.
Proof.
  repeat split;
    first [apply binary32_std_max_ge | apply binary32_std_min_le]; reflexivity.
Qed.

Lemma SFcompare_antisym (a b : spec_float) :
  SFcompare b a = CompOpp <$> SFcompare a b.
Proof.
  destruct a as [sa | sa | | sa ma ea], b as [sb | sb | | sb mb eb]; simpl;
    try done; try (by destruct sa); try (by destruct sb);
    try (by destruct sa, sb).
  destruct sa, sb; simpl; try done.
  - rewrite (Z.compare_antisym ea eb).
    destruct (ea ?= eb)%Z; simpl; try done.
    by rewrite (Pos.compare_cont_antisym ma mb Eq).
  - rewrite (Z.compare_antisym ea eb).
    destruct (ea ?= eb)%Z; simpl; try done.
    by rewrite (Pos.compare_cont_antisym ma mb Eq).
Qed.

Lemma SFltb_false_SFleb (a b : spec_float) :
  SFltb a b = false -> SFcompare a b <> None -> SFleb b a = true.
Proof.
  unfold SFltb, SFleb. rewrite (SFcompare_antisym a b).
  by destruct (SFcompare a b) as [[] |].
Qed.

Lemma SFcompare_not_nan (a c : spec_float) :
  a <> S754_nan -> c <> S754_nan -> SFcompare a c <> None.
Proof. by destruct a, c. Qed.

(** On binary32 the zoom after a scroll event is in [1, 90] unless the
    difference [zoom - yOffset] is NaN, and then it is NaN. *)
Lemma binary32_zoom_clamp (yOffset zoom : spec_float) :
  (Binary32.sub zoom yOffset <> S754_nan ->
   SFleb Binary32.f1 (Binary32.zoom_after yOffset zoom) = true
   /\ SFleb (Binary32.zoom_after yOffset zoom) Binary32.f90 = true)
  /\ (Binary32.sub zoom yOffset = S754_nan ->
      Binary32.zoom_after yOffset zoom = S754_nan).
Proof.
  unfold Binary32.zoom_after. split.
  - intros Hnan. set (z := Binary32.sub zoom yOffset) in *.
    destruct (SFltb z Binary32.f1) eqn:Hlow.
    + split; reflexivity.
    + assert (H1 : SFleb Binary32.f1 z = true).
      { apply SFltb_false_SFleb; [done |]. by apply SFcompare_not_nan. }
      destruct (SFltb Binary32.f90 z) eqn:Hhigh.
      * split; reflexivity.
      * split; [done |]. apply SFltb_false_SFleb; [done |].
        by apply SFcompare_not_nan.
  - intros ->. reflexivity.
Qed.

(** On binary32, 1.0 doubled and halved is 1.0, bit for bit; the multiplier
    doubled five times from 1.0 stops at 8.0, halved six times from 1.0
    stops at 0.25. *)
Lemma binary32_speed_runs :
  Binary32.halve_speed (Binary32.double_speed Binary32.f1) = Binary32.f1
  /\ Nat.iter 5 Binary32.double_speed Binary32.f1 = Binary32.f8
  /\ Nat.iter 6 Binary32.halve_speed Binary32.f1 = Binary32.f0_25.
Proof. repeat split; vm_compute; reflexivity. Qed.

(** On binary32, sixty increments from 0.0 leave the intensity just under
    3.0 and the next one sets it to 3.0, where it stays; sixty-one decrements
    from 3.0 end at 0.0, where it stays. *)
Lemma binary32_intensity_runs :
  Nat.iter 60 Binary32.raise_intensity Binary32.f0 = Binary32.lit 12582905 (-22)
  /\ Nat.iter 61 Binary32.raise_intensity Binary32.f0 = Binary32.f3
  /\ Binary32.raise_intensity Binary32.f3 = Binary32.f3
  /\ Nat.iter 61 Binary32.lower_intensity Binary32.f3 = Binary32.f0
  /\ Binary32.lower_intensity Binary32.f0 = Binary32.f0.
Proof. repeat split; vm_compute; reflexivity. Qed.

(** * The claims *)

(** *** C1 *)

Lemma pressed_not_released (w : KeyState) (k : Z) :
  released w k = true -> pressed w k = false.
Proof.
  unfold pressed, released, PRESS, RELEASE.
  intros Hr%Z.eqb_eq. rewrite Hr. reflexivity.
Qed.

Lemma latched_latch_step_eq (m_window : KeyState) (k : Z) (ko : gmap Z bool) :
  latched (latch_step m_window k ko) k
  = if pressed m_window k then true
    else if released m_window k then false else latched ko k.
Proof.
  unfold latch_step, key_fires.
  destruct (pressed m_window k) eqn:Hp; simpl.
  - destruct (latched ko k) eqn:Hl; simpl.
    + destruct (released m_window k) eqn:Hr; [| done].
      apply pressed_not_released in Hr. congruence.
    + rewrite latched_insert. by case_decide.
  - destruct (released m_window k); [| done].
    rewrite latched_insert. by case_decide.
Qed.

(** After a frame, the latch of an edge key is what its own
    [KeyPressedOnce] left. *)
Lemma latched_latches_after (window m_window : KeyState) (k : Z)
    (ko : gmap Z bool) :
  k ∈ edge_keys ->
  latched (latches_after window m_window ko) k
  = if pressed m_window k then true
    else if released m_window k then false else latched ko k.
Proof.
  intros Hk. unfold latches_after, edge_keys in *.
  rewrite !elem_of_cons, elem_of_nil in Hk.
  destruct Hk as [-> | [-> | [-> | [-> | [-> | [-> | [-> | [-> | [-> | []]]]]]]]]].
  all: destruct (pressed window KEY_KP_ADD), (pressed window KEY_KP_SUBTRACT).
  all: rewrite ?latched_latch_step_ne by done.
  all: rewrite latched_latch_step_eq.
  all: by rewrite ?latched_latch_step_ne by done.
Qed.

Lemma fired_in_latched (k : Z) (frames : list (KeyState * KeyState))
    (vm : ViewManager) :
  k ∈ edge_keys ->
  Forall (fun f => pressed f.2 k = true) frames ->
  latched (m_keyOnce vm) k = true ->
  fired_in k frames vm = replicate (length frames) false.
Proof.
  intros Hk Hheld. revert vm.
  induction Hheld as [| [w mw] frames Hp Hheld IH]; intros vm Hl; simpl; [done |].
  f_equal.
  - unfold key_fires. by rewrite Hl, andb_false_r.
  - apply IH. unfold shortcuts_frame. simpl in *.
    by rewrite shortcuts_m_keyOnce, latched_latches_after, Hp.
Qed.

Lemma fired_in_hold (k : Z) (first : KeyState * KeyState)
    (held : list (KeyState * KeyState)) (vm : ViewManager) :
  k ∈ edge_keys ->
  pressed first.2 k = true ->
  Forall (fun f => pressed f.2 k = true) held ->
  fired_in k (first :: held) vm
  = negb (latched (m_keyOnce vm) k) :: replicate (length held) false.
Proof.
  intros Hk Hp Hheld. simpl. f_equal.
  - unfold key_fires. by rewrite Hp.
  - apply fired_in_latched; [done .. |].
    unfold shortcuts_frame.
    by rewrite shortcuts_m_keyOnce, latched_latches_after, Hp.
Qed.

Lemma fired_in_release (k : Z) (rel : KeyState * KeyState) (vm : ViewManager) :
  k ∈ edge_keys ->
  released rel.2 k = true ->
  key_fires rel.2 k (m_keyOnce vm) = false
  /\ latched (m_keyOnce (shortcuts_frame rel vm)) k = false.
Proof.
  intros Hk Hr. pose proof (pressed_not_released _ _ Hr) as Hp. split.
  - unfold key_fires. by rewrite Hp.
  - unfold shortcuts_frame.
    by rewrite shortcuts_m_keyOnce, latched_latches_after, Hp, Hr.
Qed.

Lemma ProcessKeyboardEvents_P_held (keys : KeyState) (held : list Poll)
    (rel : Poll) (rest : list Poll) cam lx ly fm dt lf bo vm sc co :
  pressed keys KEY_P = true ->
  Forall (fun p => pressed (poll_keys p) KEY_P = true) held ->
  pressed (poll_keys rel) KEY_P = false ->
  exists st',
    ProcessKeyboardEvents keys (held ++ rel :: rest)
      (mkState (mkGlobals (Some cam) lx ly fm dt lf bo) vm sc co)
    = Done (poll_keys rel, rest, st')
    /\ bOrthographicProjection (globals st') = negb bo.
Proof.
  intros Hp Hheld Hrel. rewrite ProcessKeyboardEvents_mk. simpl. rewrite Hp.
  edestruct (drain_P_held keys held rel rest) as [g' Hg']; [| done ..|].
  2: { rewrite Hg'. simpl. eexists. split; [reflexivity |]. simpl.
       by destruct (drain_P_done _ _ _ _ _ _ Hg') as (_ & -> & _). }
  simpl. eauto.
Qed.

Lemma ProcessKeyboardEvents_P_up (keys : KeyState) (pending : list Poll)
    cam lx ly fm dt lf bo vm sc co :
  pressed keys KEY_P = false ->
  exists st',
    ProcessKeyboardEvents keys pending
      (mkState (mkGlobals (Some cam) lx ly fm dt lf bo) vm sc co)
    = Done (keys, pending, st')
    /\ bOrthographicProjection (globals st') = bo.
Proof.
  intros Hp. rewrite ProcessKeyboardEvents_mk. simpl. rewrite Hp. eauto.
Qed.

(** C1.  For each of the keys Z, X, 1-4, L, F, T: over a run of frames in
    which the key reads PRESS, [KeyPressedOnce] fires in the first frame
    only (and there only when the latch is clear); when the run follows a
    frame in which the key reads RELEASE, it fires in the first frame.  The
    actions of these keys are taken exactly in the frames where the key
    fires.  For P: a press that is held through any number of polls flips
    the projection flag once, and the call returns only when P has been
    read released; without P the flag stays. *)
Theorem C1_edge_triggered_once_per_press
    (k : Z) (vm : ViewManager) (rel first : KeyState * KeyState)
    (held : list (KeyState * KeyState))
    (keysP keysUp : KeyState) (heldP : list Poll) (relP : Poll)
    (rest : list Poll) cam lx ly fm dt lf bo vmP sc co :
  k ∈ edge_keys ->
  released rel.2 k = true ->
  pressed first.2 k = true ->
  Forall (fun f => pressed f.2 k = true) held ->
  pressed keysP KEY_P = true ->
  Forall (fun p => pressed (poll_keys p) KEY_P = true) heldP ->
  pressed (poll_keys relP) KEY_P = false ->
  pressed keysUp KEY_P = false ->
  fired_in k (first :: held) vm
  = negb (latched (m_keyOnce vm) k) :: replicate (length held) false
  /\ fired_in k (rel :: first :: held) vm
     = false :: true :: replicate (length held) false
  /\ (forall window m_window vm0,
        let vm' := HandleInteractiveShortcuts window m_window vm0 in
        let ko := m_keyOnce vm0 in
        m_moveSpeedScale vm'
        = (let s := if key_fires m_window KEY_Z ko
                    then halve_speed (m_moveSpeedScale vm0)
                    else m_moveSpeedScale vm0 in
           if key_fires m_window KEY_X ko then double_speed s else s)
        /\ m_selectedPointLight vm'
           = (if key_fires m_window KEY_4 ko then 3
              else if key_fires m_window KEY_3 ko then 2
              else if key_fires m_window KEY_2 ko then 1
              else if key_fires m_window KEY_1 ko then 0
              else m_selectedPointLight vm0)%Z
        /\ m_dirLightOn vm'
           = (if key_fires m_window KEY_L ko
              then negb (m_dirLightOn vm0) else m_dirLightOn vm0)
        /\ m_flashlightOn vm'
           = (if key_fires m_window KEY_F ko
              then negb (m_flashlightOn vm0) else m_flashlightOn vm0)
        /\ m_pointLightOn vm'
           = (if key_fires m_window KEY_T ko
              then update_at negb (m_selectedPointLight vm') (m_pointLightOn vm0)
              else m_pointLightOn vm0))
  /\ (exists st',
        ProcessKeyboardEvents keysP (heldP ++ relP :: rest)
          (mkState (mkGlobals (Some cam) lx ly fm dt lf bo) vmP sc co)
        = Done (poll_keys relP, rest, st')
        /\ bOrthographicProjection (globals st') = negb bo)
  /\ (forall pending, exists st',
        ProcessKeyboardEvents keysUp pending
          (mkState (mkGlobals (Some cam) lx ly fm dt lf bo) vmP sc co)
        = Done (keysUp, pending, st')
        /\ bOrthographicProjection (globals st') = bo).
Proof.
  intros Hk Hrel Hfirst Hheld HP HheldP HrelP Hup.
  split; [by apply fired_in_hold |].
  split.
  { destruct (fired_in_release k rel vm Hk Hrel) as [Hno Hclear].
    change (fired_in k (rel :: first :: held) vm)
      with (key_fires rel.2 k (m_keyOnce vm)
            :: fired_in k (first :: held) (shortcuts_frame rel vm)).
    by rewrite Hno, fired_in_hold, Hclear. }
  split.
  { intros window m_window vm0 vm' ko. subst vm' ko.
    rewrite shortcuts_m_moveSpeedScale, shortcuts_m_selectedPointLight,
      shortcuts_m_dirLightOn, shortcuts_m_flashlightOn, shortcuts_m_pointLightOn.
    done. }
  split; [by apply ProcessKeyboardEvents_P_held |].
  intros pending. by apply ProcessKeyboardEvents_P_up.
Qed.

Lemma C1_edge_triggered_once_per_press_witness :
  fired_in KEY_L
    [(no_keys, keys_down [KEY_L]); (no_keys, keys_down [KEY_L]);
     (no_keys, keys_down [KEY_L])] sample_view
  = [true; false; false]
  /\ fired_in KEY_L
       [(no_keys, no_keys); (no_keys, keys_down [KEY_L]);
        (no_keys, keys_down [KEY_L]); (no_keys, keys_down [KEY_L])] sample_view
     = [false; true; false; false].
Proof.
  assert (Hk : KEY_L ∈ edge_keys) by (repeat constructor).
  assert (Hrel : released (no_keys, no_keys).2 KEY_L = true) by reflexivity.
  assert (Hfirst : pressed (no_keys, keys_down [KEY_L]).2 KEY_L = true)
    by (vm_compute; reflexivity).
  assert (Hheld : Forall (fun f : KeyState * KeyState => pressed f.2 KEY_L = true)
                    [(no_keys, keys_down [KEY_L]); (no_keys, keys_down [KEY_L])])
    by (repeat constructor).
  assert (HP : pressed (keys_down [KEY_P]) KEY_P = true) by (vm_compute; reflexivity).
  assert (HheldP : Forall (fun p => pressed (poll_keys p) KEY_P = true)
                     [mkPoll [] (keys_down [KEY_P])])
    by (repeat constructor).
  assert (HrelP : pressed (poll_keys (mkPoll [] no_keys)) KEY_P = false) by reflexivity.
  assert (Hup : pressed no_keys KEY_P = false) by reflexivity.
  pose proof (C1_edge_triggered_once_per_press KEY_L sample_view
                (no_keys, no_keys) (no_keys, keys_down [KEY_L])
                [(no_keys, keys_down [KEY_L]); (no_keys, keys_down [KEY_L])]
                (keys_down [KEY_P]) no_keys [mkPoll [] (keys_down [KEY_P])]
                (mkPoll [] no_keys) [] sample_camera 500 400 true 0 0 false
                sample_view false []
                Hk Hrel Hfirst Hheld HP HheldP HrelP Hup) as (H1 & H2 & _).
  split; [exact H1 | exact H2].
Defined.

(** The keys = and - are not among [edge_keys]: their [KeyPressedOnce] is
    the right operand of [||] and is not evaluated, so their latch is not
    refreshed, in a frame in which the keypad key of the same line is held. *)
Lemma symbol_key_latch_skipped (window m_window : KeyState) (ko : gmap Z bool) :
  (pressed window KEY_KP_ADD = true ->
   latched (latches_after window m_window ko) KEY_EQUAL = latched ko KEY_EQUAL)
  /\ (pressed window KEY_KP_SUBTRACT = true ->
      latched (latches_after window m_window ko) KEY_MINUS = latched ko KEY_MINUS).
Proof.
  unfold latches_after. split; intros ->.
  - destruct (pressed window KEY_KP_SUBTRACT);
      by rewrite ?latched_latch_step_ne by done.
  - destruct (pressed window KEY_KP_ADD);
      by rewrite ?latched_latch_step_ne by done.
Qed.

(** *** C2 *)

(** Evaluate the key tests on sample key states. *)
Ltac eval_keys :=
  repeat match goal with
    | |- context [pressed ?w ?k] =>
        let b := eval vm_compute in (pressed w k) in
        change (pressed w k) with b
    | |- context [key_fires ?w ?k ?ko] =>
        let b := eval vm_compute in (key_fires w k ko) in
        change (key_fires w k ko) with b
    end.

Lemma light_x_moved_right :
  light_x_moved (keys_down [KEY_RIGHT]) 0 sample_view = 0.048.
Proof.
  unfold light_x_moved, light_x.
  rewrite shortcuts_m_pointLightPos. unfold selected_after, nudge_of, step_size.
  eval_keys. simpl. lra.
Qed.

(** C2, counterexample.  With the Right arrow held, light 0 moves by 0.048
    in a frame whose delta-time is 0.016 and by the same 0.048 in a frame
    whose delta-time is 0.032: the move does not follow the delta-time.
    With the apostrophe held, the ambient boost rises by 0.001 at multiplier
    1 and by the same 0.001 at multiplier 4 with Left Shift held. *)
Lemma C2_counterexample :
  self slow_frame = self fast_frame
  /\ gDeltaTime (globals fast_frame) = 2 * gDeltaTime (globals slow_frame)
  /\ light_x_moved (keys_down [KEY_RIGHT]) 0 (self slow_frame) = 0.048
  /\ light_x_moved (keys_down [KEY_RIGHT]) 0 (self fast_frame) = 0.048
  /\ light_x_moved (keys_down [KEY_RIGHT]) 0 (self fast_frame)
     <> 2 * light_x_moved (keys_down [KEY_RIGHT]) 0 (self slow_frame)
  /\ ambient_moved (keys_down [KEY_APOSTROPHE]) sample_view = 0.001
  /\ ambient_moved (keys_down [KEY_APOSTROPHE; KEY_LEFT_SHIFT])
                   (set_m_moveSpeedScale 4 sample_view) = 0.001.
Proof.
  pose proof light_x_moved_right as Hmove.
  split; [reflexivity |]. split; [simpl; lra |].
  split; [exact Hmove |]. split; [exact Hmove |].
  split; [simpl self; rewrite Hmove; lra |].
  split.
  - unfold ambient_moved. rewrite shortcuts_m_ambientBoost.
    unfold ambient_after, std_min. eval_keys. simpl.
    destruct (Rlt_dec _ _); lra.
  - unfold ambient_moved. rewrite shortcuts_m_ambientBoost.
    unfold ambient_after, std_min. eval_keys. simpl.
    destruct (Rlt_dec _ _); lra.
Qed.

(** C2, amended.  [PrepareSceneView] takes the delta-time of the frame as
    [currentFrame] minus the time of the frame before, and the camera moves
    of [ProcessKeyboardEvents] (W/S/A/D/Q/E) are scaled by it; this is shown
    for a frame in which the P key is up, so that no event is polled before
    the call returns.  In [HandleInteractiveShortcuts] the camera moves and
    the nudges of the selected light (arrows, Page keys) have one step,
    proportional to the speed multiplier at the start of the frame and
    doubled while Left Shift is held; the ambient boost moves by the
    constant 0.001 inside [0, 0.3], whatever the multiplier and Left
    Shift. *)
Theorem C2_held_effects_by_design (currentFrame : R) (keys : KeyState)
    (pending : list Poll) (st : State) (cam : Camera.t) :
  g_pCamera (globals st) = Some cam ->
  pressed keys KEY_P = false ->
  (exists st',
     PrepareSceneView currentFrame keys pending st = Done (keys, pending, st')
     /\ gDeltaTime (globals st') = currentFrame - gLastFrame (globals st)
     /\ gLastFrame (globals st') = currentFrame
     /\ g_pCamera (globals st')
        = Some (camera_after_keys keys (gDeltaTime (globals st')) cam))
  /\ (exists base : R,
        0 < base
        /\ forall (window m_window : KeyState) (vm : ViewManager),
             let speed := base * m_moveSpeedScale vm
                          * (if pressed window KEY_LEFT_SHIFT then 2 else 1) in
             let vm' := HandleInteractiveShortcuts window m_window vm in
             m_camera vm' = camera_after window speed (m_camera vm)
             /\ m_pointLightPos vm'
                = update_at (fun p => glm.add p (nudge_of window speed))
                            (m_selectedPointLight vm') (m_pointLightPos vm)
             /\ m_ambientBoost vm'
                = (let amb := if pressed window KEY_SEMICOLON
                              then std_max 0 (m_ambientBoost vm - 0.001)
                              else m_ambientBoost vm in
                   if pressed window KEY_APOSTROPHE
                   then std_min 0.3 (amb + 0.001) else amb)).
Proof.
  intros Hcam HP. split.
  - destruct st as [[cam0 lx ly fm dt lf bo] vm sc co].
    cbn [globals g_pCamera] in Hcam. subst cam0.
    rewrite PrepareSceneView_mk. cbv zeta. unfold after_P. rewrite HP.
    cbn [mbind outcome_bind g_pCamera globals gDeltaTime gLastFrame].
    eexists. split; [reflexivity |]. cbn [globals gDeltaTime gLastFrame g_pCamera].
    done.
  - exists (3 * 0.016). split; [lra |]. intros window m_window vm speed vm'.
    assert (Hspeed : speed = step_size window (m_moveSpeedScale vm)).
    { subst speed. unfold step_size. destruct (pressed window KEY_LEFT_SHIFT); lra. }
    subst vm'. rewrite Hspeed. repeat split.
    + apply shortcuts_m_camera.
    + rewrite shortcuts_m_selectedPointLight. apply shortcuts_m_pointLightPos.
    + apply shortcuts_m_ambientBoost.
Qed.

Lemma C2_held_effects_by_design_witness :
  exists st',
    PrepareSceneView 0.032 (keys_down [KEY_W]) [] slow_frame
    = Done (keys_down [KEY_W], [], st')
    /\ gDeltaTime (globals st') = 0.032 - gLastFrame (globals slow_frame)
    /\ gLastFrame (globals st') = 0.032
    /\ g_pCamera (globals st')
       = Some (camera_after_keys (keys_down [KEY_W]) (gDeltaTime (globals st'))
                                 sample_camera).
Proof.
  apply (C2_held_effects_by_design 0.032 (keys_down [KEY_W]) [] slow_frame
           sample_camera).
  - reflexivity.
  - vm_compute. reflexivity.
Defined.

(** *** C3 *)

(** C3.  The clamps are an invariant of the shortcut handler: when every
    intensity is in [0, 3], the ambient boost in [0, 0.3] and the selected
    index in {0, 1, 2, 3}, they are so again after each frame of any
    sequence of frames, whatever the keys do.  An increment never leaves an
    intensity above 3, a decrement never below 0. *)
Theorem C3_light_clamps (frames : list (KeyState * KeyState)) (vm : ViewManager) :
  clamps_hold vm ->
  Forall clamps_hold (states_after shortcuts_frame frames vm)
  /\ (forall i : R, raise_intensity i <= 3)
  /\ (forall i : R, 0 <= lower_intensity i).
Proof.
  intros Hvm. repeat split.
  - apply Forall_states_after; [| done].
    intros [window m_window] vm0 Hvm0. by apply shortcuts_clamps.
  - intros i. apply std_min_le_l.
  - intros i. apply std_max_ge_l.
Qed.

Lemma sample_view_clamps : clamps_hold sample_view.
Proof.
  unfold clamps_hold, sample_view. simpl.
  repeat split; try lra; try lia.
  repeat constructor; lra.
Qed.

Lemma C3_light_clamps_witness :
  clamps_hold sample_view
  /\ Forall clamps_hold
            (states_after shortcuts_frame
               [(keys_down [KEY_KP_ADD; KEY_APOSTROPHE], keys_down [KEY_4]);
                (keys_down [KEY_KP_SUBTRACT], no_keys)] sample_view).
Proof.
  split; [exact sample_view_clamps |].
  exact (proj1 (C3_light_clamps _ sample_view sample_view_clamps)).
Defined.

(** *** C4 *)

Lemma halve_speed_range (s : R) : 0.25 <= s <= 8 -> 0.25 <= halve_speed s <= 8.
Proof. unfold halve_speed, std_max. destruct (Rlt_dec _ _); lra. Qed.

Lemma double_speed_range (s : R) : 0.25 <= s <= 8 -> 0.25 <= double_speed s <= 8.
Proof. unfold double_speed, std_min. destruct (Rlt_dec _ _); lra. Qed.

Lemma double_then_halve : halve_speed (double_speed 1) = 1.
Proof.
  unfold halve_speed, double_speed, std_max, std_min.
  destruct (Rlt_dec (1 * 2) 8); [| lra].
  destruct (Rlt_dec 0.25 (1 * 2 * 0.5)); lra.
Qed.

Lemma speed_after_range m_window ko (s : R) :
  0.25 <= s <= 8 -> 0.25 <= speed_after m_window ko s <= 8.
Proof.
  intros Hs. unfold speed_after.
  repeat case_match; auto using halve_speed_range, double_speed_range.
Qed.

(** C4.  From a multiplier in [0.25, 8], every sequence of halve and double
    operations, and every sequence of frames of the shortcut handler, keeps
    the multiplier in [0.25, 8] after each step; from 1, a frame in which X
    fires alone, then a frame in which Z fires alone, ends at exactly 1. *)
Theorem C4_speed_multiplier (scale : R) :
  0.25 <= scale <= 8 ->
  (forall ops : list speed_op,
     Forall (fun s => 0.25 <= s <= 8) (states_after apply_speed_op ops scale))
  /\ (forall frames vm,
        m_moveSpeedScale vm = scale ->
        Forall (fun vm' => 0.25 <= m_moveSpeedScale vm' <= 8)
               (states_after shortcuts_frame frames vm))
  /\ apply_speed_op Halve (apply_speed_op Double 1) = 1
  /\ (forall frameX frameZ vm,
        m_moveSpeedScale vm = 1 ->
        let vm1 := shortcuts_frame frameX vm in
        let vm2 := shortcuts_frame frameZ vm1 in
        key_fires frameX.2 KEY_X (m_keyOnce vm) = true ->
        key_fires frameX.2 KEY_Z (m_keyOnce vm) = false ->
        key_fires frameZ.2 KEY_Z (m_keyOnce vm1) = true ->
        key_fires frameZ.2 KEY_X (m_keyOnce vm1) = false ->
        m_moveSpeedScale vm1 = 2 /\ m_moveSpeedScale vm2 = 1).
Proof.
  intros Hscale. split; [| split; [| split]].
  - intros ops. apply Forall_states_after; [| done].
    intros [] s Hs; simpl; auto using halve_speed_range, double_speed_range.
  - intros frames vm Hvm.
    apply (Forall_states_after (fun vm' => 0.25 <= m_moveSpeedScale vm' <= 8)).
    + intros [window m_window] vm0 Hvm0. unfold shortcuts_frame. simpl.
      rewrite shortcuts_m_moveSpeedScale. by apply speed_after_range.
    + by rewrite Hvm.
  - apply double_then_halve.
  - intros frameX frameZ vm Hone vm1 vm2 HX HnoZ HZ HnoX.
    assert (Hvm1 : m_moveSpeedScale vm1 = 2).
    { subst vm1. unfold shortcuts_frame. rewrite shortcuts_m_moveSpeedScale.
      unfold speed_after. rewrite HX, HnoZ, Hone.
      unfold double_speed, std_min. destruct (Rlt_dec _ _); lra. }
    split; [exact Hvm1 |].
    subst vm2. unfold shortcuts_frame. rewrite shortcuts_m_moveSpeedScale.
    unfold speed_after. rewrite HZ, HnoX, Hvm1.
    unfold halve_speed, std_max. destruct (Rlt_dec _ _); lra.
Qed.

Lemma C4_speed_multiplier_witness :
  let frameX := (no_keys, keys_down [KEY_X]) in
  let frameZ := (no_keys, keys_down [KEY_Z]) in
  0.25 <= 1 <= 8
  /\ Forall (fun s => 0.25 <= s <= 8)
            (states_after apply_speed_op [Double; Double; Double; Double; Halve] 1)
  /\ m_moveSpeedScale (shortcuts_frame frameX sample_view) = 2
  /\ m_moveSpeedScale (shortcuts_frame frameZ (shortcuts_frame frameX sample_view)) = 1.
Proof.
  intros frameX frameZ.
  assert (H : 0.25 <= 1 <= 8) by lra.
  destruct (C4_speed_multiplier 1 H) as (Hops & _ & _ & Hframes).
  split; [exact H |].
  split; [exact (Hops [Double; Double; Double; Double; Halve]) |].
  assert (Hko : m_keyOnce (shortcuts_frame frameX sample_view)
                = latches_after no_keys (keys_down [KEY_X]) ∅)
    by apply shortcuts_m_keyOnce.
  apply (Hframes frameX frameZ sample_view).
  - reflexivity.
  - vm_compute; reflexivity.
  - vm_compute; reflexivity.
  - rewrite Hko. vm_compute; reflexivity.
  - rewrite Hko. vm_compute; reflexivity.
Defined.

(** *** C5 *)





(** *** C6 *)

Lemma normalize_unit (v : glm.vec3) : glm.dot v v = 1 -> glm.normalize v = v.
Proof.
  intros Hv. unfold glm.normalize, glm.length. rewrite Hv, sqrt_1, Rinv_1.
  destruct v as [a b c]. unfold glm.scale3. simpl. f_equal; lra.
Qed.

Lemma length_unit (v : glm.vec3) : glm.dot v v = 1 -> glm.length v = 1.
Proof. intros Hv. unfold glm.length. by rewrite Hv, sqrt_1. Qed.

Lemma normalize_scaled (a b c k : R) :
  0 < k -> a * a + b * b + c * c = 1 ->
  glm.normalize (glm.Vec3 (a * k) (b * k) (c * k)) = glm.Vec3 a b c.
Proof.
  intros Hk Hunit. unfold glm.normalize, glm.length, glm.dot, glm.scale3. simpl.
  replace (a * k * (a * k) + b * k * (b * k) + c * k * (c * k))
    with (k * k * (a * a + b * b + c * c)) by ring.
  rewrite Hunit, Rmult_1_r, sqrt_square by lra.
  f_equal; field; lra.
Qed.

(** The basis that [updateCameraVectors] computes from the sines and cosines
    of the two angles. *)
Lemma basis_from_angles (cy sy cp sp : R) :
  cy * cy + sy * sy = 1 -> cp * cp + sp * sp = 1 -> 0 < cp ->
  let front := glm.normalize (glm.Vec3 (cy * cp) sp (sy * cp)) in
  let right := glm.normalize (glm.cross front Camera.WorldUp) in
  let up := glm.normalize (glm.cross right front) in
  front = glm.Vec3 (cy * cp) sp (sy * cp)
  /\ right = glm.Vec3 (- sy) 0 cy
  /\ up = glm.Vec3 (- (cy * sp)) cp (- (sy * sp)).
Proof.
  intros Hy Hp Hcp front right up.
  assert (Hfront : front = glm.Vec3 (cy * cp) sp (sy * cp)).
  { subst front. apply normalize_unit. unfold glm.dot. simpl.
    replace (cy * cp * (cy * cp) + sp * sp + sy * cp * (sy * cp))
      with (cp * cp * (cy * cy + sy * sy) + sp * sp) by ring.
    rewrite Hy. lra. }
  assert (Hright : right = glm.Vec3 (- sy) 0 cy).
  { subst right. rewrite Hfront. unfold glm.cross, Camera.WorldUp. simpl.
    replace (sp * 0 - sy * cp * 1) with (- sy * cp) by ring.
    replace (sy * cp * 0 - cy * cp * 0) with (0 * cp) by ring.
    replace (cy * cp * 1 - sp * 0) with (cy * cp) by ring.
    apply normalize_scaled; [done |]. lra. }
  assert (Hup : up = glm.Vec3 (- (cy * sp)) cp (- (sy * sp))).
  { subst up. rewrite Hright, Hfront. unfold glm.cross. simpl.
    replace (0 * (sy * cp) - cy * sp) with (- (cy * sp)) by ring.
    replace (cy * (cy * cp) - - sy * (sy * cp))
      with (cp * (cy * cy + sy * sy)) by ring.
    replace (- sy * sp - 0 * (cy * cp)) with (- (sy * sp)) by ring.
    rewrite Hy, Rmult_1_r. apply normalize_unit. unfold glm.dot. simpl.
    replace (- (cy * sp) * - (cy * sp) + cp * cp + - (sy * sp) * - (sy * sp))
      with (sp * sp * (cy * cy + sy * sy) + cp * cp) by ring.
    rewrite Hy. lra. }
  done.
Qed.

Lemma basis_orthonormal (cy sy cp sp : R) :
  cy * cy + sy * sy = 1 -> cp * cp + sp * sp = 1 ->
  orthonormal (glm.Vec3 (cy * cp) sp (sy * cp))
              (glm.Vec3 (- (cy * sp)) cp (- (sy * sp)))
              (glm.Vec3 (- sy) 0 cy).
Proof.
  intros Hy Hp. unfold orthonormal.
  repeat split; try apply length_unit; unfold glm.dot; simpl.
  - replace (cy * cp * (cy * cp) + sp * sp + sy * cp * (sy * cp))
      with (cp * cp * (cy * cy + sy * sy) + sp * sp) by ring.
    rewrite Hy. lra.
  - replace (- (cy * sp) * - (cy * sp) + cp * cp + - (sy * sp) * - (sy * sp))
      with (sp * sp * (cy * cy + sy * sy) + cp * cp) by ring.
    rewrite Hy. lra.
  - lra.
  - replace (cy * cp * - (cy * sp) + sp * cp + sy * cp * - (sy * sp))
      with (cp * sp * (1 - (cy * cy + sy * sy))) by ring.
    rewrite Hy. lra.
  - ring.
  - ring.
Qed.

Lemma sin_cos_unit (a : R) : cos a * cos a + sin a * sin a = 1.
Proof. pose proof (sin2_cos2 a) as H. unfold Rsqr in H. lra. Qed.

Lemma cos_radians_pos (pitch : R) :
  -89 <= pitch <= 89 -> 0 < cos (glm.radians pitch).
Proof.
  intros Hp. pose proof PI_RGT_0 as Hpi. unfold glm.radians.
  apply cos_gt_0; nra.
Qed.

Lemma updateCameraVectors_mk p f u r yw pt zm ms sens :
  Camera.updateCameraVectors (Camera.mk p f u r yw pt zm ms sens)
  = let front :=
      glm.normalize
        (glm.Vec3 (cos (glm.radians yw) * cos (glm.radians pt))
                  (sin (glm.radians pt))
                  (sin (glm.radians yw) * cos (glm.radians pt))) in
    let right := glm.normalize (glm.cross front Camera.WorldUp) in
    let up := glm.normalize (glm.cross right front) in
    Camera.mk p front up right yw pt zm ms sens.
Proof. reflexivity. Qed.

Lemma updateCameraVectors_invariant (cam : Camera.t) :
  -89 <= Camera.Pitch cam <= 89 -> look_invariant (Camera.updateCameraVectors cam).
Proof.
  intros Hp. destruct cam as [p f u r yw pt zm ms sens].
  change (-89 <= pt <= 89) in Hp.
  pose proof (sin_cos_unit (glm.radians yw)) as Hy.
  pose proof (sin_cos_unit (glm.radians pt)) as Hpt.
  pose proof (cos_radians_pos pt Hp) as Hcp.
  destruct (basis_from_angles _ _ _ _ Hy Hpt Hcp) as (Hf & Hr & Hu).
  rewrite updateCameraVectors_mk. cbv zeta. rewrite Hu, Hr, Hf.
  unfold look_invariant.
  change (-89 <= pt <= 89
          /\ orthonormal
               (glm.Vec3 (cos (glm.radians yw) * cos (glm.radians pt))
                         (sin (glm.radians pt))
                         (sin (glm.radians yw) * cos (glm.radians pt)))
               (glm.Vec3 (- (cos (glm.radians yw) * sin (glm.radians pt)))
                         (cos (glm.radians pt))
                         (- (sin (glm.radians yw) * sin (glm.radians pt))))
               (glm.Vec3 (- sin (glm.radians yw)) 0 (cos (glm.radians yw)))
          /\ glm.Vec3 (cos (glm.radians yw) * cos (glm.radians pt))
                      (sin (glm.radians pt))
                      (sin (glm.radians yw) * cos (glm.radians pt))
             = glm.Vec3 (cos (glm.radians yw) * cos (glm.radians pt))
                        (sin (glm.radians pt))
                        (sin (glm.radians yw) * cos (glm.radians pt))).
  split; [done |]. split; [| done].
  by apply basis_orthonormal.
Qed.

Lemma ProcessMouseMovement_invariant (xoffset yoffset : R) (cam : Camera.t) :
  look_invariant (Camera.ProcessMouseMovement xoffset yoffset cam).
Proof.
  unfold Camera.ProcessMouseMovement.
  apply updateCameraVectors_invariant.
  destruct cam as [p f u r yw pt zm ms sens]. simpl.
  destruct (Rlt_dec 89 (pt + yoffset * sens)); simpl;
    destruct (Rlt_dec _ (-89)); simpl; lra.
Qed.

(** C6.  Whatever the camera was, after each look event of any sequence the
    pitch is inside the clamp, between -89 and 89 degrees (the clamp attains
    the two bounds), and front, up and right are unit vectors, orthogonal in
    pairs, front being the spherical-to-Cartesian image of the yaw and
    pitch just set.  The cursor callback leaves such a camera. *)
Theorem C6_look_keeps_pitch_and_basis (looks : list (R * R)) (cam : Camera.t) :
  Forall look_invariant (states_after look_step looks cam)
  /\ forall xMousePos yMousePos lx ly fm dt lf bo,
       exists cam',
         Mouse_Position_Callback xMousePos yMousePos
           (mkGlobals (Some cam) lx ly fm dt lf bo)
         = Done (mkGlobals (Some cam') xMousePos yMousePos false dt lf bo)
         /\ look_invariant cam'.
Proof.
  split.
  - apply Forall_states_after_always.
    intros [xo yo] cam0. exact (ProcessMouseMovement_invariant xo yo cam0).
  - intros. rewrite Mouse_Position_Callback_mk. eexists. split; [reflexivity |].
    apply ProcessMouseMovement_invariant.
Qed.

(** *** C7 *)

Lemma zoom_after_range (yOffset zoom : R) : 1 <= zoom_after yOffset zoom <= 90.
Proof.
  unfold zoom_after. destruct (Rlt_dec (zoom - yOffset) 1); simpl;
    destruct (Rgt_dec _ 90); lra.
Qed.

Lemma zoom_after_clamp (yOffset zoom : R) :
  zoom_after yOffset zoom = clamp_to 1 90 (zoom - yOffset).
Proof.
  unfold zoom_after, clamp_to, Rmax, Rmin.
  destruct (Rlt_dec (zoom - yOffset) 1); simpl;
    destruct (Rgt_dec _ 90); repeat destruct (Rle_dec _ _); lra.
Qed.

(** C7.  Whatever the field of view was, and whatever scroll events come,
    the field of view [Zoom] is in [1, 90] after each event; one event
    takes [Zoom] to [Zoom - yOffset] clamped to [1, 90] and changes nothing
    else. *)
Theorem C7_zoom_stays_within_1_90 (scrolls : list (R * R))
    cam lx ly fm dt lf bo :
  let g := mkGlobals (Some cam) lx ly fm dt lf bo in
  Forall (fun g' => exists cam', g_pCamera g' = Some cam'
                                 /\ 1 <= Camera.Zoom cam' <= 90)
         (states_after scroll_step scrolls g)
  /\ forall xOffset yOffset,
       Scroll_Callback xOffset yOffset g
       = mkGlobals
           (Some (Camera.set_Zoom (clamp_to 1 90 (Camera.Zoom cam - yOffset)) cam))
           lx ly fm dt lf bo.
Proof.
  intros g. split.
  - subst g. revert cam.
    induction scrolls as [| [xo yo] scrolls IH]; intros cam; simpl;
      [constructor |].
    unfold scroll_step at 1 3. simpl fst. simpl snd.
    rewrite Scroll_Callback_mk. constructor; [| apply IH].
    eexists. split; [reflexivity |]. simpl. apply zoom_after_range.
  - intros xo yo. subst g. by rewrite Scroll_Callback_mk, zoom_after_clamp.
Qed.

(** *** C8 *)

Lemma lookup_update_at_same {A : Type} (f : A -> A) (i : nat) (a : list A) :
  update_at f (Z.of_nat i) a !! i = f <$> a !! i.
Proof.
  unfold update_at. rewrite Nat2Z.id.
  destruct (Z.leb_spec 0 (Z.of_nat i)); [| lia].
  apply list_lookup_alter_eq.
Qed.

Lemma lookup_update_at_other {A : Type} (f : A -> A) (i : nat) (j : nat)
    (a : list A) :
  j ≠ i -> update_at f (Z.of_nat i) a !! j = a !! j.
Proof.
  intros Hne. unfold update_at. rewrite Nat2Z.id.
  case_match; [| done]. by apply list_lookup_alter_ne.
Qed.

(** C8.  Frame A: key 3 fires (and key 4 does not fire after it), so light
    2 is selected.  Frame B: T fires, and none of the keys 1, 2, 4 fires.
    Then the enabled flag of light 2 is the negation of what it was before
    frame B, and the flag of every other light is what it was. *)
Theorem C8_toggle_selected_light (frameA frameB : KeyState * KeyState)
    (vm : ViewManager) :
  let vm1 := shortcuts_frame frameA vm in
  let vm2 := shortcuts_frame frameB vm1 in
  key_fires frameA.2 KEY_3 (m_keyOnce vm) = true ->
  key_fires frameA.2 KEY_4 (m_keyOnce vm) = false ->
  key_fires frameB.2 KEY_T (m_keyOnce vm1) = true ->
  key_fires frameB.2 KEY_1 (m_keyOnce vm1) = false ->
  key_fires frameB.2 KEY_2 (m_keyOnce vm1) = false ->
  key_fires frameB.2 KEY_4 (m_keyOnce vm1) = false ->
  m_selectedPointLight vm1 = 2%Z
  /\ m_pointLightOn vm2 !! 2%nat = negb <$> m_pointLightOn vm1 !! 2%nat
  /\ forall i : nat, i ≠ 2%nat -> m_pointLightOn vm2 !! i = m_pointLightOn vm1 !! i.
Proof.
  intros vm1 vm2 H3 H4 HT H1' H2' H4'.
  assert (Hsel : m_selectedPointLight vm1 = 2%Z).
  { subst vm1. unfold shortcuts_frame. rewrite shortcuts_m_selectedPointLight.
    unfold selected_after. by rewrite H4, H3. }
  assert (Hon : m_pointLightOn vm2 = update_at negb (Z.of_nat 2) (m_pointLightOn vm1)).
  { subst vm2. unfold shortcuts_frame. rewrite shortcuts_m_pointLightOn, HT.
    unfold selected_after. rewrite H4', H2', H1', Hsel.
    by destruct (key_fires frameB.2 KEY_3 (m_keyOnce vm1)). }
  split; [done |]. rewrite Hon. split.
  - apply lookup_update_at_same.
  - intros i Hi. by apply lookup_update_at_other.
Qed.

Lemma C8_toggle_selected_light_witness :
  let frameA := (no_keys, keys_down [KEY_3]) in
  let frameB := (no_keys, keys_down [KEY_T]) in
  let vm1 := shortcuts_frame frameA sample_view in
  let vm2 := shortcuts_frame frameB vm1 in
  m_selectedPointLight vm1 = 2%Z
  /\ m_pointLightOn vm2 !! 2%nat = negb <$> m_pointLightOn vm1 !! 2%nat.
Proof.
  intros frameA frameB vm1 vm2.
  assert (H3 : key_fires frameA.2 KEY_3 (m_keyOnce sample_view) = true)
    by (vm_compute; reflexivity).
  assert (H4 : key_fires frameA.2 KEY_4 (m_keyOnce sample_view) = false)
    by (vm_compute; reflexivity).
  assert (Hko : m_keyOnce vm1 = latches_after no_keys (keys_down [KEY_3]) ∅)
    by apply shortcuts_m_keyOnce.
  assert (HT : key_fires frameB.2 KEY_T (m_keyOnce vm1) = true)
    by (rewrite Hko; vm_compute; reflexivity).
  assert (H1' : key_fires frameB.2 KEY_1 (m_keyOnce vm1) = false)
    by (rewrite Hko; vm_compute; reflexivity).
  assert (H2' : key_fires frameB.2 KEY_2 (m_keyOnce vm1) = false)
    by (rewrite Hko; vm_compute; reflexivity).
  assert (H4' : key_fires frameB.2 KEY_4 (m_keyOnce vm1) = false)
    by (rewrite Hko; vm_compute; reflexivity).
  destruct (C8_toggle_selected_light frameA frameB sample_view
              H3 H4 HT H1' H2' H4') as (Hsel & Hflip & _).
  split; [exact Hsel | exact Hflip].
Defined.

(** *** C9 *)

(** The frame with and without a shader manager: the same outcome, the same
    key state, pending polls, namespace, close flag and console; without a
    shader manager the object is as it was, with one it has received the
    three writes. *)
Lemma PrepareSceneView_null_shader (currentFrame : R) (keys : KeyState)
    (pending : list Poll) cam lx ly fm dt lf bo vm sc co (shader : ShaderManager) :
  View.m_pShaderManager vm = None ->
  let g := mkGlobals (Some cam) lx ly fm dt lf bo in
  match PrepareSceneView currentFrame keys pending (mkState g vm sc co),
        PrepareSceneView currentFrame keys pending
          (mkState g (set_m_pShaderManager (Some shader) vm) sc co) with
  | Done (k0, p0, st0), Done (k1, p1, st1) =>
      k0 = k1 /\ p0 = p1 /\ globals st0 = globals st1
      /\ shouldClose st0 = shouldClose st1 /\ cout st0 = cout st1
      /\ self st0 = vm
      /\ exists cam',
           g_pCamera (globals st1) = Some cam'
           /\ self st1
              = set_m_pShaderManager
                  (Some (shader ++
                         view_uniforms (bOrthographicProjection (globals st1)) cam'))
                  vm
  | NullDeref, NullDeref => True
  | Blocked, Blocked => True
  | _, _ => False
  end.
Proof.
  intros Hnone g. subst g. rewrite !PrepareSceneView_mk. simpl.
  destruct (after_P _ _ _) as [[[k1 p1] g1] | |]; simpl; try done.
  destruct (g_pCamera g1) as [cam1 |] eqn:Hcam; [| done].
  repeat split; simpl.
  - unfold upload_view. by rewrite Hnone.
  - exists cam1. split; [done |]. by destruct vm.
Qed.

(** C9, at the failing input.  With a null shader manager and the materials
    defined, [SetShaderMaterial("wood")] dereferences the null pointer, and
    so does the first object that [RenderScene] draws; the four sibling
    setters test the pointer and leave the scene manager as it is. *)
Theorem C9_SetShaderMaterial_null_shader :
  Scene.SetShaderMaterial "wood" scene_without_shader = NullDeref
  /\ Scene.RenderScene_table_top scene_without_shader = NullDeref
  /\ Scene.SetShaderTexture "wood" scene_without_shader = scene_without_shader
  /\ Scene.SetTextureUVScale 1 1 scene_without_shader = scene_without_shader
  /\ Scene.SetTransformations (glm.Vec3 2 1 2) 0 0 0 (glm.Vec3 0 0 0.2)
       scene_without_shader = scene_without_shader
  /\ Scene.SetShaderColor 0.1 0.05 0.01 1 scene_without_shader
     = scene_without_shader.
Proof. repeat split; reflexivity. Qed.

(** *** C10 *)

(** C10.  The first cursor event, from the initial values of the namespace.
    [gLastX] and [gLastY] are [float] and the coordinates arrive as
    [double]: the stores of lines 144-145 round, and the offsets of lines
    150-151 are what the rounding took away.  At (1 + 2^-30, 390) the x
    offset handed to the camera is 2^-30, at (510.1, 390) it is
    -13421773 * 2^-41, about -0.0000061; neither is 0.  At (510, 390),
    whose coordinates are [float] numbers, both offsets are 0. *)
Theorem C10_first_mouse_event_offsets :
  Binary32.gFirstMouse Binary32.initial_mouse = true
  /\ Binary32.Mouse_Position_Callback cursor_1_plus cursor_390
       Binary32.initial_mouse
     = (Binary32.lit 8388608 (-53), Binary32.f0,
        Binary32.mkMouse Binary32.f1 (Binary32.lit 12779520 (-15)) false)
  /\ Binary32.Mouse_Position_Callback cursor_510_1 cursor_390
       Binary32.initial_mouse
     = (S754_finite true 13421773 (-41), Binary32.f0,
        Binary32.mkMouse (Binary32.lit 16714957 (-15))
                         (Binary32.lit 12779520 (-15)) false)
  /\ SFeqb (Binary32.lit 8388608 (-53)) Binary32.f0 = false
  /\ SFeqb (S754_finite true 13421773 (-41)) Binary32.f0 = false
  /\ Binary32.Mouse_Position_Callback cursor_510 cursor_390
       Binary32.initial_mouse
     = (Binary32.f0, Binary32.f0,
        Binary32.mkMouse (Binary32.lit 16711680 (-15))
                         (Binary32.lit 12779520 (-15)) false).
Proof. repeat split; vm_compute; reflexivity. Qed.

(** On the camera modelled from the spec, the look operation recomputes the
    basis vectors from the yaw and the pitch.  The front vector that the
    constructor writes (lines 59-61) is not of length 1, so it is replaced
    at the first cursor event, even by the offsets (0, 0). *)
Lemma first_look_replaces_front (fresh : Camera.t) (g : Globals) :
  exists cam,
    g_pCamera (construct_camera fresh g) = Some cam
    /\ Camera.Front cam = glm.Vec3 0 (-0.5) (-2)
    /\ Camera.Front (Camera.ProcessMouseMovement 0 0 cam) <> Camera.Front cam.
Proof.
  eexists. split; [reflexivity |]. split; [reflexivity |].
  set (cam := Camera.set_MovementSpeed _ _).
  destruct (ProcessMouseMovement_invariant 0 0 cam) as (_ & (Hlen & _) & _).
  intros Heq. rewrite Heq in Hlen.
  change (Camera.Front cam) with (glm.Vec3 0 (-0.5) (-2)) in Hlen.
  unfold glm.length, glm.dot in Hlen. cbn [glm.x glm.y glm.z] in Hlen.
  assert (Hsq : sqrt (0 * 0 + -0.5 * -0.5 + -2 * -2)
                * sqrt (0 * 0 + -0.5 * -0.5 + -2 * -2)
                = 0 * 0 + -0.5 * -0.5 + -2 * -2) by (apply sqrt_sqrt; lra).
  rewrite Hlen in Hsq. lra.
Qed.

(** * Further properties of the code *)

(** ** SceneManager.cpp: the texture table *)

Lemma find_slot_cases (tag : string) (loaded : list Scene.TEXTURE_INFO) (i : Z) :
  (Scene.find_slot tag loaded i = (-1)%Z /\ Scene.find_id tag loaded = (-1)%Z
   /\ Forall (fun t => Scene.texture_tag t <> tag) loaded)
  \/ exists (k : nat) (t : Scene.TEXTURE_INFO),
       Scene.find_slot tag loaded i = (i + Z.of_nat k)%Z
       /\ loaded !! k = Some t /\ Scene.texture_tag t = tag
       /\ Forall (fun t' => Scene.texture_tag t' <> tag) (take k loaded)
       /\ Scene.find_id tag loaded = Scene.int_of_GLuint (Scene.ID t).
Proof.
  revert i. induction loaded as [| t loaded IH]; intros i; simpl.
  - left. by repeat split.
  - destruct (String.eqb_spec (Scene.texture_tag t) tag) as [Heq | Hne].
    + right. exists 0%nat, t. repeat split; first [lia | done | constructor].
    + destruct (IH (i + 1)%Z) as [(Hs & Hi & Hall) | (k & t' & Hs & Hk & Ht & Hall & Hi)].
      * left. repeat split; [done | done | by constructor].
      * right. exists (S k), t'. repeat split; try done.
        -- rewrite Hs. lia.
        -- simpl. by constructor.
Qed.

(** X1.  [FindTextureSlot] and [FindTextureID] search the first
    [m_loadedTextures] entries of the table.  When none of them has the tag,
    both return -1.  Otherwise [FindTextureSlot] returns the index of the
    first entry with the tag, and [FindTextureID] the ID stored in that
    entry, converted to [int]. *)
Theorem FindTextureSlot_first_match (tag : string) (sm : Scene.SceneManager) :
  (Scene.FindTextureSlot tag sm = (-1)%Z /\ Scene.FindTextureID tag sm = (-1)%Z
   /\ Forall (fun t => Scene.texture_tag t <> tag) (loaded_textures sm))
  \/ exists (k : nat) (t : Scene.TEXTURE_INFO),
       Scene.FindTextureSlot tag sm = Z.of_nat k
       /\ (Z.of_nat k < Scene.m_loadedTextures sm)%Z
       /\ Scene.m_textureIDs sm !! k = Some t
       /\ Scene.texture_tag t = tag
       /\ Forall (fun t' => Scene.texture_tag t' <> tag)
                 (take k (Scene.m_textureIDs sm))
       /\ Scene.FindTextureID tag sm = Scene.int_of_GLuint (Scene.ID t).
Proof.
  unfold Scene.FindTextureSlot, Scene.FindTextureID, loaded_textures.
  destruct (find_slot_cases tag
              (take (Z.to_nat (Scene.m_loadedTextures sm)) (Scene.m_textureIDs sm)) 0)
    as [H | (k & t & Hs & Hk & Ht & Hall & Hi)]; [by left | right].
  exists k, t.
  apply lookup_take_Some in Hk as [Hk Hlt].
  rewrite take_take in Hall.
  replace (k `min` Z.to_nat (Scene.m_loadedTextures sm))%nat with k in Hall by lia.
  repeat split; try done; lia.
Qed.

Ltac lib_eval :=
  lazy beta iota zeta delta
    [Scene.CreateGLTexture created Scene.glGenTextures Scene.call after_calls
     fst snd Scene.files Scene.names Scene.generated Scene.calls
     registered Scene.set_m_loadedTextures Scene.set_m_textureIDs
     Scene.m_pShaderManager Scene.m_textureIDs Scene.m_loadedTextures
     Scene.m_objectMaterials Scene.drawn supported from_option Init.Nat.add
     orb].

Lemma CreateGLTexture_created (filename tag : string)
    (s : Scene.SceneManager * Scene.Libraries) :
  Scene.CreateGLTexture filename tag s = created filename tag s.
Proof.
  destruct s as [[sh ids n ms dr] [files names g calls]]. lib_eval.
  destruct (files filename) as [image |]; lib_eval.
  - destruct (Scene.colorChannels image =? 3)%Z eqn:H3; lib_eval;
      [| destruct (Scene.colorChannels image =? 4)%Z eqn:H4; lib_eval].
    + unfold upload_calls. rewrite H3, update_at_compose, <- !app_assoc.
      reflexivity.
    + unfold upload_calls. rewrite H3, update_at_compose, <- !app_assoc.
      reflexivity.
    + rewrite <- !app_assoc. reflexivity.
  - rewrite <- !app_assoc. reflexivity.
Qed.

Lemma find_app_absent (tag : string) (a b : list Scene.TEXTURE_INFO) (i : Z) :
  Forall (fun t => Scene.texture_tag t <> tag) a ->
  Scene.find_slot tag (a ++ b) i = Scene.find_slot tag b (i + Z.of_nat (length a))
  /\ Scene.find_id tag (a ++ b) = Scene.find_id tag b.
Proof.
  intros Ha. revert i. induction Ha as [| t a Ht Ha IH]; intros i; simpl.
  - split; [f_equal; lia | done].
  - destruct (String.eqb_spec (Scene.texture_tag t) tag) as [Heq | Hne]; [done |].
    destruct (IH (i + 1)%Z) as [-> ->]. split; [f_equal; lia | done].
Qed.

Lemma find_app_present (tag : string) (a b : list Scene.TEXTURE_INFO) (i : Z) :
  Exists (fun t => Scene.texture_tag t = tag) a ->
  Scene.find_slot tag (a ++ b) i = Scene.find_slot tag a i
  /\ Scene.find_id tag (a ++ b) = Scene.find_id tag a.
Proof.
  intros Ha. revert i. induction a as [| t a IH]; intros i; simpl.
  - by apply Exists_nil in Ha.
  - destruct (String.eqb_spec (Scene.texture_tag t) tag) as [Heq | Hne]; [done |].
    apply Exists_cons in Ha as [Ha | Ha]; [done |]. by apply IH.
Qed.

Lemma FindTextureSlot_loaded (tag : string) (sm : Scene.SceneManager) :
  Scene.FindTextureSlot tag sm = Scene.find_slot tag (loaded_textures sm) 0.
Proof. reflexivity. Qed.

Lemma FindTextureID_loaded (tag : string) (sm : Scene.SceneManager) :
  Scene.FindTextureID tag sm = Scene.find_id tag (loaded_textures sm).
Proof. reflexivity. Qed.

Lemma found_Exists (tag : string) (sm : Scene.SceneManager) :
  (0 <= Scene.FindTextureSlot tag sm)%Z ->
  Exists (fun t => Scene.texture_tag t = tag) (loaded_textures sm).
Proof.
  intros Hk.
  destruct (find_slot_cases tag (loaded_textures sm) 0)
    as [(Hs & _) | (k & t & _ & Hk' & Ht & _)].
  - rewrite FindTextureSlot_loaded in Hk. lia.
  - apply Exists_exists. exists t. split; [| done].
    by apply (list_elem_of_lookup_2 _ k).
Qed.

Lemma absent_Forall (tag : string) (sm : Scene.SceneManager) :
  Scene.FindTextureSlot tag sm = (-1)%Z ->
  Forall (fun t => Scene.texture_tag t <> tag) (loaded_textures sm).
Proof.
  intros Hk.
  destruct (find_slot_cases tag (loaded_textures sm) 0)
    as [(_ & _ & Hall) | (k & t & Hs & _)]; [done |].
  rewrite FindTextureSlot_loaded in Hk. lia.
Qed.

Lemma take_S_split {A : Type} (l : list A) (m : nat) :
  take (S m) l = take m l ++ take 1 (drop m l).
Proof.
  rewrite take_drop_commute. rewrite <- (take_drop m (take (S m) l)) at 1.
  rewrite take_take. replace (m `min` S m)%nat with m by lia.
  by replace (m + 1)%nat with (S m) by lia.
Qed.

(** The loaded entries after a successful [CreateGLTexture]. *)
Lemma loaded_textures_registered (tag : string) (name : Z) (sm : Scene.SceneManager) :
  (0 <= Scene.m_loadedTextures sm)%Z ->
  exists rest,
    loaded_textures (registered tag name sm) = loaded_textures sm ++ rest
    /\ ((Scene.m_loadedTextures sm < Z.of_nat (length (Scene.m_textureIDs sm)))%Z ->
        rest = [Scene.mkTexture tag name]).
Proof.
  intros Hn. unfold loaded_textures, registered. simpl.
  set (n := Scene.m_loadedTextures sm) in *. set (ids := Scene.m_textureIDs sm).
  unfold update_at. destruct (Z.leb_spec 0 n); [| lia].
  replace (Z.to_nat (n + 1)) with (S (Z.to_nat n)) by lia.
  set (m := Z.to_nat n).
  exists (take 1 (drop m (alter (fun _ => Scene.mkTexture tag name) m ids))).
  split.
  - rewrite take_S_split. by rewrite take_alter_ge by lia.
  - intros Hlt. assert (Hm : (m < length ids)%nat) by lia.
    destruct (lookup_lt_is_Some_2 ids m Hm) as [t Ht].
    rewrite (drop_S _ (Scene.mkTexture tag name) m).
    + simpl. by rewrite take_0.
    + by rewrite list_lookup_alter_eq, Ht.
Qed.

Lemma texture_units_app (calls added : list Scene.Lib.Call) :
  texture_units (calls ++ added) = foldl gl_call (texture_units calls) added.
Proof. apply foldl_app. Qed.

Ltac gl_eval :=
  repeat (cbn [foldl app gl_call active binding storage];
          rewrite ?Z.eqb_refl).

Lemma units_create (u : TextureUnits) (filename : string) (image : Scene.Image)
    (name : Z) :
  foldl gl_call u (create_calls filename image name)
  = mkUnits (active u) (<[active u := name]> (binding u)) (storage u).
Proof. unfold create_calls. gl_eval. reflexivity. Qed.

Lemma units_upload (u : TextureUnits) (image : Scene.Image) :
  foldl gl_call u (upload_calls image)
  = mkUnits (active u) (<[active u := 0%Z]> (binding u))
            (<[bound_2D u (active u) := image]> (storage u)).
Proof.
  unfold upload_calls.
  destruct (Scene.colorChannels image =? 3)%Z; gl_eval; reflexivity.
Qed.

Lemma units_reject (u : TextureUnits) (image : Scene.Image) :
  foldl gl_call u (reject_calls image) = u.
Proof. reflexivity. Qed.

Lemma units_missing (u : TextureUnits) (filename : string) :
  foldl gl_call u (missing_calls filename) = u.
Proof. reflexivity. Qed.

Lemma bound_2D_insert (a : Z) (b : gmap Z Z) (s : gmap Z Scene.Image) (x unit : Z) :
  bound_2D (mkUnits a (<[unit := x]> b) s) unit = x.
Proof. unfold bound_2D. simpl. by rewrite lookup_insert_eq. Qed.

(** X2.  [CreateGLTexture] on a file that loads with 3 or 4 colour channels,
    with room in the table and a tag that is not registered yet: the call
    returns true and the count grows by one; the tag is found in the slot
    that was the count, with the name that [glGenTextures] returned; that
    texture holds the image of the file, and the texture unit that was
    active is left with no texture bound. *)
Theorem CreateGLTexture_registers (filename tag : string)
    (sm : Scene.SceneManager) (lib : Scene.Libraries) (image : Scene.Image) :
  Scene.files lib filename = Some image ->
  Scene.colorChannels image = 3%Z \/ Scene.colorChannels image = 4%Z ->
  (0 <= Scene.m_loadedTextures sm < Z.of_nat (length (Scene.m_textureIDs sm)))%Z ->
  Scene.FindTextureSlot tag sm = (-1)%Z ->
  let r := Scene.CreateGLTexture filename tag (sm, lib) in
  let name := Scene.names lib (Scene.generated lib) in
  let units := texture_units (Scene.calls r.2.2) in
  r.1 = true
  /\ Scene.m_loadedTextures r.2.1 = (Scene.m_loadedTextures sm + 1)%Z
  /\ Scene.FindTextureSlot tag r.2.1 = Scene.m_loadedTextures sm
  /\ Scene.FindTextureID tag r.2.1 = Scene.int_of_GLuint name
  /\ storage units !! name = Some image
  /\ bound_2D units (active units) = 0%Z.
Proof.
  intros Hfile Hch Hroom Hfresh r name units. subst r units.
  assert (Hsup : supported image = true).
  { unfold supported. destruct Hch as [-> | ->]; reflexivity. }
  rewrite CreateGLTexture_created. unfold created. cbn [fst snd].
  rewrite Hfile, Hsup. cbn [fst snd].
  destruct (loaded_textures_registered tag name sm) as (rest & Hl & Hrest); [lia |].
  rewrite Hrest in Hl by lia.
  pose proof (absent_Forall _ _ Hfresh) as Habs.
  destruct (find_app_absent tag (loaded_textures sm) [Scene.mkTexture tag name] 0 Habs)
    as [Hslot Hid].
  assert (Hlen : Z.of_nat (length (loaded_textures sm)) = Scene.m_loadedTextures sm).
  { unfold loaded_textures. rewrite length_take. lia. }
  repeat split.
  - rewrite FindTextureSlot_loaded. subst name. rewrite Hl, Hslot. simpl. rewrite String.eqb_refl. lia.
  - rewrite FindTextureID_loaded. subst name. rewrite Hl, Hid. simpl. by rewrite String.eqb_refl.
  - unfold after_calls. cbn [Scene.calls].
    rewrite texture_units_app, foldl_app, units_create, units_upload.
    cbn [active binding storage]. rewrite bound_2D_insert.
    by rewrite lookup_insert_eq.
  - unfold after_calls. cbn [Scene.calls].
    rewrite texture_units_app, foldl_app, units_create, units_upload.
    cbn [active binding storage]. apply bound_2D_insert.
Qed.

Lemma CreateGLTexture_registers_witness :
  let r := Scene.CreateGLTexture "a.jpg" "wood" (sample_scene, sample_libraries) in
  let units := texture_units (Scene.calls r.2.2) in
  r.1 = true
  /\ Scene.m_loadedTextures r.2.1 = (Scene.m_loadedTextures sample_scene + 1)%Z
  /\ Scene.FindTextureSlot "wood" r.2.1 = Scene.m_loadedTextures sample_scene
  /\ Scene.FindTextureID "wood" r.2.1 = Scene.int_of_GLuint 1
  /\ storage units !! 1%Z = Some (Scene.mkImage 1 1 3)
  /\ bound_2D units (active units) = 0%Z.
Proof.
  apply (CreateGLTexture_registers "a.jpg" "wood" sample_scene sample_libraries
           (Scene.mkImage 1 1 3)).
  - reflexivity.
  - left. reflexivity.
  - vm_compute. split; [discriminate | reflexivity].
  - reflexivity.
Defined.

Lemma registered_entry (tag : string) (name : Z) (sm : Scene.SceneManager) :
  (0 <= Scene.m_loadedTextures sm < Z.of_nat (length (Scene.m_textureIDs sm)))%Z ->
  Scene.m_textureIDs (registered tag name sm)
    !! Z.to_nat (Scene.m_loadedTextures sm)
  = Some (Scene.mkTexture tag name).
Proof.
  intros Hroom. unfold registered, update_at. cbn [Scene.m_textureIDs].
  destruct (lookup_lt_is_Some_2 (Scene.m_textureIDs sm)
              (Z.to_nat (Scene.m_loadedTextures sm))) as [t Ht]; [lia |].
  destruct (Z.leb_spec 0 (Scene.m_loadedTextures sm)); [| lia].
  by rewrite list_lookup_alter_eq, Ht.
Qed.

(** X3.  With room in the table, [CreateGLTexture] never changes the answer
    for a tag that is already found, whatever the file and whether or not
    the call succeeds.  A texture created under a tag in use is stored, in
    the entry at the old count, and counted, and the lookups keep returning
    the first one; a call that fails leaves the scene manager as it was. *)
Theorem CreateGLTexture_keeps_lookups (filename tag tag' : string)
    (sm : Scene.SceneManager) (lib : Scene.Libraries) :
  (Scene.m_loadedTextures sm < Z.of_nat (length (Scene.m_textureIDs sm)))%Z ->
  (0 <= Scene.FindTextureSlot tag' sm)%Z ->
  let r := Scene.CreateGLTexture filename tag (sm, lib) in
  let sm' := r.2.1 in
  Scene.FindTextureSlot tag' sm' = Scene.FindTextureSlot tag' sm
  /\ Scene.FindTextureID tag' sm' = Scene.FindTextureID tag' sm
  /\ (if r.1
      then Scene.m_loadedTextures sm' = (Scene.m_loadedTextures sm + 1)%Z
           /\ Scene.m_textureIDs sm' !! Z.to_nat (Scene.m_loadedTextures sm)
              = Some (Scene.mkTexture tag
                        (Scene.names lib (Scene.generated lib)))
      else sm' = sm).
Proof.
  intros Hroom Hfound r sm'. subst sm' r.
  pose proof (found_Exists _ _ Hfound) as Hex.
  assert (Hn : (0 <= Scene.m_loadedTextures sm)%Z).
  { unfold loaded_textures in Hex.
    destruct (Z.to_nat (Scene.m_loadedTextures sm)) eqn:Hz; [| lia].
    rewrite take_0 in Hex. by apply Exists_nil in Hex. }
  rewrite CreateGLTexture_created. unfold created. cbn [fst snd].
  destruct (Scene.files lib filename) as [image |]; [| done].
  destruct (supported image); [| done]. cbn [fst snd].
  destruct (loaded_textures_registered tag
              (Scene.names lib (Scene.generated lib)) sm Hn) as (rest & Hl & _).
  rewrite !FindTextureSlot_loaded, !FindTextureID_loaded, Hl.
  destruct (find_app_present tag' (loaded_textures sm) rest 0 Hex) as [-> ->].
  repeat split. by apply registered_entry.
Qed.

Lemma CreateGLTexture_keeps_lookups_witness :
  let r := Scene.CreateGLTexture "b.jpg" "wood" (wood_scene, sample_libraries) in
  Scene.FindTextureSlot "wood" r.2.1 = Scene.FindTextureSlot "wood" wood_scene
  /\ Scene.FindTextureID "wood" r.2.1 = Scene.FindTextureID "wood" wood_scene
  /\ (if r.1
      then Scene.m_loadedTextures r.2.1 = (Scene.m_loadedTextures wood_scene + 1)%Z
           /\ Scene.m_textureIDs r.2.1 !! Z.to_nat (Scene.m_loadedTextures wood_scene)
              = Some (Scene.mkTexture "wood" 1)
      else r.2.1 = wood_scene).
Proof.
  apply (CreateGLTexture_keeps_lookups "b.jpg" "wood" "wood" wood_scene
           sample_libraries).
  - vm_compute. reflexivity.
  - vm_compute. discriminate.
Defined.

Lemma CreateGLTexture_result (filename tag : string)
    (sm : Scene.SceneManager) (lib : Scene.Libraries) :
  let r := Scene.CreateGLTexture filename tag (sm, lib) in
  r.1 = loads lib filename
  /\ (if r.1
      then Scene.m_loadedTextures r.2.1 = (Scene.m_loadedTextures sm + 1)%Z
      else r.2.1 = sm)
  /\ Scene.files r.2.2 = Scene.files lib.
Proof.
  intros r. subst r. rewrite CreateGLTexture_created. unfold created, loads.
  cbn [fst snd]. destruct (Scene.files lib filename) as [image |]; [| done].
  cbn [from_option]. by destruct (supported image).
Qed.

(** X4.  With room in the table, [CreateGLTexture] returns true exactly
    when [stbi_load] finds the file and the image has 3 or 4 colour
    channels.  Then the count is one more and the loaded entries are those
    there were, followed by the new one; in every other case the scene
    manager is left as it was. *)
Theorem CreateGLTexture_returns (filename tag : string)
    (sm : Scene.SceneManager) (lib : Scene.Libraries) :
  (0 <= Scene.m_loadedTextures sm < Z.of_nat (length (Scene.m_textureIDs sm)))%Z ->
  let r := Scene.CreateGLTexture filename tag (sm, lib) in
  r.1 = loads lib filename
  /\ (if r.1
      then Scene.m_loadedTextures r.2.1 = (Scene.m_loadedTextures sm + 1)%Z
           /\ loaded_textures r.2.1
              = loaded_textures sm
                ++ [Scene.mkTexture tag (Scene.names lib (Scene.generated lib))]
      else r.2.1 = sm).
Proof.
  intros [Hn Hroom] r. subst r.
  rewrite CreateGLTexture_created. unfold created, loads. cbn [fst snd].
  destruct (Scene.files lib filename) as [image |]; [| done].
  cbn [from_option]. destruct (supported image); [| done]. cbn [fst snd].
  split; [done |]. split; [done |].
  destruct (loaded_textures_registered tag
              (Scene.names lib (Scene.generated lib)) sm Hn)
    as (rest & -> & Hrest).
  by rewrite Hrest.
Qed.

Lemma CreateGLTexture_returns_witness :
  let r := Scene.CreateGLTexture "a.jpg" "wood" (sample_scene, sample_libraries) in
  r.1 = loads sample_libraries "a.jpg"
  /\ (if r.1
      then Scene.m_loadedTextures r.2.1 = (Scene.m_loadedTextures sample_scene + 1)%Z
           /\ loaded_textures r.2.1
              = loaded_textures sample_scene ++ [Scene.mkTexture "wood" 1]
      else r.2.1 = sample_scene).
Proof.
  apply (CreateGLTexture_returns "a.jpg" "wood" sample_scene sample_libraries).
  vm_compute. split; [discriminate | reflexivity].
Defined.

(** X5.  An image with a number of colour channels other than 3 and 4 is
    turned down after the texture has been generated and bound: the call
    returns false and registers nothing, a texture name is used up and
    stays bound in the active unit, and the image that [stbi_load] returned
    is not handed to [stbi_image_free]. *)
Theorem CreateGLTexture_unsupported_channels (filename tag : string)
    (sm : Scene.SceneManager) (lib : Scene.Libraries) (image : Scene.Image) :
  Scene.files lib filename = Some image ->
  Scene.colorChannels image <> 3%Z ->
  Scene.colorChannels image <> 4%Z ->
  let r := Scene.CreateGLTexture filename tag (sm, lib) in
  let units := texture_units (Scene.calls r.2.2) in
  r.1 = false
  /\ r.2.1 = sm
  /\ Scene.generated r.2.2 = S (Scene.generated lib)
  /\ bound_2D units (active units) = Scene.names lib (Scene.generated lib)
  /\ exists added,
       Scene.calls r.2.2 = Scene.calls lib ++ added
       /\ Scene.Lib.stbi_load filename 0 ∈ added
       /\ Scene.Lib.stbi_image_free image ∉ added.
Proof.
  intros Hfile H3 H4 r units. subst r units.
  assert (Hsup : supported image = false).
  { unfold supported. apply Z.eqb_neq in H3, H4. by rewrite H3, H4. }
  rewrite CreateGLTexture_created. unfold created. cbn [fst snd].
  rewrite Hfile, Hsup. cbn [fst snd]. unfold after_calls. cbn [Scene.calls Scene.generated].
  repeat split.
  - rewrite texture_units_app, foldl_app, units_create, units_reject.
    cbn [active]. apply bound_2D_insert.
  - eexists. split; [reflexivity |]. split.
    + apply elem_of_app. left. unfold create_calls. repeat constructor.
    + unfold create_calls, reject_calls. intros Hin.
      rewrite elem_of_app, !elem_of_cons, !elem_of_nil in Hin.
      intuition discriminate.
Qed.

Lemma CreateGLTexture_unsupported_channels_witness :
  (Scene.CreateGLTexture "grey.png" "grey"
     (sample_scene,
      Scene.mkLibraries (fun _ => Some (Scene.mkImage 2 2 1))
                        (fun n => Z.of_nat n + 1)%Z 0 [])).1 = false.
Proof.
  apply (CreateGLTexture_unsupported_channels "grey.png" "grey" sample_scene
           (Scene.mkLibraries (fun _ => Some (Scene.mkImage 2 2 1))
                              (fun n => Z.of_nat n + 1)%Z 0 [])
           (Scene.mkImage 2 2 1)); [reflexivity | discriminate | discriminate].
Defined.

Lemma texture_units_call (c : Scene.Lib.Call) (lib : Scene.Libraries) :
  texture_units (Scene.calls (Scene.call c lib))
  = gl_call (texture_units (Scene.calls lib)) c.
Proof. unfold Scene.call. cbn [Scene.calls]. by rewrite texture_units_app. Qed.

(** The bindings after the loop of [BindGLTextures]. *)
Lemma bind_from_units (loaded : list Scene.TEXTURE_INFO) (i : Z)
    (lib : Scene.Libraries) (unit : Z) :
  bound_2D (texture_units (Scene.calls (Scene.bind_from loaded i lib))) unit
  = from_option Scene.ID
      (bound_2D (texture_units (Scene.calls lib)) unit)
      (if decide (Scene.GL_TEXTURE0 + i <= unit)%Z
       then loaded !! Z.to_nat (unit - (Scene.GL_TEXTURE0 + i)) else None).
Proof.
  revert i lib. induction loaded as [| t loaded IH]; intros i lib.
  - simpl. by case_decide.
  - cbn [Scene.bind_from]. rewrite IH, !texture_units_call.
    cbn [gl_call active binding storage]. rewrite Z.eqb_refl.
    destruct (decide (Scene.GL_TEXTURE0 + (i + 1) <= unit)%Z) as [Hle | Hgt].
    + rewrite decide_True by lia.
      replace (Z.to_nat (unit - (Scene.GL_TEXTURE0 + i)))
        with (S (Z.to_nat (unit - (Scene.GL_TEXTURE0 + (i + 1))))) by lia.
      cbn [lookup list_lookup].
      destruct (loaded !! _) as [t' |]; [done |]. cbn [from_option].
      unfold bound_2D. cbn [binding]. rewrite lookup_insert_ne by lia. done.
    + cbn [from_option].
      destruct (decide (Scene.GL_TEXTURE0 + i <= unit)%Z) as [Hle' | Hgt'].
      * assert (unit = Scene.GL_TEXTURE0 + i)%Z as -> by lia.
        rewrite Z.sub_diag. cbn [Z.to_nat lookup list_lookup from_option].
        apply bound_2D_insert.
      * unfold bound_2D. cbn [binding from_option].
        rewrite lookup_insert_ne by lia. done.
Qed.

(** X6.  After [BindGLTextures], the texture unit whose number is the slot
    of a tag has the texture of that tag bound: the slot that
    [SetShaderTexture] hands to the sampler and the ID that [FindTextureID]
    returns name the same texture.  The scene manager is not changed. *)
Theorem BindGLTextures_units (tag : string) (sm : Scene.SceneManager)
    (lib : Scene.Libraries) :
  (0 <= Scene.FindTextureSlot tag sm)%Z ->
  let s' := Scene.BindGLTextures (sm, lib) in
  let units := texture_units (Scene.calls s'.2) in
  s'.1 = sm
  /\ Scene.int_of_GLuint
       (bound_2D units (Scene.GL_TEXTURE0 + Scene.FindTextureSlot tag sm))
     = Scene.FindTextureID tag sm.
Proof.
  intros Hfound s' units. subst s' units. split; [done |].
  cbn [Scene.BindGLTextures snd]. fold (loaded_textures sm).
  rewrite bind_from_units, FindTextureSlot_loaded, FindTextureID_loaded.
  rewrite FindTextureSlot_loaded in Hfound.
  destruct (find_slot_cases tag (loaded_textures sm) 0)
    as [(Hs & _) | (k & t & Hs & Hk & _ & _ & Hi)]; [lia |].
  rewrite Hs, Hi, decide_True by lia.
  replace (Z.to_nat _) with k by lia. by rewrite Hk.
Qed.

Lemma BindGLTextures_units_witness :
  let s' := Scene.BindGLTextures (wood_scene, sample_libraries) in
  let units := texture_units (Scene.calls s'.2) in
  s'.1 = wood_scene
  /\ Scene.int_of_GLuint
       (bound_2D units (Scene.GL_TEXTURE0 + Scene.FindTextureSlot "wood" wood_scene))
     = Scene.FindTextureID "wood" wood_scene.
Proof.
  apply (BindGLTextures_units "wood" wood_scene sample_libraries).
  vm_compute. discriminate.
Defined.

Lemma find_same_tags (tag : string) (a b : list Scene.TEXTURE_INFO) (i : Z) :
  Scene.texture_tag <$> a = Scene.texture_tag <$> b ->
  Scene.find_slot tag a i = Scene.find_slot tag b i.
Proof.
  revert b i. induction a as [| t a IH]; intros [| t' b] i Htags; try done.
  simpl in *. injection Htags as Ht Htags. rewrite Ht.
  destruct (String.eqb _ _); [done |]. by apply IH.
Qed.

(** The loop of [DestroyGLTextures]. *)
Lemma generate_over_spec (loaded : list Scene.TEXTURE_INFO) (lib : Scene.Libraries) :
  exists lib',
    Scene.generate_over loaded lib
    = (imap (fun k t => Scene.set_ID
                          (Scene.names lib (Scene.generated lib + k)) t) loaded,
       lib')
    /\ Scene.files lib' = Scene.files lib
    /\ Scene.names lib' = Scene.names lib
    /\ Scene.generated lib' = (Scene.generated lib + length loaded)%nat
    /\ texture_units (Scene.calls lib') = texture_units (Scene.calls lib).
Proof.
  revert lib. induction loaded as [| t loaded IH]; intros lib.
  - exists lib. simpl. repeat split. lia.
  - cbn [Scene.generate_over]. unfold Scene.glGenTextures.
    set (lib1 := Scene.mkLibraries _ _ _ _).
    destruct (IH lib1) as (lib' & -> & Hf & Hn & Hg & Hu).
    subst lib1. cbn [Scene.names Scene.generated Scene.files Scene.calls] in *.
    exists lib'. split; [| split; [done | split; [done | split]]].
    + cbn [imap]. rewrite Nat.add_0_r. do 2 f_equal.
      apply imap_ext. intros k t' _. cbn. do 2 f_equal. lia.
    + rewrite Hg. simpl. lia.
    + rewrite Hu, texture_units_app. reflexivity.
Qed.

(** X7.  [DestroyGLTextures] deletes nothing.  It calls [glGenTextures] once
    per loaded entry and stores the new name in the entry: the count and
    the tags stay, so every tag keeps its slot; the textures and bindings of
    the context stay as they were; and the IDs in the table are the names
    just generated, in order. *)
Theorem DestroyGLTextures_keeps_textures (tag : string) (sm : Scene.SceneManager)
    (lib : Scene.Libraries) :
  let s' := Scene.DestroyGLTextures (sm, lib) in
  Scene.m_loadedTextures s'.1 = Scene.m_loadedTextures sm
  /\ Scene.FindTextureSlot tag s'.1 = Scene.FindTextureSlot tag sm
  /\ texture_units (Scene.calls s'.2) = texture_units (Scene.calls lib)
  /\ Scene.generated s'.2
     = (Scene.generated lib + length (loaded_textures sm))%nat
  /\ Scene.ID <$> loaded_textures s'.1
     = imap (fun k _ => Scene.names lib (Scene.generated lib + k))
            (loaded_textures sm).
Proof.
  intros s'. subst s'. cbn [Scene.DestroyGLTextures]. fold (loaded_textures sm).
  destruct (generate_over_spec (loaded_textures sm) lib)
    as (lib' & -> & _ & _ & Hg & Hu).
  cbn [fst snd] in *.
  set (loaded' := imap _ (loaded_textures sm)).
  assert (H1 : loaded' = imap (fun k t => Scene.set_ID
                           (Scene.names lib (Scene.generated lib + k)) t)
                           (loaded_textures sm)) by done.
  clearbody loaded'.
  assert (Hl : loaded_textures
                 (Scene.set_m_textureIDs
                    (loaded' ++ drop (Z.to_nat (Scene.m_loadedTextures sm))
                                     (Scene.m_textureIDs sm)) sm)
               = loaded').
  { unfold loaded_textures at 1. cbn [Scene.set_m_textureIDs Scene.m_loadedTextures Scene.m_textureIDs].
    assert (Hlen : length loaded'
                   = (Z.to_nat (Scene.m_loadedTextures sm)
                      `min` length (Scene.m_textureIDs sm))%nat).
    { rewrite H1, length_imap. unfold loaded_textures. by rewrite length_take. }
    rewrite take_app.
    destruct (decide (Z.to_nat (Scene.m_loadedTextures sm)
                      <= length (Scene.m_textureIDs sm))%nat).
    - rewrite take_ge by lia.
      replace (Z.to_nat (Scene.m_loadedTextures sm) - length loaded')%nat
        with 0%nat by lia.
      by rewrite take_0, app_nil_r.
    - rewrite take_ge by lia. rewrite drop_ge by lia.
      by rewrite take_nil, app_nil_r. }
  repeat split; try done.
  - rewrite !FindTextureSlot_loaded, Hl. apply find_same_tags.
    rewrite H1. rewrite fmap_imap. unfold compose. cbn.
    clear. induction (loaded_textures sm) as [| t l IH] using rev_ind; [done |].
    rewrite imap_app, fmap_app, IH. done.
  - rewrite Hl, H1, fmap_imap. apply imap_ext. done.
Qed.

Lemma LoadSceneTextures_fold (s : Scene.SceneManager * Scene.Libraries) :
  Scene.LoadSceneTextures s
  = Scene.BindGLTextures (foldl create_texture s scene_textures).
Proof.
  unfold Scene.LoadSceneTextures, scene_textures. cbn [foldl].
  unfold create_texture. cbn [fst snd].
  repeat lazymatch goal with
    | |- (let '(_, _) := ?c in _) = _ => destruct c as [? ?]; cbn [fst snd]
    end.
  reflexivity.
Qed.

Lemma loads_Some (lib : Scene.Libraries) (filename : string) :
  loads lib filename = true ->
  exists image, Scene.files lib filename = Some image /\ supported image = true.
Proof.
  unfold loads. destruct (Scene.files lib filename) as [image |]; [| done].
  eauto.
Qed.

Lemma storage_created (u : TextureUnits) (filename : string)
    (image : Scene.Image) (name : Z) :
  storage (foldl gl_call u (create_calls filename image name ++ upload_calls image))
  = <[name := image]> (storage u).
Proof.
  rewrite foldl_app, units_create, units_upload. cbn [storage active binding].
  by rewrite bound_2D_insert.
Qed.

(** A run of successful calls of [CreateGLTexture]. *)
Lemma textures_created (l : list (string * string)) (sm : Scene.SceneManager)
    (lib : Scene.Libraries) :
  Forall (fun ft => loads lib ft.1 = true) l ->
  (0 <= Scene.m_loadedTextures sm)%Z ->
  (Scene.m_loadedTextures sm + Z.of_nat (length l)
   <= Z.of_nat (length (Scene.m_textureIDs sm)))%Z ->
  exists sm' lib',
    foldl create_texture (sm, lib) l = (sm', lib')
    /\ Scene.files lib' = Scene.files lib
    /\ Scene.names lib' = Scene.names lib
    /\ Scene.generated lib' = (Scene.generated lib + length l)%nat
    /\ loaded_textures sm'
       = loaded_textures sm
         ++ imap (fun j ft => Scene.mkTexture ft.2
                                (Scene.names lib (Scene.generated lib + j))) l
    /\ (forall j ft image,
          (forall i i', Scene.names lib i = Scene.names lib i' -> i = i') ->
          l !! j = Some ft -> Scene.files lib ft.1 = Some image ->
          storage (texture_units (Scene.calls lib'))
            !! Scene.names lib (Scene.generated lib + j) = Some image)
    /\ (forall x,
          (forall j, (j < length l)%nat ->
                     x <> Scene.names lib (Scene.generated lib + j)) ->
          storage (texture_units (Scene.calls lib')) !! x
          = storage (texture_units (Scene.calls lib)) !! x).
Proof.
  revert sm lib. induction l as [| ft l IH]; intros sm lib Hloads Hn Hroom.
  - exists sm, lib. cbn [foldl imap length]. rewrite app_nil_r, Nat.add_0_r.
    repeat split; try done.
  - apply Forall_cons in Hloads as [Hft Hloads].
    destruct (loads_Some _ _ Hft) as (image & Hfile & Hsup).
    cbn [foldl]. unfold create_texture at 2.
    rewrite CreateGLTexture_created. unfold created. cbn [fst snd].
    rewrite Hfile, Hsup. cbn [fst snd length] in *.
    set (name := Scene.names lib (Scene.generated lib)).
    set (sm1 := registered ft.2 name sm).
    set (lib1 := after_calls 1 _ lib).
    destruct (IH sm1 lib1) as (sm' & lib' & Hfold & Hf & Hnm & Hg & Hl & Hst & Hkeep).
    { done. }
    { subst sm1. cbn. lia. }
    { subst sm1. cbn. rewrite length_update_at. lia. }
    exists sm', lib'. subst lib1. cbn [after_calls Scene.files Scene.names
      Scene.generated Scene.calls] in *.
    split; [done |]. split; [done |]. split; [done |].
    split; [rewrite Hg; lia |]. split; [| split].
    + rewrite Hl. subst sm1.
      destruct (loaded_textures_registered ft.2 name sm Hn) as (rest & -> & Hrest).
      rewrite Hrest by lia. rewrite <- app_assoc. f_equal. cbn [imap app].
      rewrite Nat.add_0_r. f_equal. apply imap_ext. intros j ft' _. cbn.
      do 2 f_equal. lia.
    + intros [| j] ft' image' Hinj Hj Hfile'.
      * injection Hj as <-. rewrite Nat.add_0_r. fold name.
        rewrite Hkeep.
        -- rewrite texture_units_app, storage_created, lookup_insert_eq. congruence.
        -- intros j _ Heq. apply Hinj in Heq. lia.
      * replace (Scene.generated lib + S j)%nat
          with (1 + Scene.generated lib + j)%nat by lia.
        by apply (Hst j ft').
    + intros x Hx. rewrite Hkeep.
      * rewrite texture_units_app, storage_created.
        apply lookup_insert_ne. specialize (Hx 0%nat).
        rewrite Nat.add_0_r in Hx. intros Heq. apply Hx; [lia | done].
      * intros j Hj. replace (1 + Scene.generated lib + j)%nat
          with (Scene.generated lib + S j)%nat by lia.
        apply Hx. lia.
Qed.

Lemma bind_from_storage (loaded : list Scene.TEXTURE_INFO) (i : Z)
    (lib : Scene.Libraries) :
  storage (texture_units (Scene.calls (Scene.bind_from loaded i lib)))
  = storage (texture_units (Scene.calls lib)).
Proof.
  revert i lib. induction loaded as [| t loaded IH]; intros i lib; [done |].
  cbn [Scene.bind_from]. rewrite IH, !texture_units_call.
  cbn [gl_call storage]. by rewrite Z.eqb_refl.
Qed.

Lemma find_imap (f : nat -> Z) (l : list (string * string)) (k : nat)
    (file tag : string) (i : Z) :
  NoDup l.*2 -> l !! k = Some (file, tag) ->
  Scene.find_slot tag (imap (fun j ft => Scene.mkTexture ft.2 (f j)) l) i
  = (i + Z.of_nat k)%Z
  /\ Scene.find_id tag (imap (fun j ft => Scene.mkTexture ft.2 (f j)) l)
     = Scene.int_of_GLuint (f k).
Proof.
  revert f k i. induction l as [| ft l IH]; intros f k i Hnd Hk; [done |].
  cbn [imap Scene.find_slot Scene.find_id Scene.texture_tag Scene.ID].
  rewrite fmap_cons in Hnd. apply NoDup_cons in Hnd as [Hft Hnd].
  destruct k as [| k].
  - injection Hk as ->. cbn [snd]. rewrite String.eqb_refl.
    split; [lia | done].
  - cbn [lookup list_lookup] in Hk.
    destruct (String.eqb_spec ft.2 tag) as [Heq | Hne].
    + exfalso. apply Hft. rewrite Heq.
      apply list_elem_of_fmap. exists (file, tag). split; [done |].
      by apply (list_elem_of_lookup_2 _ k).
    + destruct (IH (f ∘ S) k (i + 1)%Z Hnd Hk) as [Hs Hi].
      unfold compose in *. rewrite Hs, Hi. split; [lia | done].
Qed.

Lemma scene_textures_NoDup : NoDup scene_textures.*2.
Proof.
  unfold scene_textures. cbn [fmap list_fmap snd].
  repeat (apply NoDup_cons_2;
          [rewrite ?elem_of_cons, elem_of_nil; intuition discriminate |]).
  apply NoDup_nil_2.
Qed.

(** X8.  [LoadSceneTextures] from an empty table with room for the fourteen
    textures, when every file loads with 3 or 4 colour channels and
    [glGenTextures] returns distinct names: the k-th tag of the list is
    found in slot k, texture unit k has the texture of that tag bound, and
    that texture holds the image of the k-th file.  So the slot that
    [SetShaderTexture] writes for a tag samples the image loaded for it. *)
Theorem LoadSceneTextures_units (sm : Scene.SceneManager) (lib : Scene.Libraries) :
  Scene.m_loadedTextures sm = 0%Z ->
  (14 <= length (Scene.m_textureIDs sm))%nat ->
  Forall (fun ft => loads lib ft.1 = true) scene_textures ->
  (forall i j, Scene.names lib i = Scene.names lib j -> i = j) ->
  let s' := Scene.LoadSceneTextures (sm, lib) in
  let units := texture_units (Scene.calls s'.2) in
  forall (k : nat) (file tag : string) (image : Scene.Image),
    scene_textures !! k = Some (file, tag) ->
    Scene.files lib file = Some image ->
    let texture := bound_2D units (Scene.GL_TEXTURE0 + Z.of_nat k) in
    Scene.FindTextureSlot tag s'.1 = Z.of_nat k
    /\ Scene.FindTextureID tag s'.1 = Scene.int_of_GLuint texture
    /\ storage units !! texture = Some image.
Proof.
  intros Hn Hroom Hloads Hinj s' units k file tag image Hk Hfile texture.
  subst texture units s'. rewrite LoadSceneTextures_fold.
  destruct (textures_created scene_textures sm lib)
    as (sm' & lib' & -> & _ & _ & _ & Hl & Hst & _); try done.
  { lia. }
  { rewrite Hn. change (length scene_textures) with 14%nat. lia. }
  assert (Hempty : loaded_textures sm = []).
  { unfold loaded_textures. by rewrite Hn. }
  rewrite Hempty, app_nil_l in Hl.
  cbn [Scene.BindGLTextures fst snd]. fold (loaded_textures sm').
  rewrite bind_from_storage, bind_from_units, Hl.
  rewrite FindTextureSlot_loaded, FindTextureID_loaded, Hl.
  rewrite decide_True by lia.
  replace (Z.to_nat _) with k by lia.
  rewrite list_lookup_imap, Hk. cbn [fmap option_fmap option_map from_option Scene.ID].
  destruct (find_imap (fun j => Scene.names lib (Scene.generated lib + j))
              scene_textures k file tag 0 scene_textures_NoDup Hk) as [-> ->].
  split; [lia |]. split; [done |]. by apply (Hst k (file, tag)).
Qed.

Lemma LoadSceneTextures_units_witness :
  let s' := Scene.LoadSceneTextures (sample_scene, sample_libraries) in
  let units := texture_units (Scene.calls s'.2) in
  let texture := bound_2D units (Scene.GL_TEXTURE0 + Z.of_nat 1) in
  Scene.FindTextureSlot "marble1" s'.1 = Z.of_nat 1
  /\ Scene.FindTextureID "marble1" s'.1 = Scene.int_of_GLuint texture
  /\ storage units !! texture = Some (Scene.mkImage 1 1 3).
Proof.
  apply (LoadSceneTextures_units sample_scene sample_libraries)
    with (file := "./Debug/textures/marble_light_seamless.jpg"%string).
  - reflexivity.
  - vm_compute. lia.
  - repeat constructor.
  - intros i j Hij. simpl in Hij. lia.
  - reflexivity.
  - reflexivity.
Defined.

Lemma textures_count (l : list (string * string)) (sm : Scene.SceneManager)
    (lib : Scene.Libraries) :
  Scene.m_loadedTextures (foldl create_texture (sm, lib) l).1
  = (Scene.m_loadedTextures sm
     + Z.of_nat (length (filter (fun ft => loads lib ft.1 = true) l)))%Z.
Proof.
  revert sm lib. induction l as [| ft l IH]; intros sm lib.
  - cbn. lia.
  - cbn [foldl]. unfold create_texture at 2.
    pose proof (CreateGLTexture_result ft.1 ft.2 sm lib) as Hr.
    cbv zeta in Hr.
    destruct (Scene.CreateGLTexture ft.1 ft.2 (sm, lib)) as [ok [sm1 lib1]].
    cbn [fst snd] in *. destruct Hr as (Hok & Hsm & Hfiles).
    rewrite IH. rewrite filter_cons.
    assert (Hloads : forall f, loads lib1 f = loads lib f).
    { intros f. unfold loads. by rewrite Hfiles. }
    rewrite (list_filter_iff _ (fun ft => loads lib ft.1 = true))
      by (intros x; by rewrite Hloads).
    destruct ok; rewrite <- Hok.
    + rewrite decide_True by done. rewrite Hsm. cbn [length]. lia.
    + rewrite decide_False by done. by rewrite Hsm.
Qed.

(** A run of calls of [CreateGLTexture], with room for those that
    succeed. *)
Lemma textures_loaded_tags (l : list (string * string)) (sm : Scene.SceneManager)
    (lib : Scene.Libraries) :
  (0 <= Scene.m_loadedTextures sm)%Z ->
  (Scene.m_loadedTextures sm
   + Z.of_nat (length (filter (fun ft => loads lib ft.1 = true) l))
   <= Z.of_nat (length (Scene.m_textureIDs sm)))%Z ->
  Scene.texture_tag <$> loaded_textures (foldl create_texture (sm, lib) l).1
  = (Scene.texture_tag <$> loaded_textures sm)
    ++ (filter (fun ft => loads lib ft.1 = true) l).*2.
Proof.
  revert sm lib. induction l as [| ft l IH]; intros sm lib Hn Hroom.
  - cbn. by rewrite app_nil_r.
  - assert (Hsame : forall lib', Scene.files lib' = Scene.files lib ->
              filter (fun ft => loads lib' ft.1 = true) l
              = filter (fun ft => loads lib ft.1 = true) l).
    { intros lib' Hfiles. apply list_filter_iff. intros x.
      unfold loads. by rewrite Hfiles. }
    cbn [foldl]. unfold create_texture at 2.
    rewrite CreateGLTexture_created. unfold created. cbn [fst snd].
    rewrite filter_cons in Hroom. rewrite filter_cons.
    assert (Hloads : loads lib ft.1
                     = from_option supported false (Scene.files lib ft.1))
      by reflexivity.
    destruct (Scene.files lib ft.1) as [image |]; cbn [from_option] in Hloads.
    + destruct (supported image); cbn [fst snd].
      * rewrite decide_True in Hroom by done. rewrite decide_True by done.
        cbn [length] in Hroom.
        set (name := Scene.names lib (Scene.generated lib)).
        set (lib' := after_calls 1 _ lib).
        specialize (IH (registered ft.2 name sm) lib').
        rewrite (Hsame lib' eq_refl) in IH. rewrite IH.
        -- destruct (loaded_textures_registered ft.2 name sm Hn)
             as (rest & -> & Hrest).
           rewrite Hrest by lia. rewrite fmap_app, <- app_assoc. done.
        -- cbn [registered Scene.m_loadedTextures]. lia.
        -- cbn [registered Scene.m_loadedTextures Scene.m_textureIDs].
           rewrite length_update_at. lia.
      * rewrite decide_False in Hroom by (rewrite Hloads; done).
        rewrite decide_False by (rewrite Hloads; done).
        set (lib' := after_calls 1 _ lib).
        specialize (IH sm lib').
        rewrite (Hsame lib' eq_refl) in IH. by apply IH.
    + cbn [fst snd].
      rewrite decide_False in Hroom by (rewrite Hloads; done).
      rewrite decide_False by (rewrite Hloads; done).
      set (lib' := after_calls 0 _ lib).
      specialize (IH sm lib').
      rewrite (Hsame lib' eq_refl) in IH. by apply IH.
Qed.

(** X9.  [LoadSceneTextures], with room in the table for the files that
    load.  The count grows by the number of the fourteen files that
    [stbi_load] finds with 3 or 4 colour channels, and the tags of these
    files are appended to the loaded entries in the order of the list: a
    file that is missing or turned down is passed over, and the textures
    after it take the slots below. *)
Theorem LoadSceneTextures_count (sm : Scene.SceneManager) (lib : Scene.Libraries) :
  let loading := filter (fun ft => loads lib ft.1 = true) scene_textures in
  (0 <= Scene.m_loadedTextures sm)%Z ->
  (Scene.m_loadedTextures sm + Z.of_nat (length loading)
   <= Z.of_nat (length (Scene.m_textureIDs sm)))%Z ->
  let sm' := (Scene.LoadSceneTextures (sm, lib)).1 in
  Scene.m_loadedTextures sm'
  = (Scene.m_loadedTextures sm + Z.of_nat (length loading))%Z
  /\ Scene.texture_tag <$> loaded_textures sm'
     = (Scene.texture_tag <$> loaded_textures sm) ++ loading.*2.
Proof.
  intros loading Hn Hroom sm'. subst sm' loading.
  rewrite LoadSceneTextures_fold.
  rewrite <- textures_count, <- (textures_loaded_tags _ _ _ Hn Hroom).
  by destruct (foldl create_texture (sm, lib) scene_textures).
Qed.

Lemma LoadSceneTextures_count_witness :
  let loading := filter (fun ft => loads wood_missing ft.1 = true) scene_textures in
  let sm' := (Scene.LoadSceneTextures (sample_scene, wood_missing)).1 in
  Scene.m_loadedTextures sm'
  = (Scene.m_loadedTextures sample_scene + Z.of_nat (length loading))%Z
  /\ Scene.texture_tag <$> loaded_textures sm'
     = (Scene.texture_tag <$> loaded_textures sample_scene) ++ loading.*2.
Proof.
  apply (LoadSceneTextures_count sample_scene wood_missing).
  - vm_compute. discriminate.
  - vm_compute. discriminate.
Defined.

(** ** SceneManager.cpp: the materials *)

Lemma FindMaterial_app (tag : string) (a b : list Scene.OBJECT_MATERIAL) :
  Scene.FindMaterial tag (a ++ b)
  = match Scene.FindMaterial tag a with
    | Some m => Some m
    | None => Scene.FindMaterial tag b
    end.
Proof.
  induction a as [| m a IH]; [done |]. simpl.
  by destruct (String.eqb (Scene.tag m) tag).
Qed.

(** X10.  [FindMaterial] returns the first material of the list with the
    tag, and nothing when no material has it; on the empty list it finds
    nothing. *)
Theorem FindMaterial_first_match (tag : string)
    (materials : list Scene.OBJECT_MATERIAL) :
  Scene.FindMaterial tag [] = None
  /\ ((Scene.FindMaterial tag materials = None
       /\ Forall (fun m => Scene.tag m <> tag) materials)
      \/ exists (k : nat) (m : Scene.OBJECT_MATERIAL),
           Scene.FindMaterial tag materials = Some m
           /\ materials !! k = Some m
           /\ Scene.tag m = tag
           /\ Forall (fun m' => Scene.tag m' <> tag) (take k materials)).
Proof.
  split; [done |].
  induction materials as [| m materials IH]; simpl.
  - left. by split.
  - destruct (String.eqb_spec (Scene.tag m) tag) as [Heq | Hne].
    + right. exists 0%nat, m. repeat split; first [done | constructor].
    + destruct IH as [(Hnone & Hall) | (k & m' & Hsome & Hk & Ht & Hall)].
      * left. split; [done | by constructor].
      * right. exists (S k), m'. repeat split; try done.
        simpl. by constructor.
Qed.

(** The materials that [DefineObjectMaterials] appends. *)
Lemma DefineObjectMaterials_app (sm : Scene.SceneManager) :
  Scene.m_objectMaterials (Scene.DefineObjectMaterials sm)
  = Scene.m_objectMaterials sm
    ++ Scene.m_objectMaterials
         (Scene.DefineObjectMaterials (Scene.mkSceneManager None [] 0 [] [])).
Proof. reflexivity. Qed.


(** ** SceneManager.cpp: [RenderScene] *)

Lemma RenderScene_steps_eq (sm : Scene.SceneManager) (lib : Scene.Libraries) :
  Scene.RenderScene (sm, lib) = scene_steps RenderScene_steps sm lib.
Proof. reflexivity. Qed.

Lemma after_calls_0_nil (lib : Scene.Libraries) : after_calls 0 [] lib = lib.
Proof. destruct lib. unfold after_calls. cbn. by rewrite app_nil_r. Qed.

Lemma after_calls_0_app (a b : list Scene.Lib.Call) (lib : Scene.Libraries) :
  after_calls 0 b (after_calls 0 a lib) = after_calls 0 (a ++ b) lib.
Proof. unfold after_calls. cbn. by rewrite app_assoc. Qed.

Lemma call_after_calls (c : Scene.Lib.Call) (lib : Scene.Libraries) :
  Scene.call c lib = after_calls 0 [c] lib.
Proof. reflexivity. Qed.

(** One statement, with a shader manager. *)
Lemma scene_step_shader (step : SceneStep) (steps : list SceneStep)
    shader ids n ms dr (lib : Scene.Libraries) :
  let sm := Scene.mkSceneManager (Some shader) ids n ms dr in
  scene_steps (step :: steps) sm lib
  = scene_steps steps
      (Scene.mkSceneManager (Some (shader ++ step_writes sm step)) ids n ms dr)
      (after_calls 0 (step_calls step) lib).
Proof.
  intros sm. subst sm. destruct step; cbn [scene_steps step_calls step_writes];
    rewrite ?after_calls_0_nil.
  - unfold Scene.SetShaderTexture. cbn [Scene.m_pShaderManager].
    destruct (_ <? 0)%Z; [by rewrite app_nil_r | reflexivity].
  - unfold Scene.SetShaderMaterial.
    cbn [Scene.m_pShaderManager Scene.m_objectMaterials].
    destruct (Scene.FindMaterial _ _); [reflexivity | by rewrite app_nil_r].
  - reflexivity.
  - reflexivity.
  - reflexivity.
  - by rewrite app_nil_r.
Qed.

Lemma scene_steps_shader (steps : list SceneStep) shader ids n ms dr
    (lib : Scene.Libraries) :
  let sm := Scene.mkSceneManager (Some shader) ids n ms dr in
  scene_steps steps sm lib
  = Done (Scene.mkSceneManager
            (Some (shader ++ concat (step_writes sm <$> steps))) ids n ms dr,
          after_calls 0 (concat (step_calls <$> steps)) lib).
Proof.
  cbv zeta. revert shader lib. induction steps as [| step steps IH]; intros shader lib.
  - cbn [scene_steps fmap list_fmap concat]. by rewrite app_nil_r, after_calls_0_nil.
  - rewrite scene_step_shader, IH. cbn [fmap list_fmap concat].
    by rewrite after_calls_0_app, <- app_assoc.
Qed.

(** X12.  With a shader manager, [RenderScene] always returns.  It makes
    the same library calls whatever the state: [glClear] and then the
    sixty-five draw calls.  It leaves the texture table and the materials
    as they were, and appends to the shader manager the writes of its
    statements: those of a texture that is not loaded and of a material
    that is not defined are left out, and nothing else depends on the
    state. *)
Theorem RenderScene_with_shader (sm : Scene.SceneManager) (lib : Scene.Libraries)
    (shader : ShaderManager) :
  Scene.m_pShaderManager sm = Some shader ->
  Scene.RenderScene (sm, lib)
  = Done (Scene.set_m_pShaderManager (Some (shader ++ scene_writes sm)) sm,
          after_calls 0 scene_calls lib)
  /\ head scene_calls
     = Some (Scene.Lib.glClear
               (Z.lor Scene.GL_COLOR_BUFFER_BIT Scene.GL_DEPTH_BUFFER_BIT))
  /\ length (tail scene_calls) = 65%nat
  /\ forallb is_draw (tail scene_calls) = true.
Proof.
  intros Hshader. split; [| repeat split; reflexivity].
  rewrite RenderScene_steps_eq. destruct sm as [sh ids n ms dr].
  cbn in Hshader. subst sh. apply scene_steps_shader.
Qed.

Lemma RenderScene_with_shader_witness :
  exists sm',
    Scene.RenderScene (sample_scene, sample_libraries)
    = Done (sm', after_calls 0 scene_calls sample_libraries).
Proof.
  eexists. apply (RenderScene_with_shader sample_scene sample_libraries []).
  reflexivity.
Defined.

Lemma no_material_defined (ms : list Scene.OBJECT_MATERIAL) :
  bool_decide (Exists (fun tag => is_Some (Scene.FindMaterial tag ms)) []) = false.
Proof. apply bool_decide_eq_false_2. by intros ?%Exists_nil. Qed.

(** One statement, without a shader manager. *)
Lemma scene_step_no_shader (step : SceneStep) (steps : list SceneStep)
    ids n ms dr (lib : Scene.Libraries) :
  let sm := Scene.mkSceneManager None ids n ms dr in
  scene_steps (step :: steps) sm lib
  = if bool_decide (Exists (fun tag => is_Some (Scene.FindMaterial tag ms))
                           (step_material step))
    then NullDeref
    else scene_steps steps sm (after_calls 0 (step_calls step) lib).
Proof.
  intros sm. subst sm.
  destruct step as [? | materialTag | | | |];
    cbn [scene_steps step_calls step_material];
    rewrite ?after_calls_0_nil;
    try (rewrite no_material_defined; reflexivity).
  unfold Scene.SetShaderMaterial.
  cbn [Scene.m_pShaderManager Scene.m_objectMaterials].
  destruct (Scene.FindMaterial materialTag ms) as [m |] eqn:Hm.
  - rewrite bool_decide_eq_true_2; [done |]. apply Exists_cons_hd. by rewrite Hm.
  - rewrite bool_decide_eq_false_2; [done |].
    rewrite Exists_cons, Exists_nil, Hm. intros [[? [=]] | []].
Qed.

Lemma scene_steps_no_shader (steps : list SceneStep) ids n ms dr
    (lib : Scene.Libraries) :
  let sm := Scene.mkSceneManager None ids n ms dr in
  scene_steps steps sm lib
  = if bool_decide (Exists (fun tag => is_Some (Scene.FindMaterial tag ms))
                           (concat (step_material <$> steps)))
    then NullDeref
    else Done (sm, after_calls 0 (concat (step_calls <$> steps)) lib).
Proof.
  cbv zeta. revert lib. induction steps as [| step steps IH]; intros lib.
  - cbn [scene_steps fmap list_fmap concat]. rewrite after_calls_0_nil.
    by rewrite no_material_defined.
  - rewrite scene_step_no_shader. cbn [fmap list_fmap concat].
    destruct (bool_decide (Exists _ (step_material step))) eqn:Hstep.
    + apply bool_decide_eq_true_1 in Hstep.
      by rewrite bool_decide_eq_true_2 by (apply Exists_app; by left).
    + apply bool_decide_eq_false_1 in Hstep. rewrite IH, after_calls_0_app.
      destruct (bool_decide (Exists _ (concat _))) eqn:Hrest.
      * apply bool_decide_eq_true_1 in Hrest.
        by rewrite bool_decide_eq_true_2 by (apply Exists_app; by right).
      * apply bool_decide_eq_false_1 in Hrest.
        rewrite bool_decide_eq_false_2; [done |].
        rewrite Exists_app. tauto.
Qed.

(** X13.  Without a shader manager, [RenderScene] dereferences the null
    pointer exactly when one of the material tags it asks for is defined.
    When none is, it returns with the scene manager unchanged, having made
    the same library calls as with a shader manager. *)
Theorem RenderScene_without_shader (sm : Scene.SceneManager)
    (lib : Scene.Libraries) :
  Scene.m_pShaderManager sm = None ->
  (Exists (fun tag => is_Some (Scene.FindMaterial tag (Scene.m_objectMaterials sm)))
          scene_materials
   /\ Scene.RenderScene (sm, lib) = NullDeref)
  \/ (Forall (fun tag => Scene.FindMaterial tag (Scene.m_objectMaterials sm) = None)
             scene_materials
      /\ Scene.RenderScene (sm, lib) = Done (sm, after_calls 0 scene_calls lib)).
Proof.
  intros Hshader. rewrite RenderScene_steps_eq. destruct sm as [sh ids n ms dr].
  cbn in Hshader. subst sh. rewrite scene_steps_no_shader.
  cbn [Scene.m_objectMaterials]. fold scene_materials. fold scene_calls.
  destruct (bool_decide (Exists _ scene_materials)) eqn:Hex.
  - left. by apply bool_decide_eq_true_1 in Hex.
  - right. apply bool_decide_eq_false_1 in Hex. split; [| done].
    apply Forall_forall. intros tag Htag.
    destruct (Scene.FindMaterial tag ms) as [m |] eqn:Hm; [| done].
    exfalso. apply Hex, Exists_exists. exists tag. by rewrite Hm.
Qed.

Lemma RenderScene_without_shader_witness :
  Scene.RenderScene (bare_scene, sample_libraries)
  = Done (bare_scene, after_calls 0 scene_calls sample_libraries).
Proof.
  destruct (RenderScene_without_shader bare_scene sample_libraries eq_refl)
    as [[Hex _] | [_ Hdone]]; [| exact Hdone].
  exfalso. apply Exists_exists in Hex as (tag & _ & m & Hm). discriminate Hm.
Defined.

Lemma defined_materials (tag : string) (sm : Scene.SceneManager) :
  tag ∈ scene_textures.*2 ->
  is_Some (Scene.FindMaterial tag
             (Scene.m_objectMaterials (Scene.DefineObjectMaterials sm))).
Proof.
  intros Htag. rewrite DefineObjectMaterials_app, FindMaterial_app.
  destruct (Scene.FindMaterial tag (Scene.m_objectMaterials sm)); [done |].
  unfold scene_textures in Htag. cbn [fmap list_fmap snd] in Htag.
  rewrite ?elem_of_cons, elem_of_nil in Htag.
  repeat (destruct Htag as [-> | Htag]; [eexists; reflexivity |]).
  done.
Qed.

(** X14.  The scene uses what the two set-up functions provide: every
    material tag that [RenderScene] passes to [SetShaderMaterial] is defined
    once [DefineObjectMaterials] has run, every texture tag that it passes
    to [SetShaderTexture] is one of the fourteen that [LoadSceneTextures]
    registers, and each object asks for its texture and its material under
    the same tag. *)
Theorem RenderScene_tags_provided :
  (forall sm lib, Scene.RenderScene (sm, lib) = scene_steps RenderScene_steps sm lib)
  /\ (forall sm,
        Forall (fun tag =>
                  is_Some (Scene.FindMaterial tag
                             (Scene.m_objectMaterials
                                (Scene.DefineObjectMaterials sm))))
               scene_materials)
  /\ Forall (fun tag => tag ∈ scene_textures.*2) scene_texture_tags
  /\ scene_texture_tags = scene_materials.
Proof.
  assert (Htags : Forall (fun tag => tag ∈ scene_textures.*2) scene_texture_tags).
  { unfold scene_textures. cbn [fmap list_fmap snd].
    lazy [scene_texture_tags RenderScene_steps step_texture fmap list_fmap
          concat app].
    repeat (apply Forall_cons_2; [repeat constructor |]). apply Forall_nil_2. }
  assert (Heq : scene_texture_tags = scene_materials) by reflexivity.
  split; [done |]. split; [| done]. intros sm. rewrite <- Heq.
  eapply Forall_impl; [exact Htags |]. intros tag Htag.
  by apply defined_materials.
Qed.

(** ** SceneManager.cpp: from loading to rendering *)

Lemma create_textures_shader (l : list (string * string))
    (s : Scene.SceneManager * Scene.Libraries) :
  Scene.m_pShaderManager (foldl create_texture s l).1 = Scene.m_pShaderManager s.1.
Proof.
  revert s. induction l as [| ft l IH]; intros s; [done |].
  cbn [foldl]. rewrite IH. unfold create_texture.
  rewrite CreateGLTexture_created. unfold created.
  destruct (Scene.files s.2 ft.1) as [image |]; [| done].
  by destruct (supported image).
Qed.

(** The slots after [LoadSceneTextures], when every file loads. *)
Lemma scene_texture_slots (sm : Scene.SceneManager) (lib : Scene.Libraries)
    (tag : string) :
  Scene.m_loadedTextures sm = 0%Z ->
  (14 <= length (Scene.m_textureIDs sm))%nat ->
  Forall (fun ft => loads lib ft.1 = true) scene_textures ->
  tag ∈ scene_textures.*2 ->
  (0 <= Scene.FindTextureSlot tag (Scene.LoadSceneTextures (sm, lib)).1)%Z.
Proof.
  intros Hn Hroom Hloads Htag. rewrite LoadSceneTextures_fold.
  destruct (textures_created scene_textures sm lib)
    as (sm' & lib' & -> & _ & _ & _ & Hl & _); try done.
  { lia. }
  { rewrite Hn. change (length scene_textures) with 14%nat. lia. }
  assert (Hempty : loaded_textures sm = []).
  { unfold loaded_textures. by rewrite Hn. }
  rewrite Hempty, app_nil_l in Hl.
  cbn [Scene.BindGLTextures fst]. rewrite FindTextureSlot_loaded, Hl.
  apply list_elem_of_fmap in Htag as ([file tag'] & -> & Hin).
  apply list_elem_of_lookup in Hin as [k Hk]. cbn [snd].
  destruct (find_imap (fun j => Scene.names lib (Scene.generated lib + j))
              scene_textures k file tag' 0 scene_textures_NoDup Hk) as [-> _].
  lia.
Qed.

Lemma steps_tags_known : Forall step_tag_known RenderScene_steps.
Proof.
  unfold RenderScene_steps, step_tag_known, scene_textures.
  cbn [fmap list_fmap snd].
  repeat (apply Forall_cons_2; [first [exact I | repeat constructor] |]).
  apply Forall_nil_2.
Qed.

Lemma length_concat_steps (f : SceneStep -> list UniformWrite)
    (steps : list SceneStep) :
  Forall (fun step => length (f step) = step_uniforms step) steps ->
  length (concat (f <$> steps)) = sum_list (step_uniforms <$> steps).
Proof.
  induction 1 as [| step steps Hstep _ IH]; [done |].
  cbn [fmap list_fmap concat sum_list]. rewrite length_app, Hstep, IH. done.
Qed.

(** X15.  The three functions together.  From an empty texture table with
    room for the fourteen textures and a shader manager, when every file
    loads: after [LoadSceneTextures] and [DefineObjectMaterials], a call of
    [RenderScene] returns and no statement of it is passed over.  Every
    [SetShaderTexture] finds its texture and every [SetShaderMaterial] its
    material, and the frame writes 568 uniforms. *)
Theorem scene_pipeline (sm : Scene.SceneManager) (lib : Scene.Libraries)
    (shader : ShaderManager) :
  Scene.m_pShaderManager sm = Some shader ->
  Scene.m_loadedTextures sm = 0%Z ->
  (14 <= length (Scene.m_textureIDs sm))%nat ->
  Forall (fun ft => loads lib ft.1 = true) scene_textures ->
  let s1 := Scene.LoadSceneTextures (sm, lib) in
  let sm2 := Scene.DefineObjectMaterials s1.1 in
  Scene.RenderScene (sm2, s1.2)
  = Done (Scene.set_m_pShaderManager (Some (shader ++ scene_writes sm2)) sm2,
          after_calls 0 scene_calls s1.2)
  /\ Forall (fun step => length (step_writes sm2 step) = step_uniforms step)
            RenderScene_steps
  /\ length (scene_writes sm2) = 568%nat.
Proof.
  intros Hshader Hn Hroom Hloads s1 sm2.
  assert (Hshader2 : Scene.m_pShaderManager sm2 = Some shader).
  { subst sm2 s1. cbn [Scene.DefineObjectMaterials Scene.set_m_objectMaterials
                       Scene.m_pShaderManager].
    rewrite LoadSceneTextures_fold.
    destruct (foldl create_texture (sm, lib) scene_textures) as [sm' lib'] eqn:Hf.
    cbn [Scene.BindGLTextures fst].
    change sm' with (sm', lib').1. rewrite <- Hf, create_textures_shader. done. }
  assert (Hall : Forall (fun step => length (step_writes sm2 step) = step_uniforms step)
                        RenderScene_steps).
  { eapply Forall_impl; [apply steps_tags_known |].
    intros [tag | tag | | | |] Hknown; cbn [step_writes step_uniforms]; try done.
    - change (Scene.FindTextureSlot tag sm2) with (Scene.FindTextureSlot tag s1.1).
      pose proof (scene_texture_slots sm lib tag Hn Hroom Hloads Hknown) as Hslot.
      fold s1 in Hslot.
      destruct (Z.ltb_spec (Scene.FindTextureSlot tag s1.1) 0); [lia | done].
    - destruct (defined_materials tag s1.1 Hknown) as [m Hm].
      fold sm2 in Hm. by rewrite Hm. }
  split; [| split; [done |]].
  - rewrite RenderScene_steps_eq. destruct sm2 as [sh ids n ms dr].
    cbn in Hshader2. subst sh. apply scene_steps_shader.
  - unfold scene_writes. rewrite (length_concat_steps _ _ Hall). reflexivity.
Qed.

Lemma scene_pipeline_witness :
  let s1 := Scene.LoadSceneTextures (sample_scene, sample_libraries) in
  let sm2 := Scene.DefineObjectMaterials s1.1 in
  length (scene_writes sm2) = 568%nat.
Proof.
  apply (scene_pipeline sample_scene sample_libraries []).
  - reflexivity.
  - reflexivity.
  - vm_compute. lia.
  - repeat constructor.
Defined.

(** ** ViewManager.cpp: the callbacks and the frame without a camera *)

Lemma dispatch_without_camera (e : Event) (g : Globals) :
  g_pCamera g = None ->
  dispatch e g = if is_scroll e then Done g else NullDeref.
Proof.
  intros Hcam. destruct e as [mx my | xo yo]; cbn [dispatch is_scroll].
  - unfold Mouse_Position_Callback, with_camera.
    destruct (gFirstMouse g); cbn; by rewrite Hcam.
  - unfold Scroll_Callback. by rewrite Hcam.
Qed.

Lemma glfwPollEvents_no_camera (events : list Event) (g : Globals) :
  g_pCamera g = None ->
  glfwPollEvents events g = if forallb is_scroll events then Done g else NullDeref.
Proof.
  intros Hcam. induction events as [| e events IH]; [done |].
  cbn [glfwPollEvents forallb]. rewrite dispatch_without_camera by done.
  destruct (is_scroll e); [| done]. cbn. exact IH.
Qed.

(** X16.  With no camera ([g_pCamera] null, as in the initial state of the
    namespace) the two callbacks differ: a scroll event leaves the
    namespace as it is, a cursor event dereferences the null pointer.  So a
    call of [glfwPollEvents] returns, with nothing changed, exactly when it
    delivers no cursor event. *)
Theorem glfwPollEvents_without_camera (events : list Event) (g : Globals) :
  g_pCamera g = None ->
  (forall xOffset yOffset, Scroll_Callback xOffset yOffset g = g)
  /\ (forall xMousePos yMousePos,
        Mouse_Position_Callback xMousePos yMousePos g = NullDeref)
  /\ glfwPollEvents events g
     = if forallb is_scroll events then Done g else NullDeref.
Proof.
  intros Hcam. split; [| split].
  - intros xo yo. unfold Scroll_Callback. by rewrite Hcam.
  - intros mx my.
    exact (dispatch_without_camera (CursorPos mx my) g Hcam).
  - by apply glfwPollEvents_no_camera.
Qed.

Lemma glfwPollEvents_without_camera_witness :
  glfwPollEvents [Scroll 0 1; CursorPos 1 1] initial_globals = NullDeref
  /\ glfwPollEvents [Scroll 0 1; Scroll 0 1] initial_globals = Done initial_globals.
Proof.
  split.
  - apply (glfwPollEvents_without_camera [Scroll 0 1; CursorPos 1 1]
             initial_globals eq_refl).
  - apply (glfwPollEvents_without_camera [Scroll 0 1; Scroll 0 1]
             initial_globals eq_refl).
Defined.

Lemma drain_P_without_camera (keys keys' : KeyState) (pending pending' : list Poll)
    (g g' : Globals) :
  g_pCamera g = None ->
  drain_P keys pending g = Done (keys', pending', g') -> g' = g.
Proof.
  intros Hcam. revert keys. induction pending as [| p pending IH]; intros keys;
    cbn [drain_P]; destruct (pressed keys KEY_P).
  - discriminate.
  - by intros [= _ _ <-].
  - rewrite glfwPollEvents_no_camera by done.
    destruct (forallb is_scroll (poll_events p)); [| discriminate]. cbn.
    apply IH.
  - by intros [= _ _ <-].
Qed.

Lemma move_on_without_camera (m_pWindow : KeyState) (key : Z)
    (direction : Camera.Camera_Movement) (st : State) :
  g_pCamera (globals st) = None ->
  move_on m_pWindow key direction st
  = if pressed m_pWindow key then NullDeref else Done st.
Proof.
  intros Hcam. unfold move_on, with_camera. rewrite Hcam.
  by destruct (pressed m_pWindow key).
Qed.

Lemma ProcessKeyboardEvents_without_camera (keys keys' : KeyState)
    (pending pending' : list Poll) (st st' : State) :
  g_pCamera (globals st) = None ->
  ProcessKeyboardEvents keys pending st = Done (keys', pending', st') ->
  g_pCamera (globals st') = None.
Proof.
  intros Hcam. unfold ProcessKeyboardEvents.
  set (st0 := if pressed keys KEY_ESCAPE then set_shouldClose true st else st).
  assert (Hcam0 : g_pCamera (globals st0) = None).
  { subst st0. by destruct (pressed keys KEY_ESCAPE). }
  clearbody st0.
  do 6 (rewrite move_on_without_camera by done;
        match goal with
        | |- context [pressed keys ?k] =>
            destruct (pressed keys k); [discriminate |]
        end;
        cbn [mbind outcome_bind]).
  destruct (pressed keys KEY_P).
  - cbv zeta. cbn [globals set_globals set_cout].
    set (g1 := set_bOrthographicProjection _ _).
    assert (Hcam1 : g_pCamera g1 = None) by done.
    destruct (drain_P keys pending g1) as [[[k p] g2] | |] eqn:Hd; try discriminate.
    apply drain_P_without_camera in Hd; [| done]. subst g2.
    cbn. by intros [= _ _ <-].
  - by intros [= _ _ <-].
Qed.

(** X17.  [PrepareSceneView] needs the camera: when [g_pCamera] is null the
    call never returns normally, whatever the keys and the pending events.
    It dereferences the null pointer, unless it is still waiting for the P
    key to be released. *)
Theorem PrepareSceneView_without_camera (currentFrame : R) (keys : KeyState)
    (pending : list Poll) (st : State) :
  g_pCamera (globals st) = None ->
  PrepareSceneView currentFrame keys pending st = NullDeref
  \/ PrepareSceneView currentFrame keys pending st = Blocked.
Proof.
  intros Hcam. unfold PrepareSceneView. cbv zeta.
  set (st1 := set_globals _ st).
  assert (Hcam1 : g_pCamera (globals st1) = None) by done.
  destruct (ProcessKeyboardEvents keys pending st1) as [[[k p] st2] | |] eqn:Hk;
    cbn [mbind outcome_bind]; [| by left | by right].
  apply ProcessKeyboardEvents_without_camera in Hk; [| done].
  rewrite Hk. by left.
Qed.

Lemma PrepareSceneView_without_camera_witness :
  PrepareSceneView 1 no_keys [] (mkState initial_globals sample_view false [])
  = NullDeref
  \/ PrepareSceneView 1 no_keys [] (mkState initial_globals sample_view false [])
     = Blocked.
Proof.
  exact (PrepareSceneView_without_camera 1 no_keys []
           (mkState initial_globals sample_view false []) eq_refl).
Defined.

(** ** ViewManager.cpp: the wait for the P key *)

Lemma drain_P_outcome (keys : KeyState) (pending : list Poll) (g : Globals) :
  is_Some (g_pCamera g) ->
  if pressed keys KEY_P
     && forallb (fun p => pressed (poll_keys p) KEY_P) pending
  then drain_P keys pending g = Blocked
  else exists keys' pending' g',
         drain_P keys pending g = Done (keys', pending', g')
         /\ is_Some (g_pCamera g').
Proof.
  revert keys g. induction pending as [| p pending IH]; intros keys g Hcam;
    cbn [drain_P forallb]; destruct (pressed keys KEY_P) eqn:Hp;
    cbn [andb]; eauto.
  destruct (glfwPollEvents_returns (poll_events p) g Hcam) as [g1 Hg1].
  rewrite Hg1. cbn [mbind outcome_bind].
  apply IH. by apply (glfwPollEvents_same_frame _ _ _ Hg1).
Qed.

(** X18.  With a camera, [PrepareSceneView] never dereferences a null
    pointer, and it fails to return in one case only: the P key reads
    pressed at the call and in every poll that follows.  The frame is not
    finished, and nothing is drawn, while P is held down. *)
Theorem PrepareSceneView_blocked_iff (currentFrame : R) (keys : KeyState)
    (pending : list Poll) (st : State) :
  is_Some (g_pCamera (globals st)) ->
  PrepareSceneView currentFrame keys pending st <> NullDeref
  /\ (PrepareSceneView currentFrame keys pending st = Blocked
      <-> pressed keys KEY_P = true
          /\ Forall (fun p => pressed (poll_keys p) KEY_P = true) pending).
Proof.
  destruct st as [[[cam |] lx ly fm dt lf bo] vm sc co]; intros [c Hc];
    [clear c Hc | discriminate].
  rewrite PrepareSceneView_mk. cbv zeta. unfold after_P.
  set (g := mkGlobals _ lx ly fm _ currentFrame bo).
  destruct (pressed keys KEY_P) eqn:Hp.
  - pose proof (drain_P_outcome keys pending
                  (set_bOrthographicProjection (negb (bOrthographicProjection g)) g))
      as Hd.
    rewrite Hp in Hd. cbn [andb] in Hd.
    destruct (forallb _ pending) eqn:Hall.
    + rewrite Hd by (by eexists). cbn [mbind outcome_bind].
      split; [discriminate |]. split; [| done]. intros _. split; [done |].
      apply Forall_forall. intros p Hin.
      rewrite forallb_forall in Hall. apply Hall. by apply list_elem_of_In.
    + destruct Hd as (keys' & pending' & g' & -> & [cam' Hcam']); [by eexists |].
      cbn [mbind outcome_bind]. rewrite Hcam'.
      split; [discriminate |]. split; [discriminate |].
      intros [_ Hheld]. exfalso.
      assert (forallb (fun p => pressed (poll_keys p) KEY_P) pending = true);
        [| congruence].
      apply forallb_forall. intros p Hin%list_elem_of_In.
      rewrite Forall_forall in Hheld. by apply Hheld.
  - cbn [mbind outcome_bind g_pCamera g]. subst g. cbn [g_pCamera].
    split; [discriminate |]. split; [discriminate |]. by intros [? _].
Qed.

Lemma PrepareSceneView_blocked_iff_witness :
  PrepareSceneView 1 (keys_down [KEY_P]) [mkPoll [] (keys_down [KEY_P])]
    (mkState sample_globals sample_view false []) = Blocked.
Proof.
  apply (PrepareSceneView_blocked_iff 1 (keys_down [KEY_P])
           [mkPoll [] (keys_down [KEY_P])]
           (mkState sample_globals sample_view false [])).
  - by eexists.
  - split; [reflexivity |]. repeat constructor.
Defined.

(** ** ViewManager.cpp: [KeyPressedOnce] and [HandleInteractiveShortcuts] *)

Lemma key_fires_after_step (m_window : KeyState) (key : Z) (ko : gmap Z bool) :
  key_fires m_window key (latch_step m_window key ko) = false.
Proof.
  unfold key_fires at 1. rewrite latched_latch_step_eq.
  by destruct (pressed m_window key).
Qed.

Lemma latch_step_idemp (m_window : KeyState) (key : Z) (ko : gmap Z bool) :
  latch_step m_window key (latch_step m_window key ko)
  = latch_step m_window key ko.
Proof.
  unfold latch_step at 1. rewrite key_fires_after_step.
  destruct (released m_window key) eqn:Hr; [| done].
  unfold latch_step, key_fires.
  rewrite (pressed_not_released _ _ Hr), Hr. cbn [andb].
  apply insert_insert_eq.
Qed.

(** X19.  A second call of [KeyPressedOnce] for the same key, with the key
    state as it was at the first call, returns false and changes nothing:
    within one frame a key fires at most once, however often it is asked
    for. *)
Theorem KeyPressedOnce_twice (m_window : KeyState) (key : Z) (vm : ViewManager) :
  let first := KeyPressedOnce m_window key vm in
  KeyPressedOnce m_window key first.2 = (false, first.2).
Proof.
  destruct vm. cbv zeta. rewrite KeyPressedOnce_mk. cbn [snd].
  by rewrite KeyPressedOnce_mk, key_fires_after_step, latch_step_idemp.
Qed.

(** X20.  From a multiplier within its bounds, doubling and then halving
    gives the multiplier back up to 4 and gives 4 above; halving and then
    doubling gives it back from 0.5 on and gives 0.5 below.  X and Z undo
    one another except at the bound that the first of them hit. *)
Theorem speed_round_trip (scale : R) :
  0.25 <= scale <= 8 ->
  halve_speed (double_speed scale) = std_min 4 scale
  /\ double_speed (halve_speed scale) = std_max 0.5 scale.
Proof.
  intros Hs. unfold halve_speed, double_speed, std_min, std_max.
  repeat destruct (Rlt_dec _ _); lra.
Qed.

Lemma speed_round_trip_witness :
  halve_speed (double_speed 1) = std_min 4 1
  /\ double_speed (halve_speed 1) = std_max 0.5 1.
Proof. apply (speed_round_trip 1). lra. Defined.

Lemma lookup_update_at_ne {A : Type} (f : A -> A) (i : Z) (j : nat) (a : list A) :
  Z.of_nat j <> i -> update_at f i a !! j = a !! j.
Proof.
  intros Hne. unfold update_at. case_match; [| done].
  apply list_lookup_alter_ne. lia.
Qed.

(** X21.  A frame of [HandleInteractiveShortcuts] keeps the three per-light
    arrays at their lengths and changes them at one index at most, that of
    the light selected when the frame ends: the position, the enabled flag
    and the intensity of every other light are what they were. *)
Theorem shortcuts_other_lights (window m_window : KeyState) (vm : ViewManager) :
  let vm' := HandleInteractiveShortcuts window m_window vm in
  length (m_pointLightPos vm') = length (m_pointLightPos vm)
  /\ length (m_pointLightOn vm') = length (m_pointLightOn vm)
  /\ length (m_pointIntensity vm') = length (m_pointIntensity vm)
  /\ forall i : nat,
       Z.of_nat i <> m_selectedPointLight vm' ->
       m_pointLightPos vm' !! i = m_pointLightPos vm !! i
       /\ m_pointLightOn vm' !! i = m_pointLightOn vm !! i
       /\ m_pointIntensity vm' !! i = m_pointIntensity vm !! i.
Proof.
  cbv zeta.
  rewrite shortcuts_m_pointLightPos, shortcuts_m_pointLightOn,
    shortcuts_m_pointIntensity, shortcuts_m_selectedPointLight.
  unfold intensity_after.
  repeat split.
  - apply length_update_at.
  - case_match; [apply length_update_at | done].
  - repeat case_match; by rewrite ?length_update_at.
  - by apply lookup_update_at_ne.
  - case_match; [by apply lookup_update_at_ne | done].
  - repeat case_match; by rewrite ?lookup_update_at_ne.
Qed.

(** X22.  The window title follows the selection and the speed.  After a
    frame of [HandleInteractiveShortcuts] in which Z, X or one of 1-4
    fires, the title shows the selected light, counted from 1, and the
    multiplier as the frame leaves them; a frame in which none fires keeps
    a title that was up to date up to date. *)
Theorem shortcuts_title_in_sync (window m_window : KeyState) (vm : ViewManager) :
  title_key_fires m_window (m_keyOnce vm) = true \/ title_in_sync vm ->
  title_in_sync (HandleInteractiveShortcuts window m_window vm).
Proof.
  destruct vm as [sh cam ko sc sel pos on int dir fl amb title].
  unfold title_in_sync. rewrite HandleInteractiveShortcuts_mk.
  cbv zeta. cbn [m_keyOnce m_window_title m_selectedPointLight m_moveSpeedScale].
  intros Hsync.
  destruct (key_fires m_window KEY_1 ko || key_fires m_window KEY_2 ko
            || key_fires m_window KEY_3 ko || key_fires m_window KEY_4 ko)
    eqn:Hdigit; [done |].
  assert (Hsel : selected_after m_window ko sel = sel).
  { rewrite !orb_false_iff in Hdigit. destruct Hdigit as (((H1 & H2) & H3) & H4).
    unfold selected_after. by rewrite H1, H2, H3, H4. }
  rewrite Hsel.
  destruct (key_fires m_window KEY_Z ko || key_fires m_window KEY_X ko)
    eqn:Hspeed; [done |].
  destruct Hsync as [Hfires | Hsync].
  - unfold title_key_fires in Hfires.
    rewrite !orb_false_iff in Hdigit. rewrite !orb_false_iff in Hspeed.
    destruct Hdigit as (((H1 & H2) & H3) & H4), Hspeed as (HZ & HX).
    by rewrite HZ, HX, H1, H2, H3, H4 in Hfires.
  - rewrite Hsync. rewrite !orb_false_iff in Hspeed. destruct Hspeed as (HZ & HX).
    unfold speed_after. by rewrite HZ, HX.
Qed.

Lemma shortcuts_title_in_sync_witness :
  title_in_sync (HandleInteractiveShortcuts no_keys (keys_down [KEY_3]) sample_view)
  /\ title_in_sync (HandleInteractiveShortcuts no_keys no_keys titled_view).
Proof.
  split.
  - apply (shortcuts_title_in_sync no_keys (keys_down [KEY_3]) sample_view).
    left. reflexivity.
  - apply (shortcuts_title_in_sync no_keys no_keys titled_view).
    right. reflexivity.
Defined.

(** X23.  A frame of [HandleInteractiveShortcuts] in which no key reads
    pressed changes nothing that the keys control: the camera, the speed
    multiplier, the selection, the three per-light arrays, the two toggles,
    the ambient boost and the window title are what they were. *)
Theorem shortcuts_idle (window m_window : KeyState) (vm : ViewManager) :
  (forall key, pressed window key = false) ->
  (forall key, pressed m_window key = false) ->
  let vm' := HandleInteractiveShortcuts window m_window vm in
  m_camera vm' = m_camera vm
  /\ m_moveSpeedScale vm' = m_moveSpeedScale vm
  /\ m_selectedPointLight vm' = m_selectedPointLight vm
  /\ m_pointLightPos vm' = m_pointLightPos vm
  /\ m_pointLightOn vm' = m_pointLightOn vm
  /\ m_pointIntensity vm' = m_pointIntensity vm
  /\ m_dirLightOn vm' = m_dirLightOn vm
  /\ m_flashlightOn vm' = m_flashlightOn vm
  /\ m_ambientBoost vm' = m_ambientBoost vm
  /\ m_window_title vm' = m_window_title vm.
Proof.
  intros Hw Hm. cbv zeta.
  assert (Hfires : forall key ko, key_fires m_window key ko = false).
  { intros key ko. unfold key_fires. by rewrite Hm. }
  destruct vm as [sh cam ko sc sel pos on int dir fl amb title].
  rewrite HandleInteractiveShortcuts_mk. cbv zeta.
  cbn [m_camera m_moveSpeedScale m_selectedPointLight m_pointLightPos
       m_pointLightOn m_pointIntensity m_dirLightOn m_flashlightOn
       m_ambientBoost m_window_title].
  unfold camera_after, speed_after, selected_after, intensity_after,
    raise_requested, lower_requested, ambient_after, nudge_of.
  rewrite !Hfires, !Hw. cbn [orb].
  repeat split.
  apply update_at_id. intros [px py pz]. unfold glm.add. cbn [glm.x glm.y glm.z].
  f_equal; lra.
Qed.

Lemma shortcuts_idle_witness :
  m_pointLightPos (HandleInteractiveShortcuts no_keys no_keys sample_view)
  = m_pointLightPos sample_view.
Proof.
  apply (shortcuts_idle no_keys no_keys sample_view); reflexivity.
Defined.
